(** * Storage layer of the community server: accessors and the accessor-based store

    A shallow embedding of
    - [src/storage/accessors/NormalizedDataAccessor.ts],
    - the in-memory accessor ([InMemoryDataAccessor]),
    - [src/storage/accessors/FileDataAccessor.ts],
    - [src/storage/DataAccessorBasedStore.ts],
    together with the properties the specification states about them
    and, after those, properties read off the code itself: what the
    store refuses before it writes, the edges of the in-memory cache,
    what the file accessor reads back after a write or a delete, and
    how the two spellings of an identifier are normalized.

    Conventions.  A JavaScript [async] method that reads and mutates the
    backend is a function from the backend state to an [Outcome]: either
    [Ok] with the returned value or [Throw] with the rejected error, each
    with the state the backend is left in.  Identifiers are the strings
    of their [path] field. *)

From Stdlib Require Import String Ascii List Bool Arith NArith Lia.
Import ListNotations.

Local Open Scope string_scope.
Local Open Scope list_scope.

Infix "+:+" := String.append (at level 60, right associativity).

Create HintDb paths.

(* ================================================================== *)
(** * JavaScript string primitives and [src/util/Util.ts]              *)
(* ================================================================== *)

Module Util.

Definition slash : ascii := "/"%char.

(** [s.endsWith(suffix)]: some suffix of [s] is [suffix]. *)
Fixpoint endsWith (s suffix : string) : bool :=
  (s =? suffix)
  || match s with
     | EmptyString => false
     | String _ r => endsWith r suffix
     end.

(** [s.startsWith(pre)]. *)
Fixpoint startsWith (s pre : string) : bool :=
  match pre, s with
  | EmptyString, _ => true
  | String _ _, EmptyString => false
  | String c p, String d r => Ascii.eqb c d && startsWith r p
  end.

(** [s.slice(n)]: [s] without its first [n] characters. *)
Fixpoint slice (n : nat) (s : string) : string :=
  match n, s with
  | 0, _ => s
  | S _, EmptyString => EmptyString
  | S m, String _ r => slice m r
  end.

(** [s.split('/')]: the pieces between slashes; never the empty list. *)
Fixpoint split (s : string) : list string :=
  match s with
  | EmptyString => [EmptyString]
  | String c r =>
      if Ascii.eqb c slash then EmptyString :: split r
      else match split r with
           | h :: t => String c h :: t
           | [] => [String c EmptyString]
           end
  end.

(** [s.split('/').filter(part => part.length > 0)]. *)
Definition nonEmpty (part : string) : bool := negb (part =? "").

Definition parts (s : string) : list string := filter nonEmpty (split s).

(** Modelled from the spec: [trimTrailingSlashes] of [src/util/Util.ts]
    (not among the sources) removes every slash at the end of the path. *)
Fixpoint trimTrailingSlashes (s : string) : string :=
  match s with
  | EmptyString => EmptyString
  | String c r =>
      match trimTrailingSlashes r with
      | EmptyString => if Ascii.eqb c slash then EmptyString else String c EmptyString
      | r' => String c r'
      end
  end.

(** Modelled from the spec: [ensureTrailingSlash] of [src/util/Util.ts]
    (not among the sources) makes the path end in exactly one slash. *)
Definition ensureTrailingSlash (s : string) : string :=
  trimTrailingSlashes s +:+ "/".

(** A path segment: not empty and free of slashes. *)
Fixpoint slashFree (s : string) : bool :=
  match s with
  | EmptyString => true
  | String c r => negb (Ascii.eqb c slash) && slashFree r
  end.

Definition isSegment (s : string) : bool := nonEmpty s && slashFree s.

(** [base + "s1/s2/.../sn/"] and [base + "s1/.../sn/name"]. *)
Fixpoint joinSegments (segs : list string) : string :=
  match segs with
  | [] => ""
  | s :: rest => s +:+ "/" +:+ joinSegments rest
  end.

Definition containerPath (base : string) (segs : list string) : string :=
  base +:+ joinSegments segs.

Definition resourcePath (base : string) (segs : list string) (name : string) : string :=
  base +:+ joinSegments segs +:+ name.

(** The part of [s] up to and including its last slash; empty when
    [s] has no slash. *)
Fixpoint upToLastSlash (s : string) : string :=
  match s with
  | EmptyString => EmptyString
  | String c r =>
      match upToLastSlash r with
      | EmptyString => if Ascii.eqb c slash then String c EmptyString else EmptyString
      | r' => String c r'
      end
  end.

(** [k] slashes in a row. *)
Fixpoint slashes (k : nat) : string :=
  match k with
  | 0 => ""
  | S k => String slash (slashes k)
  end.

End Util.
Import Util.


(* ================================================================== *)
(** * Errors and asynchronous methods                                  *)
(* ================================================================== *)

(** The error classes the storage layer throws or inspects.
    [SystemError code] is a Node.js file-system error ([isSystemError]);
    [GenericError] is a plain [Error]. *)
Inductive Error : Type :=
| NotFoundHttpError
| ConflictHttpError
| MethodNotAllowedHttpError
| UnsupportedHttpError
| UnsupportedMediaTypeHttpError
| SystemError (code : string)
| GenericError (message : string).

(** [error instanceof NotFoundHttpError]. *)
Definition isNotFound (e : Error) : bool :=
  match e with NotFoundHttpError => true | _ => false end.

(** [isSystemError(error) && error.code === code]. *)
Definition hasCode (code : string) (e : Error) : bool :=
  match e with SystemError c => c =? code | _ => false end.

(** What a call leaves behind: the value or the error, and the backend. *)
Inductive Outcome (S A : Type) : Type :=
| Ok (a : A) (s : S)
| Throw (e : Error) (s : S).
Arguments Ok {S A} a s.
Arguments Throw {S A} e s.

Definition Async (S A : Type) : Type := S -> Outcome S A.

Definition ret {S A} (a : A) : Async S A := fun s => Ok a s.

Definition throw {S A} (e : Error) : Async S A := fun s => Throw e s.

Definition bind {S A B} (m : Async S A) (k : A -> Async S B) : Async S B :=
  fun s => match m s with
           | Ok a s' => k a s'
           | Throw e s' => Throw e s'
           end.

(** [try { m } catch (error) { handler(error) }]. *)
Definition tryCatch {S A} (m : Async S A) (handler : Error -> Async S A) : Async S A :=
  fun s => match m s with
           | Ok a s' => Ok a s'
           | Throw e s' => handler e s'
           end.

(** A synchronous helper that may throw, run inside a method. *)
Definition liftE {S A} (r : Error + A) : Async S A :=
  fun s => match r with inl e => Throw e s | inr a => Ok a s end.

Declare Scope async_scope.
Delimit Scope async_scope with async.
Notation "x <- m ;; k" := (bind m (fun x => k))
  (at level 61, m at next level, right associativity) : async_scope.
Notation "m ;;; k" := (bind m (fun _ => k))
  (at level 61, right associativity) : async_scope.
Local Open Scope async_scope.

Definition stateOf {S A} (o : Outcome S A) : S :=
  match o with Ok _ s => s | Throw _ s => s end.

(** A method that only reads: whatever it returns or throws, the
    backend is as it was. *)
Definition readOnly {S A} (m : Async S A) : Prop :=
  forall s, stateOf (m s) = s.

(* ================================================================== *)
(** * Streams handed to the storage layer                              *)
(* ================================================================== *)

(** A [Readable] owned by its consumer: the chunks it will yield and,
    when it breaks, the error it emits after them. *)
Record Readable : Type := {
  chunks : list string;
  failure : option Error
}.

(** [streamifyArray(array)]. *)
Definition streamifyArray (array : list string) : Readable :=
  {| chunks := array; failure := None |}.

(** [await arrayifyStream(data)]: every chunk, or the stream's error. *)
Definition arrayifyStream {S} (data : Readable) : Async S (list string) :=
  match failure data with
  | Some e => throw e
  | None => ret (chunks data)
  end.

(* ================================================================== *)
(** * Metadata                                                         *)
(* ================================================================== *)

(** Modelled from the spec: the predicate and class URIs of
    [src/util/UriConstants.ts] (not among the sources). *)
Module RDF.
Definition type : string := "http://www.w3.org/1999/02/22-rdf-syntax-ns#type".
End RDF.

Module LDP.
Definition contains : string := "http://www.w3.org/ns/ldp#contains".
Definition BasicContainer : string := "http://www.w3.org/ns/ldp#BasicContainer".
Definition Container : string := "http://www.w3.org/ns/ldp#Container".
Definition Resource : string := "http://www.w3.org/ns/ldp#Resource".
End LDP.

Module HTTP.
Definition slug : string := "urn:solid:http:slug".
End HTTP.

Module POSIX.
Definition size : string := "http://www.w3.org/ns/posix/stat#size".
Definition mtime : string := "http://www.w3.org/ns/posix/stat#mtime".
End POSIX.

Module DCTERMS.
Definition modified : string := "http://purl.org/dc/terms/modified".
End DCTERMS.

Definition CONTENT_TYPE : string := "http://www.w3.org/ns/ma-ont#format".
Definition INTERNAL_QUADS : string := "internal/quads".

(** A quad by the values of its terms. *)
Record Quad : Type := {
  subject : string;
  predicate : string;
  object : string
}.

(** Modelled from the spec: [RepresentationMetadata]
    ([src/ldp/representation/RepresentationMetadata.ts], not among the
    sources) is the identifier of a resource and the quads known about
    it, "addressable by predicate". *)
Module Metadata.

Record t : Type := {
  identifier : string;
  quads : list Quad
}.

(** [new RepresentationMetadata(path)]. *)
Definition new (path : string) : t :=
  {| identifier := path; quads := [] |}.

Definition about (md : t) (p : string) (q : Quad) : bool :=
  (subject q =? identifier md) && (predicate q =? p).

(** [metadata.getAll(predicate)]: the values of the quads about the
    identifier with that predicate. *)
Definition getAll (p : string) (md : t) : list string :=
  map object (filter (about md p) (quads md)).

(** [metadata.get(predicate)?.value]. *)
Definition get (p : string) (md : t) : option string :=
  hd_error (getAll p md).

(** [metadata.removeAll(predicate)]. *)
Definition removeAll (p : string) (md : t) : t :=
  {| identifier := identifier md;
     quads := filter (fun q => negb (about md p q)) (quads md) |}.

(** [metadata.addQuads(quads)]. *)
Definition addQuads (qs : list Quad) (md : t) : t :=
  {| identifier := identifier md; quads := quads md ++ qs |}.

(** [metadata.set(predicate, value)]. *)
Definition set (p value : string) (md : t) : t :=
  addQuads [ {| subject := identifier md; predicate := p; object := value |} ]
           (removeAll p md).

(** [metadata.identifier = id]: the quads about the old identifier
    become quads about the new one. *)
Definition setIdentifier (id : string) (md : t) : t :=
  {| identifier := id;
     quads := map (fun q => if subject q =? identifier md
                            then {| subject := id; predicate := predicate q; object := object q |}
                            else q)
                  (quads md) |}.

(** [metadata.contentType = value]. *)
Definition setContentType (value : string) (md : t) : t :=
  set CONTENT_TYPE value md.

End Metadata.

Abbreviation RepresentationMetadata := Metadata.t.

(** Modelled from the spec: the quad generators of the Metadata Facade
    ([src/util/MetadataController.ts], not among the sources): the
    RDF-type marker of a resource (container, basic container and
    resource for a container; resource otherwise) and one containment
    edge per child. *)
Module MetadataController.

Definition typeQuad (subj cls : string) : Quad :=
  {| subject := subj; predicate := RDF.type; object := cls |}.

Definition generateResourceQuads (subj : string) (isContainer : bool) : list Quad :=
  if isContainer
  then [typeQuad subj LDP.Container; typeQuad subj LDP.BasicContainer; typeQuad subj LDP.Resource]
  else [typeQuad subj LDP.Resource].

Definition generateContainerContainsResourceQuads (subj : string) (childURIs : list string)
  : list Quad :=
  map (fun child => {| subject := subj; predicate := LDP.contains; object := child |}) childURIs.

End MetadataController.

(** A representation: its body and its metadata. *)
Record Representation : Type := {
  binary : bool;
  data : Readable;
  metadata : RepresentationMetadata
}.

Abbreviation ResourceIdentifier := string.

(* ================================================================== *)
(** * The [DataAccessor] interface                                     *)
(* ================================================================== *)

(** [S] is the backend, [R] the stream [getData] hands out. *)
Module DataAccessor.
Class DataAccessor (S R : Type) : Type := {
  canHandle : Representation -> Async S unit;
  getData : ResourceIdentifier -> Async S R;
  getMetadata : ResourceIdentifier -> Async S RepresentationMetadata;
  getNormalizedMetadata : ResourceIdentifier -> Async S RepresentationMetadata;
  writeDataResource : ResourceIdentifier -> Readable -> option RepresentationMetadata -> Async S unit;
  writeContainer : ResourceIdentifier -> option RepresentationMetadata -> Async S unit;
  modifyResource : Async S unit;
  deleteResource : ResourceIdentifier -> Async S unit
}.
End DataAccessor.
Abbreviation DataAccessor := DataAccessor.DataAccessor.

(* ================================================================== *)
(** * [NormalizedDataAccessor]                                         *)
(* ================================================================== *)

Module NormalizedDataAccessor.
Section Base.
Context {S : Type}.
(** The abstract [getMetadata] of the subclass. *)
Variable getMetadata : ResourceIdentifier -> Async S RepresentationMetadata.

Definition getNormalizedMetadata (identifier : ResourceIdentifier)
  : Async S RepresentationMetadata :=
  let hasSlash := endsWith identifier "/" in
  tryCatch (getMetadata identifier)
    (fun error =>
       if isNotFound error
       then getMetadata (if hasSlash then trimTrailingSlashes identifier
                         else ensureTrailingSlash identifier)
       else throw error).
End Base.

(** The identifier [getNormalizedMetadata] retries with. *)
Definition toggled (id : ResourceIdentifier) : ResourceIdentifier :=
  if endsWith id "/" then trimTrailingSlashes id else ensureTrailingSlash id.

End NormalizedDataAccessor.

(** The same algorithm in the words of its description, to compare the
    code with: "try [getMetadata(id)] as given; on a not-found failure
    specifically, retry with the identifier's trailing slash toggled;
    propagate any other failure immediately, and propagate the retry's
    outcome as final". *)
Module Described.

(** The identifier with its trailing slash toggled: one that ends in a
    slash is cut back until it no longer does, another is given one. *)
Definition toggleTrailingSlash (id : ResourceIdentifier) : ResourceIdentifier :=
  if endsWith id "/" then trimTrailingSlashes id else id +:+ "/".

Definition getNormalizedMetadata {S : Type}
    (getMetadata : ResourceIdentifier -> Async S RepresentationMetadata)
    (id : ResourceIdentifier) : Async S RepresentationMetadata :=
  fun s =>
    match getMetadata id s with
    | Ok metadata s' => Ok metadata s'
    | Throw NotFoundHttpError s' => getMetadata (toggleTrailingSlash id) s'
    | Throw error s' => Throw error s'
    end.

End Described.

(* ================================================================== *)
(** * Trees of named children                                          *)
(* ================================================================== *)

(** Both backends keep a tree whose inner nodes map child names to
    children: the cache of the in-memory accessor and the directories of
    the file system.  Children are kept in insertion order, the order
    [Object.keys] lists names that are not array indices in; the order
    of [readdir] is the file system's own, and is taken to be this
    one. *)
#[warnings="-register-all"]
Inductive Tree (L C : Type) : Type :=
| Leaf (l : L)
| Branch (children : list (string * Tree L C)) (c : C).
Arguments Leaf {L C} l.
Arguments Branch {L C} children c.

Module Children.
Section Children.
Context {V : Type}.

(** [children[name]]. *)
Fixpoint lookup (name : string) (es : list (string * V)) : option V :=
  match es with
  | [] => None
  | (k, v) :: rest => if k =? name then Some v else lookup name rest
  end.

(** [children[name] = v]: in place when the name is there, else last. *)
Fixpoint assign (name : string) (v : V) (es : list (string * V)) : list (string * V) :=
  match es with
  | [] => [(name, v)]
  | (k, w) :: rest => if k =? name then (k, v) :: rest else (k, w) :: assign name v rest
  end.

(** [delete children[name]]. *)
Fixpoint remove (name : string) (es : list (string * V)) : list (string * V) :=
  match es with
  | [] => []
  | (k, w) :: rest => if k =? name then remove name rest else (k, w) :: remove name rest
  end.
End Children.
End Children.

Abbreviation Entries L C := (list (string * Tree L C)).

Module Walk.
Section Walk.
Context {L C : Type}.
Local Abbreviation Entries := (Entries L C) (only parsing).

(** Where following a list of names from a node ends. *)
Inductive Descent : Type :=
| Reached (es : Entries)
| Missing
| NotBranch.

(** Follow [names] downwards through inner nodes only. *)
Fixpoint descend (names : list string) (es : Entries) : Descent :=
  match names with
  | [] => Reached es
  | n :: rest =>
      match Children.lookup n es with
      | None => Missing
      | Some (Leaf _) => NotBranch
      | Some (Branch ch _) => descend rest ch
      end
  end.

(** The tree in which the children of the node reached by [names]
    have been changed by [f]. *)
Fixpoint modify (names : list string) (f : Entries -> Entries) (es : Entries) : Entries :=
  match names with
  | [] => f es
  | n :: rest =>
      match Children.lookup n es with
      | Some (Branch ch c) => Children.assign n (Branch (modify rest f ch) c) es
      | _ => es
      end
  end.
(** The node [names] leads to; the root is not a node of its own. *)
Fixpoint find (names : list string) (es : Entries) : option (Tree L C) :=
  match names with
  | [] => None
  | n :: rest =>
      match rest with
      | [] => Children.lookup n es
      | _ :: _ =>
          match Children.lookup n es with
          | Some (Branch ch _) => find rest ch
          | _ => None
          end
      end
  end.
(** What the inner node [names] leads to carries. *)
Definition payloadAt (names : list string) (es : Entries) : option C :=
  match find names es with
  | Some (Branch _ c) => Some c
  | _ => None
  end.
End Walk.
Arguments Descent : clear implicits.
End Walk.
Import Walk.

(** [cells[i] = f(cells[i])], nothing when [i] is out of range. *)
Fixpoint updateNth {A} (i : nat) (f : A -> A) (l : list A) : list A :=
  match l, i with
  | [], _ => []
  | x :: rest, 0 => f x :: rest
  | x :: rest, S j => x :: updateNth j f rest
  end.

(* ================================================================== *)
(** * Names of properties                                              *)
(* ================================================================== *)

(** The in-memory accessor keeps the children of a container in a plain
    JavaScript object.  Such an object answers [entries[name]] for its
    own keys and also for the names it inherits from
    [Object.prototype], and [entries['__proto__'] = v] stores no key.
    [Children.lookup], [Children.assign] and [Children.remove] describe
    the own keys: they are what the accessor does for the names that
    are [ordinary], and the properties of the accessor are stated for
    identifiers made of such names. *)
Module ObjectPrototype.

(** [Object.getOwnPropertyNames(Object.prototype)] in Node.js. *)
Definition names : list string :=
  [ "constructor"; "__defineGetter__"; "__defineSetter__"; "hasOwnProperty";
    "__lookupGetter__"; "__lookupSetter__"; "isPrototypeOf"; "propertyIsEnumerable";
    "toString"; "valueOf"; "__proto__"; "toLocaleString" ].

(** [name in {}]. *)
Definition has (name : string) : bool := existsb (String.eqb name) names.

End ObjectPrototype.

(** A name no plain object inherits. *)
Definition ordinary (name : string) : bool := negb (ObjectPrototype.has name).

(* ================================================================== *)
(** * [InMemoryDataAccessor]                                           *)
(* ================================================================== *)

Module InMemoryDataAccessor.

(** A live stream object of the process: a reference into [streams]. *)
Abbreviation StreamRef := nat.

(** [interface DataEntry]. *)
Record DataEntry : Type := {
  entryData : StreamRef;
  entryMetadata : option RepresentationMetadata
}.

(** [type CacheEntry = DataEntry | ContainerEntry]. *)
Abbreviation CacheEntry := (Tree DataEntry (option RepresentationMetadata)).

(** [interface ContainerEntry]. *)
Record ContainerEntry : Type := {
  entries : list (string * CacheEntry);
  containerMetadata : option RepresentationMetadata
}.

Definition asEntry (c : ContainerEntry) : CacheEntry :=
  Branch (entries c) (containerMetadata c).

(** The accessor object and the streams it and its callers hold: cell
    [r] of [streams] is what stream [r] has buffered and not yet
    handed to a reader. *)
Record State : Type := {
  store : ContainerEntry;
  streams : list (list string)
}.

(** [new InMemoryDataAccessor(base, metadataController)]; the methods
    below take [this.base], which is [ensureTrailingSlash(base)]. *)
Definition constructor (base : string) : State :=
  let base := ensureTrailingSlash base in
  {| store :=
       {| entries := [];
          containerMetadata :=
            Some (Metadata.addQuads (MetadataController.generateResourceQuads base true)
                                    (Metadata.new base)) |};
     streams := [] |}.

(** ** Streams *)

Definition buffered (r : StreamRef) (st : State) : list string := nth r (streams st) [].

(** A new stream object holding [content]. *)
Definition newStream (content : list string) : State -> StreamRef * State :=
  fun st => (length (streams st),
             {| store := store st; streams := streams st ++ [content] |}).

(** [source.pipe(a); source.pipe(b)]: both destinations are attached
    before a chunk flows, and each receives every chunk of [source]. *)
Definition pipeBoth (source a b : StreamRef) : State -> State :=
  fun st =>
    let content := buffered source st in
    {| store := store st;
       streams := updateNth b (fun old => old ++ content)
                    (updateNth a (fun old => old ++ content)
                       (updateNth source (fun _ => []) (streams st))) |}.

(** A reader draining stream [r], as [readableToString] does. *)
Definition readAll (r : StreamRef) : State -> list string * State :=
  fun st => (buffered r st,
             {| store := store st; streams := updateNth r (fun _ => []) (streams st) |}).

Section Methods.
(** [this.base]. *)
Variable base : string.

Definition isDataEntry (entry : CacheEntry) : bool :=
  match entry with Leaf _ => true | Branch _ _ => false end.

(** The result of [getParentEntry]: the children of the parent, the
    name, and where that parent sits below [this.store]; [None] for
    the object made on the spot when the identifier is the root. *)
Record ParentEntry : Type := {
  parent : list (string * CacheEntry);
  name : string;
  location : option (list string)
}.

Definition getParentEntry (identifier : ResourceIdentifier) : Async State ParentEntry :=
  fun st =>
    let parts := parts (slice (String.length base) identifier) in
    match parts with
    | [] => Ok {| parent := [("root", asEntry (store st))];
                  name := "root";
                  location := None |} st
    | _ :: _ =>
        let name := last parts "" in
        let parts := removelast parts in
        match descend parts (entries (store st)) with
        | Reached es => Ok {| parent := es; name := name; location := Some parts |} st
        | _ => Throw NotFoundHttpError st
        end
    end.

Definition getEntry (identifier : ResourceIdentifier) : Async State CacheEntry :=
  p <- getParentEntry identifier ;;
  match Children.lookup (name p) (parent p) with
  | None => throw NotFoundHttpError
  | Some entry => ret entry
  end.

(** A mutation of [parent.entries]; a parent made on the spot is
    not part of the store. *)
Definition mutate (p : ParentEntry)
    (f : list (string * CacheEntry) -> list (string * CacheEntry)) : Async State unit :=
  fun st =>
    match location p with
    | None => Ok tt st
    | Some names =>
        Ok tt {| store := {| entries := modify names f (entries (store st));
                             containerMetadata := containerMetadata (store st) |};
                 streams := streams st |}
    end.

(** [copyData(source)], [source] being the entry stored at
    [identifier]: its stream is piped into two new ones, the entry
    keeps one and the caller gets the other. *)
Definition copyData (identifier : ResourceIdentifier) (source : DataEntry)
  : Async State StreamRef :=
  fun st =>
    let (streamOutput, st) := newStream [] st in
    let (streamInternal, st) := newStream [] st in
    let st := pipeBoth (entryData source) streamOutput streamInternal st in
    (p <- getParentEntry identifier ;;
     mutate p (Children.assign (name p)
                 (Leaf {| entryData := streamInternal;
                          entryMetadata := entryMetadata source |})) ;;;
     ret streamOutput) st.

Definition generateMetadata (identifier : ResourceIdentifier) (entry : CacheEntry)
  : RepresentationMetadata :=
  let stored := match entry with
                | Leaf d => entryMetadata d
                | Branch _ m => m
                end in
  let metadata := match stored with
                  | Some m => m
                  | None => Metadata.new identifier
                  end in
  match entry with
  | Leaf _ => metadata
  | Branch children _ =>
      let childNames :=
        map (fun kv : string * CacheEntry =>
               identifier +:+ fst kv +:+ (if isDataEntry (snd kv) then "" else "/"))
            children in
      Metadata.addQuads
        (MetadataController.generateContainerContainsResourceQuads
           (Metadata.identifier metadata) childNames)
        metadata
  end.

Definition canHandle (_ : Representation) : Async State unit := ret tt.

Definition getData (identifier : ResourceIdentifier) : Async State StreamRef :=
  entry <- getEntry identifier ;;
  match entry with
  | Leaf d => copyData identifier d
  | Branch _ _ => throw NotFoundHttpError
  end.

Definition getMetadata (identifier : ResourceIdentifier) : Async State RepresentationMetadata :=
  entry <- getEntry identifier ;;
  if Bool.eqb (isDataEntry entry) (endsWith identifier "/")
  then throw NotFoundHttpError
  else ret (generateMetadata identifier entry).

Definition getNormalizedMetadata (identifier : ResourceIdentifier)
  : Async State RepresentationMetadata :=
  entry <- getEntry identifier ;;
  ret (generateMetadata identifier entry).

Definition writeDataResource (identifier : ResourceIdentifier) (data : Readable)
    (metadata : option RepresentationMetadata) : Async State unit :=
  p <- getParentEntry identifier ;;
  array <- arrayifyStream data ;;
  stream <- (fun st => let (r, st') := newStream array st in Ok r st') ;;
  mutate p (Children.assign (name p)
              (Leaf {| entryData := stream; entryMetadata := metadata |})).

Definition writeContainer (identifier : ResourceIdentifier)
    (metadata : option RepresentationMetadata) : Async State unit :=
  p <- getParentEntry identifier ;;
  mutate p (Children.assign (name p) (Branch [] metadata)).

Definition modifyResource : Async State unit := throw (GenericError "Not supported.").

Definition deleteResource (identifier : ResourceIdentifier) : Async State unit :=
  p <- getParentEntry identifier ;;
  match Children.lookup (name p) (parent p) with
  | None => throw NotFoundHttpError
  | Some _ => mutate p (Children.remove (name p))
  end.

Definition accessor : DataAccessor State StreamRef := {|
  DataAccessor.canHandle := canHandle;
  DataAccessor.getData := getData;
  DataAccessor.getMetadata := getMetadata;
  DataAccessor.getNormalizedMetadata := getNormalizedMetadata;
  DataAccessor.writeDataResource := writeDataResource;
  DataAccessor.writeContainer := writeContainer;
  DataAccessor.modifyResource := modifyResource;
  DataAccessor.deleteResource := deleteResource
|}.
End Methods.

(** The backend once [parent.entries[n] = entry] has been done in the
    container reached by [dir]. *)
Definition withEntry (dir : list string) (n : string) (entry : CacheEntry) (st : State) : State :=
  {| store := {| entries := modify dir (Children.assign n entry) (entries (store st));
                 containerMetadata := containerMetadata (store st) |};
     streams := streams st |}.

(** What is persisted with an entry, or the metadata made for it. *)
Definition storedMetadata (id : ResourceIdentifier) (stored : option RepresentationMetadata)
  : RepresentationMetadata :=
  match stored with
  | Some m => m
  | None => Metadata.new id
  end.

Definition childNames (id : ResourceIdentifier) (children : list (string * CacheEntry))
  : list string :=
  map (fun kv : string * CacheEntry =>
         id +:+ fst kv +:+ (if isDataEntry (snd kv) then "" else "/")) children.

(** The non-empty pieces of the path of [id] below the base: the names
    [getParentEntry] follows. *)
Definition pieces (base : string) (id : ResourceIdentifier) : list string :=
  parts (slice (String.length base) id).

(** What an entry holds apart from metadata: the stream of a data
    entry, and the names and bodies of the children of a container. *)
Fixpoint body (entry : CacheEntry) : Tree StreamRef unit :=
  match entry with
  | Leaf d => Leaf (entryData d)
  | Branch children _ =>
      Branch (map (fun kv : string * CacheEntry => let (k, v) := kv in (k, body v)) children) tt
  end.

(** The backend after [getData] found the data entry [d] at
    [dir ++ [n]]: two new streams, the second kept by the entry. *)
Definition afterCopy (dir : list string) (n : string) (d : DataEntry) (st : State) : State :=
  {| store :=
       {| entries :=
            modify dir
              (Children.assign n
                 (Leaf {| entryData := S (List.length (streams st));
                          entryMetadata := entryMetadata d |}))
              (entries (store st));
          containerMetadata := containerMetadata (store st) |};
     streams :=
       streams (pipeBoth (entryData d) (List.length (streams st)) (S (List.length (streams st)))
                  {| store := store st; streams := (streams st ++ [[]]) ++ [[]] |}) |}.

End InMemoryDataAccessor.

(* ================================================================== *)
(** * The file system under [FileDataAccessor]                         *)
(* ================================================================== *)

(** The part of Node's [fs] module the accessor calls, over a tree of
    directories.  A path is resolved by its non-empty pieces, as the
    in-memory file system of the repository's unit tests resolves it. *)
Module Fs.

(** A leaf: a regular file with what was written to it (its bytes are
    the chunks put together), or something that is neither a regular
    file nor a directory ([content = None]). *)
Record File : Type := {
  content : option (list string);
  fileTime : nat
}.

(** A directory carries its modification time. *)
Abbreviation Node := (Tree File nat).

Record FileSystem : Type := {
  root : list (string * Node);
  clock : nat
}.

Record Stats : Type := {
  isFile : bool;
  isDirectory : bool;
  size : nat;
  mtime : nat
}.

Definition enoent : Error := SystemError "ENOENT".

(** Where a path points: the root directory, or a name among the
    children of the directory reached by [dir]. *)
Inductive Located : Type :=
| Root
| Child (dir : list string) (siblings : list (string * Node)) (name : string)
| Failed (e : Error).

Definition locate (path : string) (fs : FileSystem) : Located :=
  let names := parts path in
  match names with
  | [] => Root
  | _ :: _ =>
      match descend (removelast names) (root fs) with
      | Reached es => Child (removelast names) es (last names "")
      | Missing => Failed enoent
      | NotBranch => Failed (SystemError "ENOTDIR")
      end
  end.

Definition statsOf (node : Node) : Stats :=
  match node with
  | Leaf f =>
      {| isFile := match content f with Some _ => true | None => false end;
         isDirectory := false;
         size := match content f with
                 | Some cs => String.length (String.concat "" cs)
                 | None => 0
                 end;
         mtime := fileTime f |}
  | Branch _ t => {| isFile := false; isDirectory := true; size := 0; mtime := t |}
  end.

Definition change (dir : list string) (f : list (string * Node) -> list (string * Node))
    (fs : FileSystem) : FileSystem :=
  {| root := modify dir f (root fs); clock := clock fs |}.

Definition tick (fs : FileSystem) : FileSystem :=
  {| root := root fs; clock := S (clock fs) |}.

(** [fsPromises.lstat(path)]. *)
Definition lstat (path : string) : Async FileSystem Stats :=
  fun fs =>
    match locate path fs with
    | Root => Ok {| isFile := false; isDirectory := true; size := 0; mtime := 0 |} fs
    | Failed e => Throw e fs
    | Child _ es name =>
        match Children.lookup name es with
        | None => Throw enoent fs
        | Some node => Ok (statsOf node) fs
        end
    end.

(** [fsPromises.unlink(path)]. *)
Definition unlink (path : string) : Async FileSystem unit :=
  fun fs =>
    match locate path fs with
    | Root => Throw (SystemError "EISDIR") fs
    | Failed e => Throw e fs
    | Child dir es name =>
        match Children.lookup name es with
        | None => Throw enoent fs
        | Some (Branch _ _) => Throw (SystemError "EISDIR") fs
        | Some (Leaf _) => Ok tt (change dir (Children.remove name) fs)
        end
    end.

(** [fsPromises.rmdir(path)]. *)
Definition rmdir (path : string) : Async FileSystem unit :=
  fun fs =>
    match locate path fs with
    | Root => Throw (SystemError "EBUSY") fs
    | Failed e => Throw e fs
    | Child dir es name =>
        match Children.lookup name es with
        | None => Throw enoent fs
        | Some (Leaf _) => Throw (SystemError "ENOTDIR") fs
        | Some (Branch (_ :: _) _) => Throw (SystemError "ENOTEMPTY") fs
        | Some (Branch [] _) => Ok tt (change dir (Children.remove name) fs)
        end
    end.

(** [fsPromises.mkdir(path)]. *)
Definition mkdir (path : string) : Async FileSystem unit :=
  fun fs =>
    match locate path fs with
    | Root => Throw (SystemError "EEXIST") fs
    | Failed e => Throw e fs
    | Child dir es name =>
        match Children.lookup name es with
        | Some _ => Throw (SystemError "EEXIST") fs
        | None => Ok tt (tick (change dir (Children.assign name (Branch [] (clock fs))) fs))
        end
    end.

(** [fsPromises.readdir(path)]. *)
Definition readdir (path : string) : Async FileSystem (list string) :=
  fun fs =>
    match locate path fs with
    | Root => Ok (map fst (root fs)) fs
    | Failed e => Throw e fs
    | Child _ es name =>
        match Children.lookup name es with
        | None => Throw enoent fs
        | Some (Leaf _) => Throw (SystemError "ENOTDIR") fs
        | Some (Branch ch _) => Ok (map fst ch) fs
        end
    end.

(** A read stream hands out the bytes of a file in pieces of
    [highWaterMark] bytes (64 KiB for [createReadStream]), whatever the
    chunks they were written in. *)
Definition highWaterMark : N := 65536.

Fixpoint splitAt (n : N) (bytes : string) : string * string :=
  match bytes with
  | EmptyString => (EmptyString, EmptyString)
  | String c rest =>
      if N.eqb n 0 then (EmptyString, bytes)
      else let (taken, left) := splitAt (N.pred n) rest in (String c taken, left)
  end.

Fixpoint readChunks (reads : nat) (bytes : string) : list string :=
  match reads, bytes with
  | S reads, String _ _ =>
      let (chunk, rest) := splitAt highWaterMark bytes in chunk :: readChunks reads rest
  | _, _ => []
  end.

(** The stream over a regular file written as [content]. *)
Definition fileStream (content : list string) : Readable :=
  let bytes := String.concat "" content in
  streamifyArray (readChunks (String.length bytes) bytes).

(** [createReadStream(path)]: the stream of the file's bytes; a path
    that cannot be read gives a stream that emits the error. *)
Definition createReadStream (path : string) (fs : FileSystem) : Readable :=
  match locate path fs with
  | Root => {| chunks := []; failure := Some (SystemError "EISDIR") |}
  | Failed e => {| chunks := []; failure := Some e |}
  | Child _ es name =>
      match Children.lookup name es with
      | None => {| chunks := []; failure := Some enoent |}
      | Some (Branch _ _) => {| chunks := []; failure := Some (SystemError "EISDIR") |}
      | Some (Leaf f) =>
          match content f with
          | Some cs => fileStream cs
          | None => {| chunks := []; failure := Some (SystemError "EINVAL") |}
          end
      end
  end.

(** [data.pipe(createWriteStream(path))] run to its end: the file is
    created or truncated and receives the chunks of [data]; the
    promise rejects when the file cannot be opened or when [data]
    emits an error after its chunks. *)
Definition pipeToFile (path : string) (data : Readable) : Async FileSystem unit :=
  fun fs =>
    match locate path fs with
    | Root => Throw (SystemError "EISDIR") fs
    | Failed e => Throw e fs
    | Child dir es name =>
        match Children.lookup name es with
        | Some (Branch _ _) => Throw (SystemError "EISDIR") fs
        | _ =>
            let file := Leaf {| content := Some (chunks data); fileTime := clock fs |} in
            let fs' := tick (change dir (Children.assign name file) fs) in
            match failure data with
            | Some e => Throw e fs'
            | None => Ok tt fs'
            end
        end
    end.

(** The file system once [mkdir] has made the folder [name] in the
    folder reached by [dir]. *)
Definition made (dir : list string) (name : string) (fs : FileSystem) : FileSystem :=
  tick (change dir (Children.assign name (Branch [] (clock fs))) fs).

(** Something that is not a directory (a leaf of the tree) is at [path]. *)
Definition leafAt (path : string) (fs : FileSystem) : Prop :=
  exists dir es name l,
    locate path fs = Child dir es name /\ Children.lookup name es = Some (Leaf l).

(** [posix.join(path, name)]. *)
Definition joinPath (path name : string) : string :=
  trimTrailingSlashes path +:+ "/" +:+ name.

(** A name a directory can hold as it is given: a path segment other
    than [.] and [..], which a path resolves instead of looking up. *)
Definition isFileName (name : string) : bool :=
  isSegment name && negb (name =? ".") && negb (name =? "..").

End Fs.

(* ================================================================== *)
(** * [FileDataAccessor]                                               *)
(* ================================================================== *)

Module FileDataAccessor.
Section Methods.
(** [this.resourceMapper] (an [ExtensionBasedMapper], not among the
    sources): [mapUrlToFilePath] throws for identifiers it does not
    know. *)
Variable mapUrlToFilePath : ResourceIdentifier -> Error + string.
Variable mapFilePathToUrl : string -> string.
Variable getContentTypeFromExtension : string -> string.
(** [this.metadataController] ([parseQuads], [serializeQuads]). *)
Variable parseQuads : Readable -> Error + list Quad.
Variable serializeQuads : list Quad -> Readable.
(** [date.toISOString()] and [String(number)]. *)
Variable toISOString : nat -> string.
Variable numberToString : nat -> string.

Local Abbreviation FileSystem := Fs.FileSystem.

Definition canHandle (representation : Representation) : Async FileSystem unit :=
  if binary representation then ret tt else throw UnsupportedMediaTypeHttpError.

Definition getStats (path : string) : Async FileSystem Fs.Stats :=
  tryCatch (Fs.lstat path)
    (fun error => if hasCode "ENOENT" error then throw NotFoundHttpError else throw error).

Definition getMetadataPath (path : string) : string := path +:+ ".meta".

Definition isMetadataPath (path : string) : bool := endsWith path ".meta".

Definition writeDataFile (path : string) (data : Readable) : Async FileSystem unit :=
  Fs.pipeToFile path data.

Definition generatePosixQuads (subj : string) (stats : Fs.Stats) : list Quad :=
  [ {| subject := subj; predicate := POSIX.size; object := numberToString (Fs.size stats) |};
    {| subject := subj; predicate := DCTERMS.modified; object := toISOString (Fs.mtime stats) |};
    {| subject := subj; predicate := POSIX.mtime;
       object := numberToString (Fs.mtime stats / 1000) |} ].

Definition getRawMetadata (path : string) : Async FileSystem (list Quad) :=
  tryCatch
    (Fs.lstat (getMetadataPath path) ;;;
     readMetadataStream <- (fun fs => Ok (Fs.createReadStream (getMetadataPath path) fs) fs) ;;
     liftE (parseQuads readMetadataStream))
    (fun error => if negb (hasCode "ENOENT" error) then throw error else ret []).

Definition getBaseMetadata (identifier : ResourceIdentifier) (path : string)
    (stats : Fs.Stats) (isContainer : bool) : Async FileSystem RepresentationMetadata :=
  raw <- getRawMetadata path ;;
  let metadata := Metadata.addQuads raw (Metadata.new identifier) in
  let metadata :=
    Metadata.addQuads
      (MetadataController.generateResourceQuads (Metadata.identifier metadata) isContainer)
      metadata in
  let metadata :=
    Metadata.addQuads (generatePosixQuads (Metadata.identifier metadata) stats) metadata in
  ret metadata.

Definition getFileMetadata (identifier : ResourceIdentifier) (path : string)
    (stats : Fs.Stats) : Async FileSystem RepresentationMetadata :=
  let contentType := getContentTypeFromExtension path in
  metadata <- getBaseMetadata identifier path stats false ;;
  ret (Metadata.set CONTENT_TYPE contentType metadata).

(** The loop of [getChildMetadataQuads] over the names [readdir] gave. *)
Fixpoint childMetadata (path : string) (files : list string)
    (quads : list Quad) (childURIs : list string)
  : Async FileSystem (list Quad * list string) :=
  match files with
  | [] => ret (quads, childURIs)
  | childName :: rest =>
      if isMetadataPath childName then childMetadata path rest quads childURIs
      else
        childStats <- Fs.lstat (Fs.joinPath path childName) ;;
        if negb (Fs.isFile childStats) && negb (Fs.isDirectory childStats)
        then childMetadata path rest quads childURIs
        else
          let childURI := mapFilePathToUrl (Fs.joinPath path childName) in
          let childURI := if Fs.isDirectory childStats
                          then ensureTrailingSlash childURI else childURI in
          childMetadata path rest
            (quads
               ++ MetadataController.generateResourceQuads childURI (Fs.isDirectory childStats)
               ++ generatePosixQuads childURI childStats)
            (childURIs ++ [childURI])
  end.

Definition getChildMetadataQuads (identifier : ResourceIdentifier) (path : string)
  : Async FileSystem (list Quad) :=
  files <- Fs.readdir path ;;
  r <- childMetadata path files [] [] ;;
  let containsQuads :=
    MetadataController.generateContainerContainsResourceQuads identifier (snd r) in
  ret (fst r ++ containsQuads).

Definition getDirectoryMetadata (identifier : ResourceIdentifier) (path : string)
    (stats : Fs.Stats) : Async FileSystem RepresentationMetadata :=
  metadata <- getBaseMetadata identifier path stats true ;;
  children <- getChildMetadataQuads identifier path ;;
  ret (Metadata.addQuads children metadata).

Definition getData (identifier : ResourceIdentifier) : Async FileSystem Readable :=
  path <- liftE (mapUrlToFilePath identifier) ;;
  stats <- getStats path ;;
  if Fs.isFile stats
  then (fun fs => Ok (Fs.createReadStream path fs) fs)
  else throw NotFoundHttpError.

Definition getMetadata (identifier : ResourceIdentifier)
  : Async FileSystem RepresentationMetadata :=
  path <- liftE (mapUrlToFilePath identifier) ;;
  stats <- getStats path ;;
  if negb (endsWith identifier "/") && Fs.isFile stats
  then getFileMetadata identifier path stats
  else if endsWith identifier "/" && Fs.isDirectory stats
  then getDirectoryMetadata identifier path stats
  else throw NotFoundHttpError.

(** Inherited from [NormalizedDataAccessor]. *)
Definition getNormalizedMetadata : ResourceIdentifier -> Async FileSystem RepresentationMetadata :=
  NormalizedDataAccessor.getNormalizedMetadata getMetadata.

(** The sidecar part shared by both writers: the RDF types are left
    to the file system and the rest, when there is any, goes to the
    metadata file. *)
Definition writeSidecar (path : string) (metadata : option RepresentationMetadata)
  : Async FileSystem unit :=
  match metadata with
  | Some metadata =>
      let metadata := Metadata.removeAll RDF.type metadata in
      let quads := Metadata.quads metadata in
      if Nat.ltb 0 (List.length quads)
      then writeDataFile (getMetadataPath path) (serializeQuads quads)
      else ret tt
  | None => ret tt
  end.

Definition writeDataResource (identifier : ResourceIdentifier) (data : Readable)
    (metadata : option RepresentationMetadata) : Async FileSystem unit :=
  path <- liftE (mapUrlToFilePath identifier) ;;
  if isMetadataPath path then throw ConflictHttpError
  else
    writeSidecar path metadata ;;;
    tryCatch (writeDataFile path data)
      (fun error =>
         match metadata with
         | Some _ => Fs.unlink (getMetadataPath path)
         | None => ret tt
         end ;;;
         throw error).

Definition writeContainer (identifier : ResourceIdentifier)
    (metadata : option RepresentationMetadata) : Async FileSystem unit :=
  path <- liftE (mapUrlToFilePath identifier) ;;
  tryCatch (Fs.mkdir path)
    (fun error => if negb (hasCode "EEXIST" error) then throw error else ret tt) ;;;
  writeSidecar path metadata.

Definition modifyResource : Async FileSystem unit := throw (GenericError "Not supported.").

Definition deleteResource (identifier : ResourceIdentifier) : Async FileSystem unit :=
  path <- liftE (mapUrlToFilePath identifier) ;;
  stats <- getStats path ;;
  tryCatch (Fs.unlink (getMetadataPath path))
    (fun error => if negb (hasCode "ENOENT" error) then throw error else ret tt) ;;;
  if negb (endsWith identifier "/") && Fs.isFile stats then Fs.unlink path
  else if endsWith identifier "/" && Fs.isDirectory stats then Fs.rmdir path
  else throw NotFoundHttpError.

Definition accessor : DataAccessor FileSystem Readable := {|
  DataAccessor.canHandle := canHandle;
  DataAccessor.getData := getData;
  DataAccessor.getMetadata := getMetadata;
  DataAccessor.getNormalizedMetadata := getNormalizedMetadata;
  DataAccessor.writeDataResource := writeDataResource;
  DataAccessor.writeContainer := writeContainer;
  DataAccessor.modifyResource := modifyResource;
  DataAccessor.deleteResource := deleteResource
|}.
End Methods.

(** What a data write leaves in the folder: the file, the metadata
    file when there is metadata beyond the types, and the rest as it
    was. *)
Definition leaves (r : string) (data : Readable)
    (f : Entries Fs.File nat -> Entries Fs.File nat) : Prop :=
  (forall es, exists time,
      Children.lookup r (f es)
      = Some (Leaf {| Fs.content := Some (chunks data); Fs.fileTime := time |}))
  /\ (forall es k, k <> r -> k <> r +:+ ".meta" -> Children.lookup k (f es) = Children.lookup k es)
  /\ (forall es k, In k (map fst (f es)) -> In k (map fst es) \/ k = r \/ k = r +:+ ".meta").

End FileDataAccessor.

(* ================================================================== *)
(** * [ContainerManager]                                               *)
(* ================================================================== *)

(** Modelled from the spec: the Container Manager
    ([src/storage/ContainerManager.ts] and its implementation, not among
    the sources) "given an identifier, returns the identifier of its
    logical parent container": the identifier without its trailing
    slashes and without its last segment. *)
Module UrlContainerManager.

Definition getContainer (id : ResourceIdentifier) : Error + ResourceIdentifier :=
  inr (upToLastSlash (trimTrailingSlashes id)).

End UrlContainerManager.

(* ================================================================== *)
(** * [DataAccessorBasedStore]                                         *)
(* ================================================================== *)

(** A method that may call [createRecursiveContainers]: [None] when the
    recursion budget is used up before the method returns. *)
Definition Fueled (S A : Type) : Type := S -> option (Outcome S A).

Definition done {S A} (m : Async S A) : Fueled S A := fun s => Some (m s).

Definition andThen {S A B} (m : Fueled S A) (k : A -> Fueled S B) : Fueled S B :=
  fun s => match m s with
           | None => None
           | Some (Ok a s') => k a s'
           | Some (Throw e s') => Some (Throw e s')
           end.

Definition rescue {S A} (m : Fueled S A) (handler : Error -> Fueled S A) : Fueled S A :=
  fun s => match m s with
           | None => None
           | Some (Ok a s') => Some (Ok a s')
           | Some (Throw e s') => handler e s'
           end.

(** What [getRepresentation] returns: a [Representation] whose [data]
    is either the getter over the representation's own metadata (the
    quads of [result.metadata] at the time the data is asked for) or
    the stream the accessor handed out. *)
Module Retrieved.

Inductive Data (R : Type) : Type :=
| OfMetadata
| OfAccessor (stream : R).
Arguments OfMetadata {R}.
Arguments OfAccessor {R} stream.

Record t (R : Type) : Type := {
  binary : bool;
  data : Data R;
  metadata : RepresentationMetadata
}.
Arguments binary {R} _.
Arguments data {R} _.
Arguments metadata {R} _.

(** [result.data] of a container: [streamifyArray(result.metadata.quads())]. *)
Definition quads {R} (result : t R) : option (list Quad) :=
  match data result with
  | OfMetadata => Some (Metadata.quads (metadata result))
  | OfAccessor _ => None
  end.

End Retrieved.

(** The store changes the metadata object of the representation it is
    given ([removeAll], [addQuads], [identifier = ...]) and hands that
    object to the accessor, which may keep it.  Metadata are values
    here: what a write stores is the metadata as they are at the write.
    What is said of entries stored before a call is therefore said of
    what they hold apart from metadata ([InMemoryDataAccessor.body],
    the nodes of the file system), which no later change of a metadata
    object reaches. *)
Module DataAccessorBasedStore.
Section Store.
Context {S R : Type}.
(** [this.accessor], [this.base] (already with its trailing slash),
    [this.metadataController.parseQuads], [this.containerManager]. *)
Variable accessor : DataAccessor S R.
Variable base : string.
Variable parseQuads : Readable -> Error + list Quad.
Variable getContainer : ResourceIdentifier -> Error + ResourceIdentifier.
(** [uuid()]: the value of its [n]-th call within one operation. *)
Variable uuid : nat -> string.

Definition validateIdentifier (identifier : ResourceIdentifier) : Async S unit :=
  if negb (startsWith identifier base) then throw NotFoundHttpError else ret tt.

Definition isExistingContainer (metadata : RepresentationMetadata) : Error + bool :=
  let types := Metadata.getAll RDF.type metadata in
  match types with
  | [] => inl (GenericError "Unknown resource type.")
  | _ :: _ =>
      inr (existsb (fun type => (type =? LDP.Container) || (type =? LDP.BasicContainer))
                   types)
  end.

Definition isNewContainer (metadata : RepresentationMetadata) (suffix : option string) : bool :=
  match isExistingContainer metadata with
  | inr isContainer => isContainer
  | inl _ =>
      let slug := match suffix with
                  | Some s => Some s
                  | None => Metadata.get HTTP.slug metadata
                  end in
      match slug with
      | Some s => endsWith s "/"
      | None => false
      end
  end.

(** [createURI(container, isContainer, slug)]; [fresh] is what
    [uuid()] returns when it is called. *)
Definition createURI (container : ResourceIdentifier) (isContainer : bool)
    (slug : option string) (fresh : string) : ResourceIdentifier :=
  ensureTrailingSlash container
  +:+ (match slug with
       | Some s => if nonEmpty s then trimTrailingSlashes s else fresh
       | None => fresh
       end)
  +:+ (if isContainer then "/" else "").

Definition getEmptyContainerRepresentation (container : ResourceIdentifier) : Representation :=
  {| binary := true;
     data := streamifyArray [];
     metadata := Metadata.new container |}.

Definition handleContainerData (representation : Representation) : Async S Representation :=
  quads <- tryCatch (liftE (parseQuads (data representation)))
             (fun _ => throw UnsupportedHttpError) ;;
  if existsb (fun quad => predicate quad =? LDP.contains) quads
  then throw ConflictHttpError
  else
    ret {| binary := binary representation;
           data := data representation;
           metadata := Metadata.addQuads quads
                         (Metadata.removeAll CONTENT_TYPE (metadata representation)) |}.

(** [writeData], given what [this.createRecursiveContainers] is. *)
Definition writeDataUsing (createRecursiveContainers : ResourceIdentifier -> Fueled S unit)
    (identifier : ResourceIdentifier) (representation : Representation)
    (isContainer : bool) (createContainers : bool) : Fueled S unit :=
  andThen (done (if isContainer then handleContainerData representation
                 else ret representation))
    (fun representation =>
  andThen (if createContainers
           then andThen (done (liftE (getContainer identifier))) createRecursiveContainers
           else done (ret tt))
    (fun _ =>
       let metadata := Metadata.setIdentifier identifier (metadata representation) in
       let metadata :=
         Metadata.addQuads
           (MetadataController.generateResourceQuads (Metadata.identifier metadata) isContainer)
           metadata in
       done (if isContainer
             then DataAccessor.writeContainer identifier (Some metadata)
             else DataAccessor.writeDataResource identifier (data representation)
                    (Some metadata)))).

Fixpoint createRecursiveContainers (fuel : nat) (container : ResourceIdentifier)
  : Fueled S unit :=
  match fuel with
  | 0 => fun _ => None
  | Datatypes.S fuel =>
      rescue
        (done (metadata <- DataAccessor.getNormalizedMetadata container ;;
               isContainer <- liftE (isExistingContainer metadata) ;;
               if negb isContainer then throw ConflictHttpError else ret tt))
        (fun error =>
           if isNotFound error
           then
             andThen (andThen (done (liftE (getContainer container)))
                              (createRecursiveContainers fuel))
               (fun _ =>
                  writeDataUsing (createRecursiveContainers fuel) container
                    (getEmptyContainerRepresentation container) true false)
           else done (throw error))
  end.

Definition writeData (fuel : nat) :=
  writeDataUsing (createRecursiveContainers fuel).

Definition addResource (fuel : nat) (container : ResourceIdentifier)
    (representation : Representation) : Fueled S ResourceIdentifier :=
  andThen (done (validateIdentifier container ;;; DataAccessor.canHandle representation))
    (fun _ =>
       let isContainer := isNewContainer (metadata representation) None in
       let slug := Metadata.get HTTP.slug (metadata representation) in
       let calls := match slug with
                    | Some s => if nonEmpty s then 0 else 1
                    | None => 1
                    end in
       let newID := createURI container isContainer slug (uuid 0) in
       let representation :=
         {| binary := binary representation;
            data := data representation;
            metadata := Metadata.removeAll HTTP.slug (metadata representation) |} in
  andThen (done
    (tryCatch
       (parentMetadata <- DataAccessor.getNormalizedMetadata container ;;
        let withSlash := ensureTrailingSlash newID in
        let withoutSlash := trimTrailingSlashes newID in
        let exists_ := existsb (fun term => (term =? withSlash) || (term =? withoutSlash))
                               (Metadata.getAll LDP.contains parentMetadata) in
        ret (Some parentMetadata,
             if exists_ then createURI container isContainer None (uuid calls) else newID))
       (fun error =>
          if negb (isNotFound error) then throw error
          else if negb (endsWith container "/") then throw NotFoundHttpError
          else ret (None, newID))))
    (fun found =>
       let parentMetadata : option RepresentationMetadata := fst found in
       let newID : ResourceIdentifier := snd found in
  andThen (done
    match parentMetadata with
    | Some parentMetadata =>
        isContainer <- liftE (isExistingContainer parentMetadata) ;;
        if negb isContainer then throw MethodNotAllowedHttpError else ret tt
    | None => ret tt
    end)
    (fun _ =>
  andThen (writeData fuel newID representation isContainer
             (match parentMetadata with Some _ => false | None => true end))
    (fun _ => done (ret newID))))).

Definition setRepresentation (fuel : nat) (identifier : ResourceIdentifier)
    (representation : Representation) : Fueled S unit :=
  andThen (done
    (validateIdentifier identifier ;;;
     DataAccessor.canHandle representation ;;;
     tryCatch
       (oldMetadata <- DataAccessor.getNormalizedMetadata identifier ;;
        if negb (Metadata.identifier oldMetadata =? identifier)
        then throw ConflictHttpError
        else ret (Some oldMetadata))
       (fun error => if negb (isNotFound error) then throw error else ret None)))
    (fun oldMetadata =>
       let isContainer := isNewContainer (metadata representation) (Some identifier) in
  andThen (done
    (match oldMetadata with
     | Some oldMetadata =>
         existing <- liftE (isExistingContainer oldMetadata) ;;
         if negb (Bool.eqb isContainer existing) then throw ConflictHttpError else ret tt
     | None => ret tt
     end ;;;
     if negb (Bool.eqb isContainer (endsWith identifier "/"))
     then throw UnsupportedHttpError else ret tt))
    (fun _ =>
       writeData fuel identifier representation isContainer
         (match oldMetadata with Some _ => false | None => true end))).

Definition modifyResource (identifier : ResourceIdentifier) : Async S unit :=
  validateIdentifier identifier ;;; DataAccessor.modifyResource.

Definition deleteResource (identifier : ResourceIdentifier) : Async S unit :=
  validateIdentifier identifier ;;;
  if ensureTrailingSlash identifier =? base then throw MethodNotAllowedHttpError
  else
    metadata <- DataAccessor.getMetadata identifier ;;
    if Nat.ltb 0 (List.length (Metadata.getAll LDP.contains metadata))
    then throw ConflictHttpError
    else DataAccessor.deleteResource identifier.

Definition getRepresentation (identifier : ResourceIdentifier) : Async S (Retrieved.t R) :=
  validateIdentifier identifier ;;;
  metadata <- DataAccessor.getMetadata identifier ;;
  isContainer <- liftE (isExistingContainer metadata) ;;
  if isContainer
  then
    ret {| Retrieved.binary := false;
           Retrieved.data := Retrieved.OfMetadata;
           Retrieved.metadata := Metadata.setContentType INTERNAL_QUADS metadata |}
  else
    let binary := negb (match Metadata.get CONTENT_TYPE metadata with
                        | Some contentType => contentType =? INTERNAL_QUADS
                        | None => false
                        end) in
    data <- DataAccessor.getData identifier ;;
    ret {| Retrieved.binary := binary;
           Retrieved.data := Retrieved.OfAccessor data;
           Retrieved.metadata := metadata |}.
End Store.

(** What [writeData] hands to the accessor for the empty container
    [createRecursiveContainers] makes at [container]. *)
Definition emptyContainerMetadata (container : ResourceIdentifier) : RepresentationMetadata :=
  {| Metadata.identifier := container;
     Metadata.quads := MetadataController.generateResourceQuads container true |}.

(** The in-memory backend once the empty containers [a/], [a/b/] and
    [a/b/c/] have been made, from the outermost inwards. *)
Definition cascade (base a b c : string) (st : InMemoryDataAccessor.State)
  : InMemoryDataAccessor.State :=
  InMemoryDataAccessor.withEntry [a; b] c
    (Branch [] (Some (emptyContainerMetadata (containerPath base [a; b; c]))))
    (InMemoryDataAccessor.withEntry [a] b
       (Branch [] (Some (emptyContainerMetadata (containerPath base [a; b]))))
       (InMemoryDataAccessor.withEntry [] a
          (Branch [] (Some (emptyContainerMetadata (containerPath base [a])))) st)).

(** What [writeData] hands to the accessor for a data resource. *)
Definition resourceMetadata (id : ResourceIdentifier) (representation : Representation)
  : RepresentationMetadata :=
  Metadata.addQuads (MetadataController.generateResourceQuads id false)
    (Metadata.setIdentifier id (metadata representation)).

(** The in-memory backend [setRepresentation] leaves when it had to
    make [a/], [a/b/] and [a/b/c/] for the data resource [a/b/c/r]. *)
Definition created (base a b c r : string) (representation : Representation)
    (st : InMemoryDataAccessor.State) : InMemoryDataAccessor.State :=
  InMemoryDataAccessor.withEntry [a; b; c] r
    (Leaf {| InMemoryDataAccessor.entryData := List.length (InMemoryDataAccessor.streams st);
             InMemoryDataAccessor.entryMetadata :=
               Some (resourceMetadata (resourcePath base [a; b; c] r) representation) |})
    {| InMemoryDataAccessor.store := InMemoryDataAccessor.store (cascade base a b c st);
       InMemoryDataAccessor.streams :=
         InMemoryDataAccessor.streams st ++ [chunks (data representation)] |}.

End DataAccessorBasedStore.

(* ================================================================== *)
(** * A resource mapper for concrete scenarios                         *)
(* ================================================================== *)

(** Modelled from the spec: the Identifier Mapper
    ([src/storage/ExtensionBasedMapper.ts], not among the sources) maps
    "a resource URI" to "a backend file path": the part of the
    identifier below the base, placed under the root folder; identifiers
    outside the base are not found. *)
Module ExtensionBasedMapper.

Definition mapUrlToFilePath (base rootFilepath : string) (identifier : ResourceIdentifier)
  : Error + string :=
  if startsWith identifier base
  then inr (Fs.joinPath rootFilepath (slice (String.length base) identifier))
  else inl NotFoundHttpError.

(** The way back: the part of the path below the root folder, placed
    under the base. *)
Definition mapFilePathToUrl (base rootFilepath : string) (path : string) : ResourceIdentifier :=
  base +:+ slice (String.length (ensureTrailingSlash rootFilepath)) path.

End ExtensionBasedMapper.

(* ================================================================== *)
(** * Scenarios                                                        *)
(* ================================================================== *)

(** The concrete backends, identifiers and representations at which the
    properties below are exercised; they follow the unit tests of the
    accessors (base [http://test.com/], root folder [uploads]). *)

(** The file system of the scenarios below: the root folder [uploads]
    of the mapper, with the given files and folders in it. *)
Definition uploads (children : list (string * Fs.Node)) : Fs.FileSystem :=
  {| Fs.root := [("uploads", Branch children 0)]; Fs.clock := 1 |}.

Definition regularFile (content : list string) : Fs.Node :=
  Leaf {| Fs.content := Some content; Fs.fileTime := 0 |}.

Definition testMapper : ResourceIdentifier -> Error + string :=
  ExtensionBasedMapper.mapUrlToFilePath "http://test.com/" "uploads".

(** The way back for the scenarios: the path below the root folder,
    placed under the base. *)
Definition testUrl (path : string) : string :=
  "http://test.com/" +:+ slice (String.length "uploads/") path.

(** The content type, the date and the numbers of the scenarios. *)
Definition testContentType (path : string) : string :=
  if endsWith path ".txt" then "text/plain" else "application/octet-stream".

Definition testDate (time : nat) : string := "1970-01-01T00:00:00.000Z".

Definition testNumber (n : nat) : string :=
  match n with
  | 0 => "0"
  | _ => "n"
  end.

(** A serializer for the scenarios: one chunk per quad. *)
Definition testSerializer (quads : list Quad) : Readable :=
  streamifyArray (map (fun q => subject q +:+ " " +:+ predicate q +:+ " " +:+ object q) quads).

(** A stream that emits an error after its chunks. *)
Definition brokenStream (chunks : list string) : Readable :=
  {| chunks := chunks; failure := Some (GenericError "error") |}.

Definition likesApples : RepresentationMetadata :=
  {| Metadata.identifier := "http://test.com/resource";
     Metadata.quads := [ {| subject := "http://test.com/resource";
                            predicate := "likes"; object := "apples" |} ] |}.

Definition onlyType : RepresentationMetadata :=
  Metadata.addQuads (MetadataController.generateResourceQuads "http://test.com/resource" false)
                    (Metadata.new "http://test.com/resource").

(** A resource whose sidecar was left by an earlier write. *)
Definition staleSidecar : Fs.FileSystem :=
  uploads [("resource", regularFile ["old"]);
           ("resource.meta", regularFile ["old metadata"])].

(** A folder with its own metadata file and one resource in it. *)
Definition folderWithChild : Fs.FileSystem :=
  uploads [("container", Branch [(".meta", regularFile ["metadata"]);
                                 ("resource", regularFile ["apple"])] 0)].

(** The in-memory accessor of the unit tests, empty and after one write. *)
Definition testBase : string := "http://test.com/".

Definition emptyStore : InMemoryDataAccessor.State :=
  InMemoryDataAccessor.constructor "http://test.com/".

Definition withResource : InMemoryDataAccessor.State :=
  stateOf (InMemoryDataAccessor.writeDataResource testBase "http://test.com/resource"
             (streamifyArray ["data"]) None emptyStore).

Definition withContainer : InMemoryDataAccessor.State :=
  stateOf (InMemoryDataAccessor.writeContainer testBase "http://test.com/container/"
             None emptyStore).

(** A parser for the scenarios: an empty body holds no quads, and no
    other body is RDF. *)
Definition testParser (body : Readable) : Error + list Quad :=
  match chunks body with
  | [] => inr []
  | _ :: _ => inl (GenericError "not RDF")
  end.

(** The identifiers [uuid()] hands out in the scenarios. *)
Definition testUuid (n : nat) : string :=
  match n with
  | 0 => "b3c8e2a0"
  | _ => "7f1d4c96"
  end.

(** A plain data representation, and the store of the scenarios after
    [setRepresentation]. *)
Definition plainText (body : list string) : Representation :=
  {| binary := true; data := streamifyArray body; metadata := Metadata.new "" |}.

Definition testSetRepresentation (id : ResourceIdentifier) (representation : Representation)
    (st : InMemoryDataAccessor.State) : InMemoryDataAccessor.State :=
  match DataAccessorBasedStore.setRepresentation (InMemoryDataAccessor.accessor testBase)
          testBase testParser UrlContainerManager.getContainer 8 id representation st with
  | Some outcome => stateOf outcome
  | None => st
  end.

(** The container [c/] with its only child [c/x]. *)
Definition containerWithChild : InMemoryDataAccessor.State :=
  testSetRepresentation "http://test.com/c/x" (plainText ["hello"]) emptyStore.

(** A representation that declares itself a container. *)
Definition containerTyped (body : list string) : Representation :=
  {| binary := true;
     data := streamifyArray body;
     metadata := Metadata.addQuads [MetadataController.typeQuad "" LDP.Container]
                   (Metadata.new "") |}.

(** A data representation with the suggested name [x]. *)
Definition withSlug (slug : string) (body : list string) : Representation :=
  {| binary := true;
     data := streamifyArray body;
     metadata := Metadata.addQuads
                   [ {| subject := ""; predicate := HTTP.slug; object := slug |} ]
                   (Metadata.new "") |}.

(** The identifiers [getChildMetadataQuads] lists for the folder at
    [path] whose children are [children]: none for a metadata file or
    for something that is neither a file nor a folder, and the mapped
    path otherwise, with a trailing slash for a folder. *)
Definition listedChildren (mapFilePathToUrl : string -> string) (path : string)
    (children : list (string * Fs.Node)) : list string :=
  flat_map
    (fun childName =>
       if FileDataAccessor.isMetadataPath childName then []
       else
         match Children.lookup childName children with
         | Some (Branch _ _) =>
             [ensureTrailingSlash (mapFilePathToUrl (Fs.joinPath path childName))]
         | Some (Leaf file) =>
             match Fs.content file with
             | Some _ => [mapFilePathToUrl (Fs.joinPath path childName)]
             | None => []
             end
         | None => []
         end)
    (map fst children).

(* ================================================================== *)
(** * Facts about strings and paths                                    *)
(* ================================================================== *)

Example split_example : split "a//b/" = ["a"; ""; "b"; ""].
Proof. reflexivity. Qed.

Example parts_example :
  parts (slice 16 "http://test.com/container/resource") = ["container"; "resource"].
Proof. reflexivity. Qed.

Example ensureTrailingSlash_example :
  ensureTrailingSlash "http://test.com//" = "http://test.com/".
Proof. reflexivity. Qed.

Example getContainer_example :
  UrlContainerManager.getContainer "http://test.com/a/b/" = inr "http://test.com/a/".
Proof. reflexivity. Qed.

Section StringFacts.

Lemma append_nil_r (s : string) : s +:+ "" = s.
Proof. induction s as [|c s IH]; simpl; [reflexivity | now rewrite IH]. Qed.

Lemma append_assoc (s t u : string) : (s +:+ t) +:+ u = s +:+ t +:+ u.
Proof. induction s as [|c s IH]; simpl; [reflexivity | now rewrite IH]. Qed.

Lemma length_append (s t : string) :
  String.length (s +:+ t) = String.length s + String.length t.
Proof. induction s as [|c s IH]; simpl; [reflexivity | now rewrite IH]. Qed.

Lemma append_inv_head (s t u : string) : s +:+ t = s +:+ u -> t = u.
Proof.
  induction s as [|c s IH]; simpl; intros H; [assumption|].
  injection H as H. now apply IH.
Qed.

Lemma startsWith_append (b r : string) : startsWith (b +:+ r) b = true.
Proof.
  induction b as [|c b IH]; simpl.
  - now destruct r.
  - now rewrite Ascii.eqb_refl, IH.
Qed.

Lemma slice_append (b r : string) : slice (String.length b) (b +:+ r) = r.
Proof. induction b as [|c b IH]; simpl; [reflexivity | exact IH]. Qed.

Lemma slice_append_le (n : nat) (s t : string) :
  n <= String.length s -> slice n (s +:+ t) = slice n s +:+ t.
Proof.
  revert s; induction n as [|n IH]; intros s Hn; [reflexivity|].
  destruct s as [|c s]; simpl in *; [lia|]. apply IH; lia.
Qed.

Lemma slice_beyond (n : nat) (s : string) : String.length s <= n -> slice n s = "".
Proof.
  revert s; induction n as [|n IH]; intros s Hn.
  - destruct s; simpl in *; [reflexivity | lia].
  - destruct s as [|c s]; simpl in *; [reflexivity|]. apply IH; lia.
Qed.

(** ** Splitting at slashes *)

Lemma split_not_nil (s : string) : split s <> [].
Proof.
  induction s as [|c s IH]; simpl; [discriminate|].
  destruct (Ascii.eqb c slash); [discriminate|].
  destruct (split s); discriminate.
Qed.

Lemma split_snoc_slash (s : string) : split (s +:+ "/") = split s ++ [""].
Proof.
  induction s as [|c s IH]; simpl; [reflexivity|].
  rewrite IH. destruct (Ascii.eqb c slash); [reflexivity|].
  pose proof (split_not_nil s) as Hs.
  destruct (split s) as [|h t]; [contradiction | reflexivity].
Qed.

Lemma split_slashFree (s : string) : slashFree s = true -> split s = [s].
Proof.
  induction s as [|c s IH]; simpl; [reflexivity|].
  intros H. apply andb_prop in H as [Hc Hs].
  apply negb_true_iff in Hc. rewrite Hc, (IH Hs). reflexivity.
Qed.

Lemma split_segment (s r : string) :
  slashFree s = true -> split (s +:+ String slash r) = s :: split r.
Proof.
  induction s as [|c s IH]; simpl; [reflexivity|].
  intros H. apply andb_prop in H as [Hc Hs].
  apply negb_true_iff in Hc. rewrite Hc, (IH Hs). reflexivity.
Qed.

Lemma parts_snoc_slash (s : string) : parts (s +:+ "/") = parts s.
Proof.
  unfold parts. rewrite split_snoc_slash, filter_app. simpl. apply app_nil_r.
Qed.

Lemma isSegment_nonEmpty (s : string) : isSegment s = true -> nonEmpty s = true.
Proof. unfold isSegment. intros H. now apply andb_prop in H. Qed.

Lemma isSegment_slashFree (s : string) : isSegment s = true -> slashFree s = true.
Proof. unfold isSegment. intros H. now apply andb_prop in H. Qed.

Lemma parts_segment (s r : string) :
  isSegment s = true -> parts (s +:+ String slash r) = s :: parts r.
Proof.
  intros H. unfold parts.
  rewrite (split_segment s r (isSegment_slashFree s H)). simpl.
  now rewrite (isSegment_nonEmpty s H).
Qed.

Lemma parts_name (s : string) : isSegment s = true -> parts s = [s].
Proof.
  intros H. unfold parts.
  rewrite (split_slashFree s (isSegment_slashFree s H)). simpl.
  now rewrite (isSegment_nonEmpty s H).
Qed.

Lemma parts_joinSegments (segs : list string) :
  forallb isSegment segs = true -> parts (joinSegments segs) = segs.
Proof.
  induction segs as [|s segs IH]; simpl; [reflexivity|].
  intros H. apply andb_prop in H as [Hs Hr].
  change (parts (s +:+ String slash (joinSegments segs)) = s :: segs).
  now rewrite (parts_segment _ _ Hs), (IH Hr).
Qed.

Lemma parts_joinSegments_name (segs : list string) (name : string) :
  forallb isSegment segs = true -> isSegment name = true ->
  parts (joinSegments segs +:+ name) = segs ++ [name].
Proof.
  intros Hsegs Hname. induction segs as [|s segs IH]; simpl.
  - now apply parts_name.
  - simpl in Hsegs. apply andb_prop in Hsegs as [Hs Hr].
    rewrite !append_assoc.
    change (parts (s +:+ String slash (joinSegments segs +:+ name)) = s :: segs ++ [name]).
    now rewrite (parts_segment _ _ Hs), (IH Hr).
Qed.

Lemma parts_containerPath (base : string) (segs : list string) :
  forallb isSegment segs = true ->
  parts (slice (String.length base) (containerPath base segs)) = segs.
Proof.
  intros H. unfold containerPath. rewrite slice_append. now apply parts_joinSegments.
Qed.

Lemma parts_resourcePath (base : string) (segs : list string) (name : string) :
  forallb isSegment segs = true -> isSegment name = true ->
  parts (slice (String.length base) (resourcePath base segs name)) = segs ++ [name].
Proof.
  intros H Hn. unfold resourcePath. rewrite slice_append.
  now apply parts_joinSegments_name.
Qed.

Lemma joinSegments_app (xs ys : list string) :
  joinSegments (xs ++ ys) = joinSegments xs +:+ joinSegments ys.
Proof.
  induction xs as [|x xs IH]; simpl; [reflexivity|].
  now rewrite IH, !append_assoc.
Qed.

Lemma containerPath_snoc (base : string) (segs : list string) (name : string) :
  containerPath base (segs ++ [name]) = resourcePath base segs name +:+ "/".
Proof.
  unfold containerPath, resourcePath. rewrite joinSegments_app. simpl.
  now rewrite !append_assoc.
Qed.

Lemma startsWith_containerPath (base : string) (segs : list string) :
  startsWith (containerPath base segs) base = true.
Proof. apply startsWith_append. Qed.

Lemma startsWith_resourcePath (base : string) (segs : list string) (name : string) :
  startsWith (resourcePath base segs name) base = true.
Proof. apply startsWith_append. Qed.

End StringFacts.

Section SlashFacts.

Lemma endsWith_snoc_slash (s : string) : endsWith (s +:+ "/") "/" = true.
Proof.
  induction s as [|c s IH]; simpl; [reflexivity|].
  rewrite IH. apply orb_true_r.
Qed.

Lemma endsWith_slashFree (s : string) : slashFree s = true -> endsWith s "/" = false.
Proof.
  induction s as [|c s IH]; simpl; [reflexivity|].
  intros H. apply andb_prop in H as [Hc Hs]. apply negb_true_iff in Hc.
  rewrite (IH Hs), orb_false_r.
  unfold slash in Hc. rewrite Hc. reflexivity.
Qed.

Lemma append_eq_nil (s t : string) : s +:+ t = "" -> t = "".
Proof. destruct s; simpl; [trivial | discriminate]. Qed.

Lemma nonEmpty_spec (s : string) : nonEmpty s = true <-> s <> "".
Proof.
  unfold nonEmpty. rewrite negb_true_iff. apply String.eqb_neq.
Qed.

Lemma endsWith_name (t name : string) :
  isSegment name = true -> endsWith (t +:+ name) "/" = false.
Proof.
  intros H. induction t as [|c t IH]; simpl.
  - apply endsWith_slashFree, isSegment_slashFree, H.
  - rewrite IH, orb_false_r.
    destruct (t +:+ name) eqn:E.
    + apply append_eq_nil in E. apply isSegment_nonEmpty, nonEmpty_spec in H. contradiction.
    + apply andb_false_r.
Qed.

(** ** [trimTrailingSlashes] and [ensureTrailingSlash] *)

Lemma trim_snoc_slash (s : string) : trimTrailingSlashes (s +:+ "/") = trimTrailingSlashes s.
Proof. induction s as [|c s IH]; simpl; [reflexivity | now rewrite IH]. Qed.

Lemma trim_no_slash (s : string) : endsWith s "/" = false -> trimTrailingSlashes s = s.
Proof.
  induction s as [|c s IH]; simpl; [reflexivity|].
  intros H. apply orb_false_elim in H as [Hc Hs]. rewrite (IH Hs).
  destruct s as [|d s]; [|reflexivity].
  destruct (Ascii.eqb c slash) eqn:Ec; [|reflexivity].
  apply Ascii.eqb_eq in Ec. subst c. discriminate Hc.
Qed.

Lemma trim_idempotent (s : string) :
  trimTrailingSlashes (trimTrailingSlashes s) = trimTrailingSlashes s.
Proof.
  induction s as [|c s IH]; simpl; [reflexivity|].
  destruct (trimTrailingSlashes s) as [|d r] eqn:E.
  - destruct (Ascii.eqb c slash) eqn:Ec; simpl; [reflexivity | now rewrite Ec].
  - simpl in *. now rewrite IH.
Qed.

Lemma ensure_idempotent (s : string) :
  ensureTrailingSlash (ensureTrailingSlash s) = ensureTrailingSlash s.
Proof.
  unfold ensureTrailingSlash. now rewrite trim_snoc_slash, trim_idempotent.
Qed.

Lemma ensure_snoc_slash (s : string) : ensureTrailingSlash (s +:+ "/") = ensureTrailingSlash s.
Proof. unfold ensureTrailingSlash. now rewrite trim_snoc_slash. Qed.

Lemma trim_name (t name : string) :
  isSegment name = true -> trimTrailingSlashes (t +:+ name) = t +:+ name.
Proof. intros H. apply trim_no_slash, endsWith_name, H. Qed.

Lemma slashes_snoc (k : nat) : slashes k +:+ "/" = String slash (slashes k).
Proof. induction k as [|k IH]; simpl; [reflexivity | now rewrite IH]. Qed.

Lemma trim_decompose (s : string) :
  exists k, s = trimTrailingSlashes s +:+ slashes k.
Proof.
  induction s as [|c s [k IH]]; simpl; [now exists 0|].
  destruct (trimTrailingSlashes s) as [|d r] eqn:E.
  - simpl in IH. destruct (Ascii.eqb c slash) eqn:Ec.
    + exists (S k). apply Ascii.eqb_eq in Ec. subst c. simpl. now rewrite <- IH.
    + exists k. simpl. now rewrite <- IH.
  - exists k. simpl in *. now rewrite <- IH.
Qed.

Lemma parts_slice_snoc_slash (n : nat) (s : string) :
  parts (slice n (s +:+ "/")) = parts (slice n s).
Proof.
  destruct (Nat.le_gt_cases n (String.length s)) as [Hle|Hgt].
  - rewrite (slice_append_le n s "/" Hle). apply parts_snoc_slash.
  - rewrite !slice_beyond; [reflexivity | lia |].
    rewrite length_append. simpl. lia.
Qed.

Lemma parts_slice_slashes (n k : nat) (s : string) :
  parts (slice n (s +:+ slashes k)) = parts (slice n s).
Proof.
  induction k as [|k IH]; simpl.
  - now rewrite append_nil_r.
  - rewrite <- slashes_snoc, <- append_assoc, parts_slice_snoc_slash. exact IH.
Qed.

Lemma parts_slice_trim (n : nat) (s : string) :
  parts (slice n (trimTrailingSlashes s)) = parts (slice n s).
Proof.
  destruct (trim_decompose s) as [k Hk].
  rewrite Hk at 2. symmetry. apply parts_slice_slashes.
Qed.

Lemma parts_slice_ensure (n : nat) (s : string) :
  parts (slice n (ensureTrailingSlash s)) = parts (slice n s).
Proof.
  unfold ensureTrailingSlash. now rewrite parts_slice_snoc_slash, parts_slice_trim.
Qed.

(** ** [upToLastSlash] *)

Lemma upToLastSlash_slashFree (s : string) : slashFree s = true -> upToLastSlash s = "".
Proof.
  induction s as [|c s IH]; simpl; [reflexivity|].
  intros H. apply andb_prop in H as [Hc Hs]. apply negb_true_iff in Hc.
  now rewrite (IH Hs), Hc.
Qed.

Lemma upToLastSlash_name (t name : string) :
  slashFree name = true -> upToLastSlash (t +:+ String slash name) = t +:+ "/".
Proof.
  intros H. induction t as [|c t IH]; simpl.
  - now rewrite (upToLastSlash_slashFree name H).
  - rewrite IH. destruct t; reflexivity.
Qed.

End SlashFacts.

Lemma list_snoc_cases {A : Type} (l : list A) :
  l = [] \/ exists l' a, l = l' ++ [a].
Proof. induction l using rev_ind; [now left | right; eauto]. Qed.

(** ** Identifiers below a base that ends in one slash *)
Section BaseFacts.
Variable base : string.
Hypothesis base_normal : ensureTrailingSlash base = base.

Lemma containerPath_nil : containerPath base [] = base.
Proof. unfold containerPath. simpl. apply append_nil_r. Qed.

Lemma containerPath_slash (segs : list string) :
  exists t, containerPath base segs = t +:+ "/".
Proof.
  destruct (list_snoc_cases segs) as [Hnil | [segs' [s Hs]]].
  - subst segs. rewrite containerPath_nil, <- base_normal. now eexists.
  - subst segs. rewrite containerPath_snoc. now eexists.
Qed.

Lemma endsWith_containerPath (segs : list string) :
  endsWith (containerPath base segs) "/" = true.
Proof.
  destruct (containerPath_slash segs) as [t Ht]. rewrite Ht. apply endsWith_snoc_slash.
Qed.

Lemma resourcePath_containerPath (segs : list string) (name : string) :
  resourcePath base segs name = containerPath base segs +:+ name.
Proof. unfold resourcePath, containerPath. now rewrite append_assoc. Qed.

Lemma endsWith_resourcePath (segs : list string) (name : string) :
  isSegment name = true -> endsWith (resourcePath base segs name) "/" = false.
Proof. intros H. rewrite resourcePath_containerPath. now apply endsWith_name. Qed.

Lemma trim_resourcePath (segs : list string) (name : string) :
  isSegment name = true ->
  trimTrailingSlashes (resourcePath base segs name) = resourcePath base segs name.
Proof. intros H. rewrite resourcePath_containerPath. now apply trim_name. Qed.

Lemma ensure_resourcePath (segs : list string) (name : string) :
  isSegment name = true ->
  ensureTrailingSlash (resourcePath base segs name) = containerPath base (segs ++ [name]).
Proof.
  intros H. unfold ensureTrailingSlash.
  now rewrite (trim_resourcePath segs name H), containerPath_snoc.
Qed.

Lemma trim_containerPath_snoc (segs : list string) (name : string) :
  isSegment name = true ->
  trimTrailingSlashes (containerPath base (segs ++ [name])) = resourcePath base segs name.
Proof.
  intros H. rewrite containerPath_snoc, trim_snoc_slash. now apply trim_resourcePath.
Qed.

Lemma ensure_containerPath (segs : list string) :
  forallb isSegment segs = true ->
  ensureTrailingSlash (containerPath base segs) = containerPath base segs.
Proof.
  intros H.
  destruct (list_snoc_cases segs) as [Hnil | [segs' [s Hs]]].
  - subst segs. now rewrite containerPath_nil.
  - subst segs. rewrite forallb_app in H. apply andb_prop in H as [_ Hs]. simpl in Hs.
    rewrite andb_true_r in Hs.
    rewrite containerPath_snoc, ensure_snoc_slash.
    rewrite <- containerPath_snoc. now apply ensure_resourcePath.
Qed.

Lemma getContainer_resourcePath (segs : list string) (name : string) :
  isSegment name = true ->
  UrlContainerManager.getContainer (resourcePath base segs name)
  = inr (containerPath base segs).
Proof.
  intros H. unfold UrlContainerManager.getContainer.
  rewrite (trim_resourcePath segs name H), resourcePath_containerPath.
  destruct (containerPath_slash segs) as [t Ht]. rewrite Ht, append_assoc.
  change ("/" +:+ name) with (String slash name).
  now rewrite (upToLastSlash_name t name (isSegment_slashFree name H)).
Qed.

Lemma getContainer_containerPath (segs : list string) (name : string) :
  isSegment name = true ->
  UrlContainerManager.getContainer (containerPath base (segs ++ [name]))
  = inr (containerPath base segs).
Proof.
  intros H. rewrite <- (getContainer_resourcePath segs name H).
  unfold UrlContainerManager.getContainer.
  now rewrite (trim_containerPath_snoc segs name H), (trim_resourcePath segs name H).
Qed.

End BaseFacts.

(* ================================================================== *)
(** * Facts about trees of named children                              *)
(* ================================================================== *)

Section ChildrenFacts.
Context {V : Type}.
Implicit Types (es : list (string * V)) (n m : string) (v : V).

Lemma lookup_assign_eq n v es : Children.lookup n (Children.assign n v es) = Some v.
Proof.
  induction es as [|[k w] es IH]; simpl.
  - now rewrite String.eqb_refl.
  - destruct (k =? n) eqn:E; simpl; rewrite E; [reflexivity | exact IH].
Qed.

Lemma lookup_assign_ne n m v es :
  n <> m -> Children.lookup m (Children.assign n v es) = Children.lookup m es.
Proof.
  intros Hne. induction es as [|[k w] es IH]; simpl.
  - apply String.eqb_neq in Hne. now rewrite Hne.
  - destruct (k =? n) eqn:E; simpl.
    + apply String.eqb_eq in E. subst k. apply String.eqb_neq in Hne. now rewrite Hne.
    + now rewrite IH.
Qed.

Lemma lookup_remove_eq n es : Children.lookup n (Children.remove n es) = None.
Proof.
  induction es as [|[k w] es IH]; simpl; [reflexivity|].
  destruct (k =? n) eqn:E; simpl; [exact IH | now rewrite E].
Qed.

Lemma lookup_remove_ne n m es :
  n <> m -> Children.lookup m (Children.remove n es) = Children.lookup m es.
Proof.
  intros Hne. induction es as [|[k w] es IH]; simpl; [reflexivity|].
  destruct (k =? n) eqn:E; simpl.
  - apply String.eqb_eq in E. subst k. apply String.eqb_neq in Hne. now rewrite Hne.
  - now rewrite IH.
Qed.

Lemma remove_single n v : Children.remove n [(n, v)] = [].
Proof. simpl. now rewrite String.eqb_refl. Qed.

End ChildrenFacts.

Section WalkFacts.
Context {L C : Type}.
Implicit Types (es d : Entries L C) (names dir : list string).

Lemma descend_app names names' es :
  descend (names ++ names') es
  = match descend names es with
    | Reached d => descend names' d
    | Missing => Missing
    | NotBranch => NotBranch
    end.
Proof.
  revert es. induction names as [|n names IH]; intros es; simpl; [reflexivity|].
  destruct (Children.lookup n es) as [[l|ch c]|]; auto.
Qed.

(** Changing the children of a directory is seen at that directory. *)
Lemma descend_modify names f es d :
  descend names es = Reached d -> descend names (modify names f es) = Reached (f d).
Proof.
  revert es. induction names as [|n names IH]; intros es; simpl.
  - intros H. now injection H as ->.
  - destruct (Children.lookup n es) as [[l|ch c]|] eqn:E; try discriminate.
    intros H. rewrite lookup_assign_eq. now apply IH.
Qed.

(** A change below [names ++ dir] is a change of the directory reached
    by [names]. *)
Lemma descend_modify_below names dir f es d :
  descend names es = Reached d ->
  descend names (modify (names ++ dir) f es) = Reached (modify dir f d).
Proof.
  revert es. induction names as [|n names IH]; intros es; simpl.
  - intros H. now injection H as ->.
  - destruct (Children.lookup n es) as [[l|ch c]|] eqn:E; try discriminate.
    intros H. rewrite lookup_assign_eq. now apply IH.
Qed.

Lemma find_snoc names n es :
  find (names ++ [n]) es
  = match descend names es with
    | Reached d => Children.lookup n d
    | _ => None
    end.
Proof.
  revert es. induction names as [|k names IH]; intros es; [reflexivity|].
  change ((k :: names) ++ [n]) with (k :: (names ++ [n])).
  cbn [find descend].
  destruct (names ++ [n]) as [|x xs] eqn:E; [now destruct names|].
  rewrite <- E in *. destruct (Children.lookup k es) as [[l|ch c]|]; auto.
Qed.

Lemma find_single n es : find [n] es = Children.lookup n es.
Proof. reflexivity. Qed.

Lemma find_cons n m names es :
  find (n :: m :: names) es
  = match Children.lookup n es with
    | Some (Branch ch _) => find (m :: names) ch
    | _ => None
    end.
Proof. reflexivity. Qed.

Lemma find_cons_snoc k dir n es :
  find (k :: dir ++ [n]) es
  = match Children.lookup k es with
    | Some (Branch ch _) => find (dir ++ [n]) ch
    | _ => None
    end.
Proof. destruct dir; reflexivity. Qed.

(** Putting a leaf where no directory is keeps every leaf a leaf. *)
Lemma find_leaf_preserved dir n (leaf : L) names es l :
  find names es = Some (Leaf l) ->
  (forall ch c, find (dir ++ [n]) es <> Some (Branch ch c)) ->
  exists l', find names (modify dir (Children.assign n (Leaf leaf)) es) = Some (Leaf l').
Proof.
  revert names es l. induction dir as [|k dir IH]; intros names es l Hfind Hnot.
  - cbn [modify]. destruct names as [|x [|y rest]]; [discriminate| |].
    + rewrite find_single in *. destruct (String.eqb_spec n x) as [->|Hne].
      * rewrite lookup_assign_eq. eauto.
      * rewrite lookup_assign_ne by assumption. eauto.
    + rewrite find_cons in *. destruct (String.eqb_spec n x) as [->|Hne].
      * simpl in Hnot. destruct (Children.lookup x es) as [[l0|ch c]|]; try discriminate.
        exfalso. now apply (Hnot ch c).
      * rewrite lookup_assign_ne by assumption. eauto.
  - cbn [modify].
    destruct (Children.lookup k es) as [[l0|ch c]|] eqn:E; eauto.
    destruct names as [|x [|y rest]]; [discriminate| |].
    + rewrite find_single in *. destruct (String.eqb_spec k x) as [->|Hne].
      * rewrite E in Hfind. discriminate.
      * rewrite lookup_assign_ne by assumption. eauto.
    + rewrite find_cons in *. destruct (String.eqb_spec k x) as [->|Hne].
      * rewrite lookup_assign_eq. rewrite E in Hfind.
        apply (IH _ _ l); [assumption|].
        intros ch' c' Hf. apply (Hnot ch' c').
        change ((x :: dir) ++ [n]) with (x :: dir ++ [n]).
        now rewrite find_cons_snoc, E.
      * rewrite lookup_assign_ne by assumption. eauto.
Qed.

End WalkFacts.

(* ================================================================== *)
(** * The file system: what a call leaves in place                     *)
(* ================================================================== *)

Module FsFacts.
Import Fs.

Lemma locate_parts path fs dir es name :
  Fs.locate path fs = Fs.Child dir es name ->
  parts path = dir ++ [name] /\ descend dir (Fs.root fs) = Reached es.
Proof.
  unfold Fs.locate. destruct (parts path) as [|p ps] eqn:E; [discriminate|].
  destruct (descend (removelast (p :: ps)) (Fs.root fs)) eqn:D; try discriminate.
  intros H. injection H as <- <- <-. split; [|assumption].
  assert (Hne : p :: ps <> []) by discriminate.
  exact (app_removelast_last "" Hne).
Qed.

Lemma locate_of_parts path fs dir es name :
  parts path = dir ++ [name] -> descend dir (Fs.root fs) = Reached es ->
  Fs.locate path fs = Fs.Child dir es name.
Proof.
  intros Hp Hd. unfold Fs.locate. rewrite Hp.
  destruct (dir ++ [name]) eqn:E; [now destruct dir|]. rewrite <- E.
  now rewrite removelast_last, last_last, Hd.
Qed.

Lemma leafAt_find path fs :
  leafAt path fs <->
  exists dir name l, parts path = dir ++ [name]
                     /\ find (dir ++ [name]) (Fs.root fs) = Some (Leaf l).
Proof.
  split.
  - intros (dir & es & name & l & Hloc & Hl).
    destruct (locate_parts _ _ _ _ _ Hloc) as [Hp Hd].
    exists dir, name, l. split; [assumption|]. now rewrite find_snoc, Hd.
  - intros (dir & name & l & Hp & Hf). rewrite find_snoc in Hf.
    destruct (descend dir (Fs.root fs)) as [es| |] eqn:Hd; try discriminate.
    exists dir, es, name, l. split; [|assumption]. now apply locate_of_parts.
Qed.

(** A write that ends well leaves a file at its path. *)
Lemma pipeToFile_leaf path data fs fs' :
  Fs.pipeToFile path data fs = Ok tt fs' -> leafAt path fs'.
Proof.
  unfold Fs.pipeToFile. destruct (Fs.locate path fs) as [|dir es name|e] eqn:Hloc; try discriminate.
  destruct (locate_parts _ _ _ _ _ Hloc) as [Hp Hd]. intros H.
  assert (Hfs : fs' = Fs.tick (Fs.change dir
            (Children.assign name (Leaf {| Fs.content := Some (chunks data);
                                           Fs.fileTime := Fs.clock fs |})) fs)).
  { destruct (Children.lookup name es) as [[l|ch c]|]; try discriminate;
      destruct (failure data); try discriminate; now injection H. }
  subst fs'. eexists dir, _, name, _. split.
  - apply locate_of_parts; [assumption|]. cbn [tick change root].
    apply descend_modify. exact Hd.
  - apply lookup_assign_eq.
Qed.

(** Whatever a write to [path] does, a leaf elsewhere stays a leaf. *)
Lemma pipeToFile_keeps_leaf path data other fs :
  leafAt other fs -> leafAt other (stateOf (Fs.pipeToFile path data fs)).
Proof.
  intros Hleaf. unfold Fs.pipeToFile.
  destruct (Fs.locate path fs) as [|dir es name|e] eqn:Hloc; try exact Hleaf.
  destruct (locate_parts _ _ _ _ _ Hloc) as [Hp Hd].
  assert (Hnew : forall file,
             (forall ch c, Children.lookup name es <> Some (Branch ch c)) ->
             leafAt other (Fs.tick (Fs.change dir (Children.assign name (Leaf file)) fs))).
  { intros file Hnot. apply leafAt_find in Hleaf as (odir & oname & l & Hop & Hof).
    apply leafAt_find.
    destruct (find_leaf_preserved dir name file (odir ++ [oname]) (Fs.root fs) l Hof)
      as [l' Hl'].
    - intros ch c. rewrite find_snoc, Hd. apply Hnot.
    - exists odir, oname, l'. split; assumption. }
  destruct (Children.lookup name es) as [[l|ch c]|] eqn:Hl.
  - destruct (failure data); apply Hnew; discriminate.
  - exact Hleaf.
  - destruct (failure data); apply Hnew; discriminate.
Qed.

(** Unlinking a leaf succeeds and leaves nothing at its path. *)
Lemma unlink_leaf path fs :
  leafAt path fs ->
  exists fs', Fs.unlink path fs = Ok tt fs' /\ Fs.lstat path fs' = Throw Fs.enoent fs'.
Proof.
  intros (dir & es & name & l & Hloc & Hl).
  destruct (locate_parts _ _ _ _ _ Hloc) as [Hp Hd].
  unfold Fs.unlink. rewrite Hloc, Hl. eexists. split; [reflexivity|].
  unfold Fs.lstat.
  rewrite (locate_of_parts path _ dir (Children.remove name es) name Hp).
  - now rewrite lookup_remove_eq.
  - cbn [change root]. now apply descend_modify.
Qed.

(** A call that throws without a change. *)
Lemma lstat_state path fs : stateOf (Fs.lstat path fs) = fs.
Proof.
  unfold Fs.lstat. destruct (Fs.locate path fs); try reflexivity.
  destruct (Children.lookup name siblings); reflexivity.
Qed.

Lemma unlink_throw path fs e fs' : Fs.unlink path fs = Throw e fs' -> fs' = fs.
Proof.
  unfold Fs.unlink. destruct (Fs.locate path fs); try (intros H; now injection H).
  destruct (Children.lookup name siblings) as [[l|ch c]|]; intros H;
    try discriminate; now injection H.
Qed.

Lemma rmdir_throw path fs e fs' : Fs.rmdir path fs = Throw e fs' -> fs' = fs.
Proof.
  unfold Fs.rmdir. destruct (Fs.locate path fs); try (intros H; now injection H).
  destruct (Children.lookup name siblings) as [[l|[|x ch] c]|]; intros H;
    try discriminate; now injection H.
Qed.

Lemma lstat_enoent_unlink path fs :
  Fs.lstat path fs = Throw Fs.enoent fs -> Fs.unlink path fs = Throw Fs.enoent fs.
Proof.
  unfold Fs.lstat, Fs.unlink. destruct (Fs.locate path fs); try discriminate.
  - destruct (Children.lookup name siblings); [discriminate | reflexivity].
  - intros H. injection H as ->. reflexivity.
Qed.

End FsFacts.

(* ================================================================== *)
(** * [FileDataAccessor]: writing and deleting                         *)
(* ================================================================== *)

Section FileWrites.
Variable mapUrlToFilePath : ResourceIdentifier -> Error + string.
Variable serializeQuads : list Quad -> Readable.

Local Abbreviation writeDataResource :=
  (FileDataAccessor.writeDataResource mapUrlToFilePath serializeQuads).
Local Abbreviation getMetadataPath := FileDataAccessor.getMetadataPath.
Local Abbreviation writeDataFile := FileDataAccessor.writeDataFile.

(** What [writeDataResource] does once the path is known and is no
    metadata path. *)
Lemma writeDataResource_unfold identifier data metadata path fs :
  mapUrlToFilePath identifier = inr path ->
  FileDataAccessor.isMetadataPath path = false ->
  writeDataResource identifier data metadata fs
  = match FileDataAccessor.writeSidecar serializeQuads path metadata fs with
    | Throw e fs1 => Throw e fs1
    | Ok _ fs1 =>
        match writeDataFile path data fs1 with
        | Ok _ fs2 => Ok tt fs2
        | Throw error fs2 =>
            match metadata with
            | Some _ =>
                match Fs.unlink (getMetadataPath path) fs2 with
                | Ok _ fs3 => Throw error fs3
                | Throw e fs3 => Throw e fs3
                end
            | None => Throw error fs2
            end
        end
    end.
Proof.
  intros Hmap Hmeta. unfold FileDataAccessor.writeDataResource, bind, liftE, tryCatch.
  rewrite Hmap, Hmeta.
  destruct (FileDataAccessor.writeSidecar serializeQuads path metadata fs) as [[] fs1|e fs1];
    [|reflexivity].
  destruct (writeDataFile path data fs1) as [[] fs2|error fs2]; [reflexivity|].
  destruct metadata; [|reflexivity].
  destruct (Fs.unlink (getMetadataPath path) fs2) as [[] fs3|e fs3]; reflexivity.
Qed.

(** C4. When the sidecar file has been written and writing the content
    then fails, [writeDataResource] unlinks the sidecar and rejects with
    the error of the failed write: afterwards nothing is at the sidecar
    path. *)
Theorem writeDataResource_rolls_back_sidecar
    identifier data metadata path error (fs fs1 fs2 : Fs.FileSystem) :
  mapUrlToFilePath identifier = inr path ->
  FileDataAccessor.isMetadataPath path = false ->
  Metadata.quads (Metadata.removeAll RDF.type metadata) <> [] ->
  writeDataFile (getMetadataPath path)
    (serializeQuads (Metadata.quads (Metadata.removeAll RDF.type metadata))) fs = Ok tt fs1 ->
  writeDataFile path data fs1 = Throw error fs2 ->
  exists fs3,
    writeDataResource identifier data (Some metadata) fs = Throw error fs3
    /\ Fs.unlink (getMetadataPath path) fs2 = Ok tt fs3
    /\ Fs.lstat (getMetadataPath path) fs3 = Throw Fs.enoent fs3.
Proof.
  intros Hmap Hmeta Hquads Hsidecar Hfail.
  assert (Hleaf : Fs.leafAt (getMetadataPath path) fs2).
  { replace fs2 with (stateOf (Fs.pipeToFile path data fs1))
      by (unfold FileDataAccessor.writeDataFile in Hfail; now rewrite Hfail).
    apply FsFacts.pipeToFile_keeps_leaf. eapply FsFacts.pipeToFile_leaf. exact Hsidecar. }
  destruct (FsFacts.unlink_leaf _ _ Hleaf) as (fs3 & Hunlink & Hgone).
  exists fs3. split; [|split; assumption].
  rewrite (writeDataResource_unfold _ _ _ path) by assumption.
  unfold FileDataAccessor.writeSidecar.
  destruct (Metadata.quads (Metadata.removeAll RDF.type metadata)) as [|q qs] eqn:Eq;
    [contradiction|].
  cbn [List.length Nat.ltb Nat.leb]. rewrite Hsidecar, Hfail, Hunlink. reflexivity.
Qed.

(** C10, as the code has it.  When the metadata that was passed has no
    quad left once its RDF types are removed, no sidecar is written, yet
    a failing content write still runs the unlink of the sidecar path;
    when nothing is at that path, the caller gets the unlink's [ENOENT]
    and not the error of the write. *)
Theorem writeDataResource_rollback_without_sidecar
    identifier data metadata path error (fs fs2 : Fs.FileSystem) :
  mapUrlToFilePath identifier = inr path ->
  FileDataAccessor.isMetadataPath path = false ->
  Metadata.quads (Metadata.removeAll RDF.type metadata) = [] ->
  writeDataFile path data fs = Throw error fs2 ->
  Fs.lstat (getMetadataPath path) fs2 = Throw Fs.enoent fs2 ->
  FileDataAccessor.writeSidecar serializeQuads path (Some metadata) fs = Ok tt fs
  /\ writeDataResource identifier data (Some metadata) fs = Throw Fs.enoent fs2.
Proof.
  intros Hmap Hmeta Hquads Hfail Habsent.
  assert (Hside : FileDataAccessor.writeSidecar serializeQuads path (Some metadata) fs = Ok tt fs).
  { unfold FileDataAccessor.writeSidecar. now rewrite Hquads. }
  split; [exact Hside|].
  rewrite (writeDataResource_unfold _ _ _ path) by assumption.
  rewrite Hside, Hfail, (FsFacts.lstat_enoent_unlink _ _ Habsent). reflexivity.
Qed.

End FileWrites.

Lemma writeDataResource_rolls_back_sidecar_witness :
  exists fs3,
    FileDataAccessor.writeDataResource testMapper testSerializer
      "http://test.com/resource" (brokenStream ["data"]) (Some likesApples) (uploads [])
    = Throw (GenericError "error") fs3
    /\ Fs.unlink "uploads/resource.meta"
         (stateOf (Fs.pipeToFile "uploads/resource" (brokenStream ["data"])
                     (stateOf (Fs.pipeToFile "uploads/resource.meta"
                                 (testSerializer (Metadata.quads likesApples)) (uploads [])))))
       = Ok tt fs3
    /\ Fs.lstat "uploads/resource.meta" fs3 = Throw Fs.enoent fs3.
Proof.
  apply (writeDataResource_rolls_back_sidecar testMapper testSerializer
           "http://test.com/resource" (brokenStream ["data"]) likesApples "uploads/resource"
           (GenericError "error") (uploads [])
           (stateOf (Fs.pipeToFile "uploads/resource.meta"
                       (testSerializer (Metadata.quads likesApples)) (uploads [])))).
  - reflexivity.
  - reflexivity.
  - discriminate.
  - reflexivity.
  - reflexivity.
Defined.

Lemma writeDataResource_rollback_without_sidecar_witness :
  FileDataAccessor.writeSidecar testSerializer "uploads/resource" (Some onlyType) (uploads [])
  = Ok tt (uploads [])
  /\ FileDataAccessor.writeDataResource testMapper testSerializer
       "http://test.com/resource" (brokenStream ["data"]) (Some onlyType) (uploads [])
     = Throw Fs.enoent
         (stateOf (Fs.pipeToFile "uploads/resource" (brokenStream ["data"]) (uploads []))).
Proof.
  apply (writeDataResource_rollback_without_sidecar testMapper testSerializer
           "http://test.com/resource" (brokenStream ["data"]) onlyType "uploads/resource"
           (GenericError "error")); reflexivity.
Defined.

(** C10 as stated fails when an earlier write left a sidecar: the
    unlink then succeeds, the old sidecar is gone and the caller gets
    the error of the write. *)
Lemma writeDataResource_rollback_stale_sidecar :
  Metadata.quads (Metadata.removeAll RDF.type onlyType) = []
  /\ exists fs',
       FileDataAccessor.writeDataResource testMapper testSerializer
         "http://test.com/resource" (brokenStream ["data"]) (Some onlyType) staleSidecar
       = Throw (GenericError "error") fs'
       /\ GenericError "error" <> Fs.enoent
       /\ Fs.lstat "uploads/resource.meta" fs' = Throw Fs.enoent fs'.
Proof.
  split; [reflexivity|]. eexists. split; [reflexivity|]. split; [discriminate | reflexivity].
Qed.

Section FileDeletes.
Variable mapUrlToFilePath : ResourceIdentifier -> Error + string.

Local Abbreviation deleteResource := (FileDataAccessor.deleteResource mapUrlToFilePath).

Lemma getStats_state path fs : stateOf (FileDataAccessor.getStats path fs) = fs.
Proof.
  unfold FileDataAccessor.getStats, tryCatch.
  pose proof (FsFacts.lstat_state path fs) as H.
  destruct (Fs.lstat path fs) as [stats fs'|e fs']; simpl in H; subst fs'; [reflexivity|].
  destruct (hasCode "ENOENT" e); reflexivity.
Qed.


End FileDeletes.



(* ================================================================== *)
(** * [InMemoryDataAccessor]: resolving identifiers                    *)
(* ================================================================== *)

Module MemoryFacts.
Import InMemoryDataAccessor.

Section Resolving.
Variable base : string.

Local Abbreviation piecesOf id := (parts (slice (String.length base) id)).

(** The identifier matters to [getParentEntry] by its pieces only. *)
Lemma getParentEntry_pieces id id' st :
  piecesOf id = piecesOf id' -> getParentEntry base id st = getParentEntry base id' st.
Proof. unfold getParentEntry. now intros ->. Qed.

Lemma getParentEntry_root id st :
  piecesOf id = [] ->
  getParentEntry base id st
  = Ok {| parent := [("root", asEntry (store st))]; name := "root"; location := None |} st.
Proof. unfold getParentEntry. now intros ->. Qed.

Lemma getParentEntry_below id dir n st :
  piecesOf id = dir ++ [n] ->
  getParentEntry base id st
  = match descend dir (entries (store st)) with
    | Reached es => Ok {| parent := es; name := n; location := Some dir |} st
    | _ => Throw NotFoundHttpError st
    end.
Proof.
  unfold getParentEntry. intros ->.
  destruct (dir ++ [n]) as [|x xs] eqn:E; [now destruct dir|]. rewrite <- E.
  now rewrite removelast_last, last_last.
Qed.

(** [getParentEntry] reads only, and throws nothing but "not found". *)
Lemma getParentEntry_ok id st p st' :
  getParentEntry base id st = Ok p st' -> st' = st.
Proof.
  unfold getParentEntry. destruct (piecesOf id) as [|x xs].
  - intros H. now injection H.
  - destruct (descend _ _); intros H; try discriminate. now injection H.
Qed.

Lemma getParentEntry_throw id st e st' :
  getParentEntry base id st = Throw e st' -> e = NotFoundHttpError /\ st' = st.
Proof.
  unfold getParentEntry. destruct (piecesOf id) as [|x xs]; [discriminate|].
  destruct (descend _ _); intros H; try discriminate; now injection H.
Qed.

Lemma getEntry_pieces id id' st :
  piecesOf id = piecesOf id' -> getEntry base id st = getEntry base id' st.
Proof.
  intros H. unfold getEntry, bind. now rewrite (getParentEntry_pieces id id' st H).
Qed.

Lemma getEntry_ok id st entry st' : getEntry base id st = Ok entry st' -> st' = st.
Proof.
  unfold getEntry, bind. destruct (getParentEntry base id st) as [p s|e s] eqn:E; [|discriminate].
  apply getParentEntry_ok in E. subst s.
  destruct (Children.lookup (name p) (parent p)); intros H; [now injection H | discriminate].
Qed.

Lemma getEntry_throw id st e st' :
  getEntry base id st = Throw e st' -> e = NotFoundHttpError /\ st' = st.
Proof.
  unfold getEntry, bind. destruct (getParentEntry base id st) as [p s|e0 s] eqn:E.
  - apply getParentEntry_ok in E. subst s.
    destruct (Children.lookup (name p) (parent p)); intros H; [discriminate|].
    now injection H as <- <-.
  - apply getParentEntry_throw in E as [-> ->]. intros H. now injection H as <- <-.
Qed.

(** The entry an identifier below the root names. *)
Lemma getEntry_below id dir n st :
  piecesOf id = dir ++ [n] ->
  getEntry base id st
  = match find (dir ++ [n]) (entries (store st)) with
    | Some entry => Ok entry st
    | None => Throw NotFoundHttpError st
    end.
Proof.
  intros H. unfold getEntry, bind. rewrite (getParentEntry_below id dir n st H), find_snoc.
  destruct (descend dir (entries (store st))) as [es| |]; try reflexivity.
  cbn [name parent].
  destruct (Children.lookup n es); reflexivity.
Qed.

Lemma getEntry_root id st :
  piecesOf id = [] -> getEntry base id st = Ok (asEntry (store st)) st.
Proof.
  intros H. unfold getEntry, bind. now rewrite (getParentEntry_root id st H).
Qed.

Lemma getEntry_ensure id st : getEntry base (ensureTrailingSlash id) st = getEntry base id st.
Proof. apply getEntry_pieces, parts_slice_ensure. Qed.

Lemma getEntry_trim id st : getEntry base (trimTrailingSlashes id) st = getEntry base id st.
Proof. apply getEntry_pieces, parts_slice_trim. Qed.

Lemma deleteResource_pieces id id' st :
  piecesOf id = piecesOf id' -> deleteResource base id st = deleteResource base id' st.
Proof.
  intros H. unfold deleteResource, bind. now rewrite (getParentEntry_pieces id id' st H).
Qed.

End Resolving.
End MemoryFacts.

(* ================================================================== *)
(** * [getNormalizedMetadata] of the two backends                      *)
(* ================================================================== *)

Lemma endsWith_cons (c : ascii) (s suffix : string) :
  endsWith (String c s) suffix = (String c s =? suffix) || endsWith s suffix.
Proof. reflexivity. Qed.

Lemma endsWith_trim (s : string) : endsWith (trimTrailingSlashes s) "/" = false.
Proof.
  induction s as [|c s IH]; [reflexivity|].
  cbn [trimTrailingSlashes]. destruct (trimTrailingSlashes s) as [|d r] eqn:E.
  - destruct (Ascii.eqb c slash) eqn:Ec; [reflexivity|].
    cbn. unfold slash in Ec. now rewrite Ec.
  - rewrite endsWith_cons, IH, orb_false_r. cbn. apply andb_false_r.
Qed.

Lemma endsWith_ensure (s : string) : endsWith (ensureTrailingSlash s) "/" = true.
Proof. apply endsWith_snoc_slash. Qed.

Section NormalizedInMemory.
Import InMemoryDataAccessor.
Variable base : string.

Lemma getEntry_toggled id st : getEntry base (NormalizedDataAccessor.toggled id) st = getEntry base id st.
Proof.
  unfold NormalizedDataAccessor.toggled. destruct (endsWith id "/");
    [apply MemoryFacts.getEntry_trim | apply MemoryFacts.getEntry_ensure].
Qed.

Lemma endsWith_toggled id : endsWith (NormalizedDataAccessor.toggled id) "/" = negb (endsWith id "/").
Proof.
  unfold NormalizedDataAccessor.toggled. destruct (endsWith id "/"); [apply endsWith_trim | apply endsWith_ensure].
Qed.

(** The in-memory accessor against the shared algorithm run on its
    [getMetadata]: both find the same entry or both find none; the
    accessor describes the entry under the identifier it was given, the
    shared algorithm under the identifier whose slash fits the entry. *)
Lemma inMemory_getNormalizedMetadata id st :
  match getEntry base id st with
  | Throw _ _ =>
      getNormalizedMetadata base id st = Throw NotFoundHttpError st
      /\ NormalizedDataAccessor.getNormalizedMetadata (getMetadata base) id st
         = Throw NotFoundHttpError st
  | Ok entry _ =>
      getNormalizedMetadata base id st = Ok (generateMetadata id entry) st
      /\ NormalizedDataAccessor.getNormalizedMetadata (getMetadata base) id st
         = Ok (generateMetadata
                 (if Bool.eqb (isDataEntry entry) (endsWith id "/") then NormalizedDataAccessor.toggled id else id)
                 entry) st
  end.
Proof.
  unfold getNormalizedMetadata, NormalizedDataAccessor.getNormalizedMetadata, getMetadata,
    tryCatch, bind. cbv zeta.
  change (if endsWith id "/" then trimTrailingSlashes id else ensureTrailingSlash id)
    with (NormalizedDataAccessor.toggled id).
  destruct (getEntry base id st) as [entry s|e s] eqn:E.
  - pose proof (MemoryFacts.getEntry_ok _ _ _ _ _ E) as Hs. subst s.
    split; [reflexivity|].
    destruct (Bool.eqb (isDataEntry entry) (endsWith id "/")) eqn:Hshape; [|reflexivity].
    cbn [throw isNotFound]. rewrite (getEntry_toggled id st), E, (endsWith_toggled id).
    destruct (isDataEntry entry), (endsWith id "/"); try discriminate; reflexivity.
  - pose proof (MemoryFacts.getEntry_throw _ _ _ _ _ E) as [-> ->].
    split; [reflexivity|].
    cbn [isNotFound]. now rewrite (getEntry_toggled id st), E.
Qed.

End NormalizedInMemory.



(* ================================================================== *)
(** * [InMemoryDataAccessor]: deleting and reading                     *)
(* ================================================================== *)

Section DeleteInMemory.
Import InMemoryDataAccessor.
Variable base : string.

Lemma deleteResource_outcome id st :
  match getEntry base id st with
  | Throw _ _ => deleteResource base id st = Throw NotFoundHttpError st
  | Ok _ _ =>
      exists st',
        deleteResource base id st = Ok tt st'
        /\ streams st' = streams st
        /\ (parts (slice (String.length base) id) <> [] ->
            getEntry base id st' = Throw NotFoundHttpError st')
  end.
Proof.
  destruct (list_snoc_cases (parts (slice (String.length base) id))) as [Hp | (dir & n & Hp)].
  - rewrite (MemoryFacts.getEntry_root base id st Hp).
    unfold deleteResource, bind. rewrite (MemoryFacts.getParentEntry_root base id st Hp).
    cbn. exists st. split; [reflexivity|]. split; [reflexivity|]. intros H. now elim H.
  - unfold getEntry, deleteResource, bind.
    rewrite (MemoryFacts.getParentEntry_below base id dir n st Hp).
    destruct (descend dir (entries (store st))) as [es| |] eqn:Hd; try reflexivity.
    cbn [name parent]. destruct (Children.lookup n es) as [entry|] eqn:Hl; [|reflexivity].
    eexists. split; [reflexivity|]. split; [reflexivity|]. intros _.
    rewrite (MemoryFacts.getParentEntry_below base id dir n _ Hp). cbn [store entries].
    rewrite (descend_modify dir (Children.remove n) _ es Hd). cbn [name parent].
    now rewrite lookup_remove_eq.
Qed.

End DeleteInMemory.



Section ListCells.
Context {A : Type}.
Implicit Types (l : list A) (f : A -> A) (i j : nat).

Lemma length_updateNth i f l : List.length (updateNth i f l) = List.length l.
Proof.
  revert i. induction l as [|x l IH]; intros [|i]; simpl; auto.
Qed.

Lemma nth_updateNth_eq i f l d :
  i < List.length l -> nth i (updateNth i f l) d = f (nth i l d).
Proof.
  revert i. induction l as [|x l IH]; intros [|i] H; simpl in *; try lia; auto.
  apply IH. lia.
Qed.

Lemma nth_updateNth_ne i j f l d : i <> j -> nth j (updateNth i f l) d = nth j l d.
Proof.
  revert i j. induction l as [|x l IH]; intros [|i] [|j] H; simpl; auto; try contradiction.
Qed.

End ListCells.

Section ReadInMemory.
Import InMemoryDataAccessor.
Variable base : string.

Lemma getData_copy id dir n es d st :
  parts (slice (String.length base) id) = dir ++ [n] ->
  descend dir (entries (store st)) = Reached es ->
  Children.lookup n es = Some (Leaf d) ->
  getData base id st = Ok (List.length (streams st)) (afterCopy dir n d st).
Proof.
  intros Hp Hd Hl. unfold getData, bind.
  rewrite (MemoryFacts.getEntry_below base id dir n st Hp), find_snoc, Hd, Hl.
  unfold copyData, newStream, bind. cbn [streams store].
  rewrite (MemoryFacts.getParentEntry_below base id dir n _ Hp).
  cbn [pipeBoth store entries]. rewrite Hd. cbn [mutate location name].
  unfold afterCopy. cbn. rewrite length_app. cbn. now rewrite Nat.add_1_r.
Qed.

Lemma afterCopy_output dir n d st :
  entryData d < List.length (streams st) ->
  buffered (List.length (streams st)) (afterCopy dir n d st) = buffered (entryData d) st.
Proof.
  intros Hr. unfold buffered, afterCopy, pipeBoth. cbn [streams store].
  set (k := List.length (streams st)).
  rewrite nth_updateNth_ne by lia.
  rewrite nth_updateNth_eq
    by (rewrite length_updateNth, !length_app; cbn; fold k; lia).
  rewrite nth_updateNth_ne by lia.
  rewrite (app_nth1 (streams st ++ [[]])) by (rewrite length_app; cbn; fold k; lia).
  rewrite app_nth2 by (fold k; lia). fold k. rewrite Nat.sub_diag. cbn [nth app].
  unfold buffered. cbn [streams].
  rewrite (app_nth1 (streams st ++ [[]])) by (rewrite length_app; cbn; fold k; lia).
  now rewrite app_nth1 by (fold k; lia).
Qed.

Lemma afterCopy_kept dir n d st :
  entryData d < List.length (streams st) ->
  buffered (S (List.length (streams st))) (afterCopy dir n d st) = buffered (entryData d) st.
Proof.
  intros Hr. unfold buffered, afterCopy, pipeBoth. cbn [streams store].
  set (k := List.length (streams st)).
  rewrite nth_updateNth_eq
    by (rewrite !length_updateNth, !length_app; cbn; fold k; lia).
  rewrite !nth_updateNth_ne by lia.
  rewrite app_nth2 by (rewrite length_app; cbn; fold k; lia).
  rewrite length_app. cbn [List.length]. fold k.
  replace (S k - (k + 1)) with 0 by lia. cbn [nth app].
  unfold buffered. cbn [streams].
  rewrite (app_nth1 (streams st ++ [[]])) by (rewrite length_app; cbn; fold k; lia).
  now rewrite app_nth1 by (fold k; lia).
Qed.

Lemma afterCopy_length dir n d st :
  List.length (streams (afterCopy dir n d st)) = S (S (List.length (streams st))).
Proof.
  unfold afterCopy, pipeBoth. cbn [streams store].
  rewrite !length_updateNth, !length_app. cbn. lia.
Qed.

Lemma afterCopy_entry dir n d es st :
  descend dir (entries (store st)) = Reached es ->
  exists es',
    descend dir (entries (store (afterCopy dir n d st))) = Reached es'
    /\ Children.lookup n es'
       = Some (Leaf {| entryData := S (List.length (streams st));
                       entryMetadata := entryMetadata d |}).
Proof.
  intros Hd. eexists. split.
  - unfold afterCopy. cbn [store entries]. apply descend_modify. exact Hd.
  - apply lookup_assign_eq.
Qed.

(** C8. After [writeDataResource] has stored a data entry below the
    root, two [getData] calls in a row, each stream read to its end,
    both yield all the chunks that were written. *)
Theorem getData_twice id data metadata st0 st1 :
  parts (slice (String.length base) id) <> [] ->
  writeDataResource base id data metadata st0 = Ok tt st1 ->
  exists r1 st2 r2 st4,
    getData base id st1 = Ok r1 st2
    /\ fst (readAll r1 st2) = chunks data
    /\ getData base id (snd (readAll r1 st2)) = Ok r2 st4
    /\ fst (readAll r2 st4) = chunks data.
Proof.
  intros Hne Hwrite.
  destruct (list_snoc_cases (parts (slice (String.length base) id))) as [Hp | (dir & n & Hp)];
    [contradiction|].
  (* the state the write leaves *)
  unfold writeDataResource, bind, arrayifyStream in Hwrite.
  rewrite (MemoryFacts.getParentEntry_below base id dir n st0 Hp) in Hwrite.
  destruct (descend dir (entries (store st0))) as [es| |] eqn:Hd; try discriminate.
  destruct (failure data) eqn:Hfail; [discriminate|].
  cbn in Hwrite. injection Hwrite as <-.
  set (d1 := {| entryData := List.length (streams st0); entryMetadata := metadata |}).
  set (st1 := {| store := _; streams := _ |}).
  assert (Hd1 : descend dir (entries (store st1)) = Reached (Children.assign n (Leaf d1) es))
    by (apply descend_modify; exact Hd).
  assert (Hr1 : entryData d1 < List.length (streams st1))
    by (cbn; rewrite length_app; cbn; lia).
  assert (Hb1 : buffered (entryData d1) st1 = chunks data).
  { unfold buffered. cbn. rewrite app_nth2 by lia. now rewrite Nat.sub_diag. }
  (* first read *)
  pose proof (getData_copy id dir n _ d1 st1 Hp Hd1 (lookup_assign_eq _ _ _)) as Hget1.
  set (st2 := afterCopy dir n d1 st1) in *.
  set (r1 := List.length (streams st1)) in *.
  exists r1, st2.
  destruct (afterCopy_entry dir n d1 _ st1 Hd1) as (es2 & Hd2 & Hl2). fold st2 r1 in Hd2, Hl2.
  set (d2 := {| entryData := S r1; entryMetadata := entryMetadata d1 |}) in *.
  set (st3 := snd (readAll r1 st2)).
  assert (Hd3 : descend dir (entries (store st3)) = Reached es2) by exact Hd2.
  assert (Hlen3 : List.length (streams st3) = S (S r1)).
  { unfold st3, readAll. cbn [snd streams]. rewrite length_updateNth.
    apply afterCopy_length. }
  assert (Hb3 : buffered (entryData d2) st3 = chunks data).
  { unfold st3, readAll, buffered. cbn [snd streams entryData d2].
    rewrite nth_updateNth_ne by lia.
    fold (buffered (S r1) st2). unfold st2, r1. rewrite afterCopy_kept by exact Hr1.
    exact Hb1. }
  pose proof (getData_copy id dir n es2 d2 st3 Hp Hd3 Hl2) as Hget3.
  exists (List.length (streams st3)), (afterCopy dir n d2 st3).
  split; [exact Hget1|]. split.
  - unfold readAll. cbn [fst]. unfold st2, r1. rewrite afterCopy_output by exact Hr1.
    exact Hb1.
  - split; [exact Hget3|].
    unfold readAll. cbn [fst]. rewrite afterCopy_output; [exact Hb3|].
    cbn [entryData d2]. lia.
Qed.

End ReadInMemory.

Lemma getData_twice_witness :
  exists r1 st2 r2 st4,
    InMemoryDataAccessor.getData testBase "http://test.com/resource" withResource = Ok r1 st2
    /\ fst (InMemoryDataAccessor.readAll r1 st2) = ["data"]
    /\ InMemoryDataAccessor.getData testBase "http://test.com/resource"
         (snd (InMemoryDataAccessor.readAll r1 st2)) = Ok r2 st4
    /\ fst (InMemoryDataAccessor.readAll r2 st4) = ["data"].
Proof.
  apply (getData_twice testBase "http://test.com/resource" (streamifyArray ["data"]) None
           emptyStore withResource).
  - discriminate.
  - reflexivity.
Defined.

(* ================================================================== *)
(** * [DataAccessorBasedStore]: creating the containers of a path      *)
(* ================================================================== *)

Section RecursiveContainers.
Context {S R : Type}.
Variable accessor : DataAccessor S R.
Variable base : string.
Variable parseQuads : Readable -> Error + list Quad.
Hypothesis base_normal : ensureTrailingSlash base = base.

Local Abbreviation createRecursiveContainers :=
  (DataAccessorBasedStore.createRecursiveContainers accessor parseQuads
     UrlContainerManager.getContainer).

(** Writing without creating containers never needs the recursion. *)
Lemma writeDataUsing_returns recur id representation isContainer s :
  exists outcome,
    DataAccessorBasedStore.writeDataUsing accessor parseQuads UrlContainerManager.getContainer
      recur id representation isContainer false s = Some outcome.
Proof.
  unfold DataAccessorBasedStore.writeDataUsing, andThen, done.
  destruct isContainer.
  - destruct (DataAccessorBasedStore.handleContainerData parseQuads representation s);
      cbn; eauto.
  - cbn. eauto.
Qed.

(** One round of [createRecursiveContainers]. *)
Lemma createRecursiveContainers_found fuel id s metadata s' :
  DataAccessor.getNormalizedMetadata id s = Ok metadata s' ->
  DataAccessorBasedStore.isExistingContainer metadata = inr true ->
  createRecursiveContainers (Datatypes.S fuel) id s = Some (Ok tt s').
Proof.
  intros Hget Hc. cbn [DataAccessorBasedStore.createRecursiveContainers].
  unfold rescue, done, bind, liftE. now rewrite Hget, Hc.
Qed.

Lemma createRecursiveContainers_terminates segs :
  forallb isSegment segs = true ->
  (forall s e s', DataAccessor.getNormalizedMetadata base s = Throw e s' ->
                  isNotFound e = false) ->
  forall fuel s,
    List.length segs < fuel ->
    exists outcome, createRecursiveContainers fuel (containerPath base segs) s = Some outcome.
Proof.
  intros Hsegs Hbase. induction segs as [|x segs IH] using rev_ind; intros fuel s Hfuel.
  - destruct fuel as [|fuel]; [simpl in Hfuel; lia|].
    rewrite containerPath_nil. cbn [DataAccessorBasedStore.createRecursiveContainers].
    unfold rescue, done, bind.
    destruct (DataAccessor.getNormalizedMetadata base s) as [md s'|e s'] eqn:Hget.
    + destruct (liftE (DataAccessorBasedStore.isExistingContainer md) s') as [c s''|e s''] eqn:Hc.
      * destruct c; cbn; eauto.
      * unfold liftE in Hc.
        destruct (DataAccessorBasedStore.isExistingContainer md) as [e'|c] eqn:Hc';
          [|discriminate].
        injection Hc as <- <-.
        unfold DataAccessorBasedStore.isExistingContainer in Hc'.
        destruct (Metadata.getAll RDF.type md); [|discriminate].
        injection Hc' as <-. cbn. eauto.
    + rewrite (Hbase _ _ _ Hget). eauto.
  - rewrite forallb_app in Hsegs. apply andb_prop in Hsegs as [Hsegs Hx].
    simpl in Hx. rewrite andb_true_r in Hx.
    rewrite length_app in Hfuel. simpl in Hfuel.
    destruct fuel as [|fuel]; [lia|].
    cbn [DataAccessorBasedStore.createRecursiveContainers].
    unfold rescue at 1. unfold done at 1.
    destruct ((metadata <- DataAccessor.getNormalizedMetadata (containerPath base (segs ++ [x])) ;;
               isContainer <- liftE (DataAccessorBasedStore.isExistingContainer metadata) ;;
               (if negb isContainer then throw ConflictHttpError else ret tt)) s)
      as [[] s'|e s']; [eauto|].
    destruct (isNotFound e); [|unfold done; eauto].
    rewrite (getContainer_containerPath base base_normal segs x Hx).
    unfold andThen at 1. unfold andThen at 1. unfold done at 1. unfold liftE at 1.
    destruct (IH Hsegs fuel s' ltac:(lia)) as [[[] s''|e' s''] Hrec]; rewrite Hrec; [|eauto].
    apply writeDataUsing_returns.
Qed.

End RecursiveContainers.

(** C9. With the container manager that strips the last segment, and
    a backend in which the base is never "not found",
    [createRecursiveContainers] returns for every container identifier
    below the base once the recursion budget exceeds the number of its
    segments: each round that finds nothing goes on with the parent,
    which has one segment less, and a round that finds a container
    returns at once. *)
Theorem createRecursiveContainers_returns
    {S R : Type} (accessor : DataAccessor S R) (parseQuads : Readable -> Error + list Quad)
    (b : string) :
  (forall s e s',
      DataAccessor.getNormalizedMetadata (ensureTrailingSlash b) s = Throw e s' ->
      isNotFound e = false) ->
  (forall segs fuel s,
      forallb isSegment segs = true ->
      List.length segs < fuel ->
      exists outcome,
        DataAccessorBasedStore.createRecursiveContainers accessor parseQuads
          UrlContainerManager.getContainer fuel
          (containerPath (ensureTrailingSlash b) segs) s = Some outcome)
  /\ (forall segs x,
        isSegment x = true ->
        UrlContainerManager.getContainer (containerPath (ensureTrailingSlash b) (segs ++ [x]))
        = inr (containerPath (ensureTrailingSlash b) segs))
  /\ (forall fuel id s metadata s',
        DataAccessor.getNormalizedMetadata id s = Ok metadata s' ->
        DataAccessorBasedStore.isExistingContainer metadata = inr true ->
        DataAccessorBasedStore.createRecursiveContainers accessor parseQuads
          UrlContainerManager.getContainer (Datatypes.S fuel) id s = Some (Ok tt s')).
Proof.
  intros Hbase. split; [|split].
  - intros segs fuel s Hsegs Hfuel.
    now apply (createRecursiveContainers_terminates accessor _ parseQuads
                 (ensure_idempotent b) segs Hsegs Hbase).
  - intros segs x Hx. now apply getContainer_containerPath; [apply ensure_idempotent|].
  - intros fuel id s metadata s'. apply createRecursiveContainers_found.
Qed.

Lemma createRecursiveContainers_returns_witness :
  (forall segs fuel s,
      forallb isSegment segs = true ->
      List.length segs < fuel ->
      exists outcome,
        DataAccessorBasedStore.createRecursiveContainers
          (InMemoryDataAccessor.accessor testBase) testParser
          UrlContainerManager.getContainer fuel
          (containerPath (ensureTrailingSlash "http://test.com/") segs) s = Some outcome)
  /\ (forall segs x,
        isSegment x = true ->
        UrlContainerManager.getContainer
          (containerPath (ensureTrailingSlash "http://test.com/") (segs ++ [x]))
        = inr (containerPath (ensureTrailingSlash "http://test.com/") segs))
  /\ (forall fuel id s metadata s',
        DataAccessor.getNormalizedMetadata (DataAccessor := InMemoryDataAccessor.accessor testBase)
          id s = Ok metadata s' ->
        DataAccessorBasedStore.isExistingContainer metadata = inr true ->
        DataAccessorBasedStore.createRecursiveContainers
          (InMemoryDataAccessor.accessor testBase) testParser
          UrlContainerManager.getContainer (Datatypes.S fuel) id s = Some (Ok tt s')).
Proof.
  apply (createRecursiveContainers_returns (InMemoryDataAccessor.accessor testBase)
           testParser "http://test.com/").
  intros s e s' H.
  change (InMemoryDataAccessor.getNormalizedMetadata testBase "http://test.com/" s
          = Throw e s') in H.
  unfold InMemoryDataAccessor.getNormalizedMetadata, bind in H.
  rewrite (MemoryFacts.getEntry_root testBase "http://test.com/" s) in H by reflexivity.
  discriminate H.
Defined.

(* ================================================================== *)
(** * The store over the in-memory accessor                            *)
(* ================================================================== *)

Section FindFacts.
Context {L C : Type}.
Implicit Types (es ch : Entries L C) (dir : list string).

Lemma find_branch_descend dir n es ch c :
  find (dir ++ [n]) es = Some (Branch ch c) -> descend (dir ++ [n]) es = Reached ch.
Proof.
  rewrite find_snoc, descend_app.
  destruct (descend dir es) as [d| |]; try discriminate.
  intros H. cbn. now rewrite H.
Qed.

Lemma descend_find_branch dir n es ch :
  descend (dir ++ [n]) es = Reached ch -> exists c, find (dir ++ [n]) es = Some (Branch ch c).
Proof.
  rewrite find_snoc, descend_app.
  destruct (descend dir es) as [d| |]; try discriminate.
  cbn. destruct (Children.lookup n d) as [[l|ch' c]|]; try discriminate.
  intros H. injection H as ->. eauto.
Qed.

(** Changing the children of a directory changes that node only. *)
Lemma find_modify_same dir n f es ch c :
  find (dir ++ [n]) es = Some (Branch ch c) ->
  find (dir ++ [n]) (modify (dir ++ [n]) f es) = Some (Branch (f ch) c).
Proof.
  revert es. induction dir as [|k dir IH]; intros es H.
  - cbn in *. rewrite H. now rewrite lookup_assign_eq.
  - change ((k :: dir) ++ [n]) with (k :: dir ++ [n]) in *.
    rewrite find_cons_snoc in H. cbn [modify].
    destruct (Children.lookup k es) as [[l|ch' c']|] eqn:E; try discriminate.
    rewrite find_cons_snoc, lookup_assign_eq. now apply IH.
Qed.

End FindFacts.

Section MetadataFacts.
Import InMemoryDataAccessor.

Lemma getAll_addQuads p qs md :
  Metadata.getAll p (Metadata.addQuads qs md)
  = Metadata.getAll p md
    ++ map object (filter (fun q => (subject q =? Metadata.identifier md) && (predicate q =? p)) qs).
Proof.
  unfold Metadata.getAll, Metadata.addQuads, Metadata.about. cbn.
  now rewrite filter_app, map_app.
Qed.

Lemma getAll_contains_edges subj children :
  map object
    (filter (fun q => (subject q =? subj) && (predicate q =? LDP.contains))
       (MetadataController.generateContainerContainsResourceQuads subj children))
  = children.
Proof.
  induction children as [|c children IH]; [reflexivity|].
  cbn [MetadataController.generateContainerContainsResourceQuads map filter subject predicate].
  rewrite String.eqb_refl. cbn [andb String.eqb].
  change (LDP.contains =? LDP.contains) with true. cbn [map object]. f_equal. exact IH.
Qed.

(** The containment edges of a container are those stored with it and
    one per child. *)
Lemma contains_of_container id children m :
  Metadata.getAll LDP.contains (generateMetadata id (Branch children m))
  = Metadata.getAll LDP.contains (storedMetadata id m) ++ childNames id children.
Proof.
  unfold generateMetadata. fold (storedMetadata id m). rewrite getAll_addQuads.
  f_equal. apply getAll_contains_edges.
Qed.

Lemma types_of_container id children m :
  Metadata.getAll RDF.type (generateMetadata id (Branch children m))
  = Metadata.getAll RDF.type (storedMetadata id m).
Proof.
  unfold generateMetadata. fold (storedMetadata id m). rewrite getAll_addQuads.
  rewrite <- (app_nil_r (Metadata.getAll RDF.type (storedMetadata id m))) at 2. f_equal.
  induction children as [|c children IH]; [reflexivity|].
  cbn [map MetadataController.generateContainerContainsResourceQuads filter predicate].
  change (LDP.contains =? RDF.type) with false. rewrite andb_false_r. exact IH.
Qed.

End MetadataFacts.

Section StoreInMemory.
Import InMemoryDataAccessor.
Variable base : string.
Hypothesis base_normal : ensureTrailingSlash base = base.

Local Abbreviation storeDelete := (DataAccessorBasedStore.deleteResource (accessor base) base).

Lemma startsWith_refl (s : string) : startsWith s s = true.
Proof. rewrite <- (append_nil_r s) at 1. apply startsWith_append. Qed.

Lemma pieces_of_base : parts (slice (String.length base) base) = [].
Proof. now rewrite slice_beyond. Qed.

Lemma containerPath_not_base segs :
  forallb isSegment segs = true -> segs <> [] -> containerPath base segs <> base.
Proof.
  intros Hsegs Hne H. rewrite <- (append_nil_r base) in H at 2.
  apply append_inv_head in H. destruct segs as [|x segs]; [contradiction|].
  simpl in *. apply andb_prop in Hsegs as [Hx _].
  apply isSegment_nonEmpty, nonEmpty_spec in Hx. destruct x; [contradiction | discriminate].
Qed.

(** The store's [deleteResource] on a container below the base. *)
Lemma storeDelete_container segs children m st :
  forallb isSegment segs = true -> segs <> [] ->
  getEntry base (containerPath base segs) st = Ok (Branch children m) st ->
  storeDelete (containerPath base segs) st
  = if Nat.ltb 0 (List.length (Metadata.getAll LDP.contains
                                 (storedMetadata (containerPath base segs) m)
                               ++ childNames (containerPath base segs) children))
    then Throw ConflictHttpError st
    else deleteResource base (containerPath base segs) st.
Proof.
  intros Hsegs Hne Hentry.
  unfold DataAccessorBasedStore.deleteResource, DataAccessorBasedStore.validateIdentifier, bind.
  rewrite startsWith_containerPath. cbn [negb ret].
  rewrite (ensure_containerPath base base_normal segs Hsegs).
  destruct (String.eqb_spec (containerPath base segs) base) as [Heq|_];
    [now apply containerPath_not_base in Heq|].
  cbn [DataAccessor.getMetadata DataAccessor.deleteResource accessor].
  unfold getMetadata, bind. rewrite Hentry.
  rewrite (endsWith_containerPath base base_normal segs). cbn [isDataEntry Bool.eqb ret].
  rewrite contains_of_container. now destruct (Nat.ltb 0 _).
Qed.

(** A successful [deleteResource] of the store is the accessor's. *)
Lemma storeDelete_ok id st st' :
  storeDelete id st = Ok tt st' -> deleteResource base id st = Ok tt st'.
Proof.
  unfold DataAccessorBasedStore.deleteResource, DataAccessorBasedStore.validateIdentifier, bind.
  destruct (negb (startsWith id base)); [discriminate|]. cbn [ret].
  destruct (ensureTrailingSlash id =? base); [discriminate|].
  cbn [DataAccessor.getMetadata DataAccessor.deleteResource accessor].
  unfold getMetadata, bind.
  destruct (getEntry base id st) as [entry s|e s] eqn:E; [|discriminate].
  apply MemoryFacts.getEntry_ok in E. subst s.
  destruct (Bool.eqb (isDataEntry entry) (endsWith id "/")); [discriminate|]. cbn [ret].
  destruct (Nat.ltb 0 _); [discriminate | trivial].
Qed.

Lemma store_deleteResource_root st :
  storeDelete base st = Throw MethodNotAllowedHttpError st.
Proof.
  unfold DataAccessorBasedStore.deleteResource, DataAccessorBasedStore.validateIdentifier, bind.
  rewrite startsWith_refl. cbn [negb ret]. now rewrite base_normal, String.eqb_refl.
Qed.

Lemma store_deleteResource_conflict segs child children m st :
  forallb isSegment segs = true -> segs <> [] ->
  getEntry base (containerPath base segs) st = Ok (Branch (child :: children) m) st ->
  storeDelete (containerPath base segs) st = Throw ConflictHttpError st.
Proof.
  intros Hsegs Hne Hentry. rewrite (storeDelete_container segs _ m st Hsegs Hne Hentry).
  rewrite length_app. cbn [childNames map List.length].
  now rewrite Nat.add_succ_r.
Qed.

Lemma store_deleteResource_emptied segs x child m childId st st' :
  forallb isSegment segs = true -> segs <> [] ->
  getEntry base (containerPath base segs) st = Ok (Branch [(x, child)] m) st ->
  Metadata.getAll LDP.contains (storedMetadata (containerPath base segs) m) = [] ->
  parts (slice (String.length base) childId) = segs ++ [x] ->
  storeDelete childId st = Ok tt st' ->
  exists st'',
    storeDelete (containerPath base segs) st' = Ok tt st''
    /\ getEntry base (containerPath base segs) st'' = Throw NotFoundHttpError st''.
Proof.
  intros Hsegs Hne Hentry Hstored Hchild Hdel.
  destruct (list_snoc_cases segs) as [->|(dir & n & ->)]; [contradiction|].
  pose proof (parts_containerPath base (dir ++ [n]) Hsegs) as Hparts.
  rewrite (MemoryFacts.getEntry_below base _ dir n st Hparts) in Hentry.
  destruct (find (dir ++ [n]) (entries (store st))) as [entry|] eqn:Hfind; [|discriminate].
  injection Hentry as ->.
  (* the state after the child is gone *)
  apply storeDelete_ok in Hdel. unfold deleteResource, bind in Hdel.
  rewrite (MemoryFacts.getParentEntry_below base childId (dir ++ [n]) x st Hchild) in Hdel.
  rewrite (find_branch_descend _ _ _ _ _ Hfind) in Hdel. cbn [name parent] in Hdel.
  cbn [Children.lookup] in Hdel. rewrite String.eqb_refl in Hdel.
  cbn [mutate location name] in Hdel. injection Hdel as Hst'.
  assert (Hentry' : getEntry base (containerPath base (dir ++ [n])) st' = Ok (Branch [] m) st').
  { subst st'. erewrite (MemoryFacts.getEntry_below base _ dir n) by exact Hparts.
    cbn [store entries].
    rewrite (find_modify_same dir n (Children.remove x) _ _ _ Hfind).
    now rewrite remove_single. }
  rewrite (storeDelete_container _ _ m _ Hsegs Hne Hentry').
  rewrite Hstored. cbn [childNames map app List.length Nat.ltb Nat.leb].
  pose proof (deleteResource_outcome base (containerPath base (dir ++ [n])) st') as Hout.
  rewrite Hentry' in Hout. destruct Hout as (st'' & Hdel' & _ & Hgone).
  exists st''. split; [exact Hdel'|]. apply Hgone. rewrite Hparts. now destruct dir.
Qed.

End StoreInMemory.


(* ================================================================== *)
(** * The store over the in-memory accessor: writing                   *)
(* ================================================================== *)

Section PayloadFacts.
Context {L C : Type}.
Implicit Types (es ch : Entries L C) (dir more : list string).

Lemma find_modify_below dir n more f es ch c :
  find (dir ++ [n]) es = Some (Branch ch c) ->
  find (dir ++ [n]) (modify ((dir ++ [n]) ++ more) f es) = Some (Branch (modify more f ch) c).
Proof.
  revert es. induction dir as [|k dir IH]; intros es H.
  - cbn in *. rewrite H. now rewrite lookup_assign_eq.
  - change ((k :: dir) ++ [n]) with (k :: dir ++ [n]) in *.
    rewrite find_cons_snoc in H.
    change ((k :: dir ++ [n]) ++ more) with (k :: (dir ++ [n]) ++ more). cbn [modify].
    destruct (Children.lookup k es) as [[l|ch' c']|] eqn:E; try discriminate.
    rewrite find_cons_snoc, lookup_assign_eq. now apply IH.
Qed.

(** A change at or below an inner node leaves what it carries. *)
Lemma payloadAt_modify_below dir n more f es c :
  payloadAt (dir ++ [n]) es = Some c ->
  payloadAt (dir ++ [n]) (modify ((dir ++ [n]) ++ more) f es) = Some c.
Proof.
  unfold payloadAt. destruct (find (dir ++ [n]) es) as [[l|ch c']|] eqn:E; try discriminate.
  intros H. injection H as ->. now rewrite (find_modify_below dir n more f es ch c E).
Qed.

Lemma find_assigned dir n v es d :
  descend dir es = Reached d ->
  find (dir ++ [n]) (modify dir (Children.assign n v) es) = Some v.
Proof.
  intros H. now rewrite find_snoc, (descend_modify dir _ es d H), lookup_assign_eq.
Qed.

Lemma descend_assigned dir n ch c es d :
  descend dir es = Reached d ->
  descend (dir ++ [n]) (modify dir (Children.assign n (Branch ch c)) es) = Reached ch.
Proof.
  intros H. rewrite descend_app, (descend_modify dir _ es d H). cbn.
  now rewrite lookup_assign_eq.
Qed.

Lemma find_other dir n m v es d :
  descend dir es = Reached d -> n <> m ->
  find (dir ++ [m]) (modify dir (Children.assign n v) es) = Children.lookup m d.
Proof.
  intros H Hne. now rewrite find_snoc, (descend_modify dir _ es d H), lookup_assign_ne.
Qed.

End PayloadFacts.

Section StoreWrites.
Import InMemoryDataAccessor.
Variable base : string.
Hypothesis base_normal : ensureTrailingSlash base = base.
Variable parseQuads : Readable -> Error + list Quad.

Local Abbreviation getContainer := UrlContainerManager.getContainer.
Local Abbreviation createRecursiveContainers :=
  (DataAccessorBasedStore.createRecursiveContainers (accessor base) parseQuads getContainer).
Local Abbreviation writeDataUsing :=
  (DataAccessorBasedStore.writeDataUsing (accessor base) parseQuads getContainer).

Lemma writeContainer_below id dir n d md st :
  parts (slice (String.length base) id) = dir ++ [n] ->
  descend dir (entries (store st)) = Reached d ->
  writeContainer base id md st = Ok tt (withEntry dir n (Branch [] md) st).
Proof.
  intros Hp Hd. unfold writeContainer, bind.
  now rewrite (MemoryFacts.getParentEntry_below base id dir n st Hp), Hd.
Qed.

Lemma writeDataResource_below id dir n d data md st :
  parts (slice (String.length base) id) = dir ++ [n] ->
  descend dir (entries (store st)) = Reached d ->
  failure data = None ->
  writeDataResource base id data md st
  = Ok tt (withEntry dir n
             (Leaf {| entryData := List.length (streams st); entryMetadata := md |})
             {| store := store st; streams := streams st ++ [chunks data] |}).
Proof.
  intros Hp Hd Hf. unfold writeDataResource, bind, arrayifyStream.
  now rewrite (MemoryFacts.getParentEntry_below base id dir n st Hp), Hd, Hf.
Qed.

(** [writeData] of the empty container the recursion makes. *)
Lemma writeData_empty_container recur dir n d st :
  parseQuads (streamifyArray []) = inr [] ->
  forallb isSegment (dir ++ [n]) = true ->
  descend dir (entries (store st)) = Reached d ->
  writeDataUsing recur (containerPath base (dir ++ [n]))
    (DataAccessorBasedStore.getEmptyContainerRepresentation (containerPath base (dir ++ [n])))
    true false st
  = Some (Ok tt (withEntry dir n
                   (Branch [] (Some (DataAccessorBasedStore.emptyContainerMetadata
                                       (containerPath base (dir ++ [n])))))
                   st)).
Proof.
  intros Hparse Hsegs Hd.
  unfold DataAccessorBasedStore.writeDataUsing, andThen, done,
    DataAccessorBasedStore.handleContainerData, tryCatch, bind, liftE.
  cbn [DataAccessorBasedStore.getEmptyContainerRepresentation data metadata binary].
  rewrite Hparse. cbn [existsb ret].
  cbn [DataAccessor.writeContainer accessor].
  rewrite (writeContainer_below _ dir n d _ st (parts_containerPath base _ Hsegs) Hd).
  reflexivity.
Qed.

(** A round that finds nothing goes on with the parent. *)
Lemma createRecursiveContainers_missing fuel id st :
  getEntry base id st = Throw NotFoundHttpError st ->
  createRecursiveContainers (Datatypes.S fuel) id st
  = andThen (andThen (done (liftE (getContainer id))) (createRecursiveContainers fuel))
      (fun _ => writeDataUsing (createRecursiveContainers fuel) id
                  (DataAccessorBasedStore.getEmptyContainerRepresentation id) true false)
      st.
Proof.
  intros H. cbn [DataAccessorBasedStore.createRecursiveContainers].
  unfold rescue at 1. unfold done at 1. unfold bind at 1.
  cbn [DataAccessor.getNormalizedMetadata accessor].
  unfold getNormalizedMetadata, bind. now rewrite H.
Qed.

(** Nothing is at an identifier whose first segment is missing. *)
Lemma getEntry_missing id n rest st :
  parts (slice (String.length base) id) = n :: rest ->
  Children.lookup n (entries (store st)) = None ->
  getEntry base id st = Throw NotFoundHttpError st.
Proof.
  intros Hp Hl.
  destruct (list_snoc_cases (n :: rest)) as [H|(dir & x & H)]; [discriminate|].
  rewrite H in Hp. rewrite (MemoryFacts.getEntry_below base id dir x st Hp), <- H.
  destruct rest as [|y rest]; cbn [find]; now rewrite Hl.
Qed.

End StoreWrites.

Section CascadingCreation.
Import InMemoryDataAccessor DataAccessorBasedStore.
Variable base : string.
Hypothesis base_normal : ensureTrailingSlash base = base.
Variable parseQuads : Readable -> Error + list Quad.
Hypothesis parse_empty : parseQuads (streamifyArray []) = inr [].
Variables a b c r : string.
Hypothesis segment_a : isSegment a = true.
Hypothesis segment_b : isSegment b = true.
Hypothesis segment_c : isSegment c = true.
Hypothesis segment_r : isSegment r = true.

Local Abbreviation getContainer := UrlContainerManager.getContainer.
Local Abbreviation createRecursiveContainers :=
  (DataAccessorBasedStore.createRecursiveContainers (accessor base) parseQuads getContainer).
Local Abbreviation emptyContainer segs :=
  (Branch [] (Some (DataAccessorBasedStore.emptyContainerMetadata (containerPath base segs)))).

Lemma segments_abc : forallb isSegment [a; b; c] = true.
Proof. cbn. now rewrite segment_a, segment_b, segment_c. Qed.

Lemma segments_ab : forallb isSegment [a; b] = true.
Proof. cbn. now rewrite segment_a, segment_b. Qed.

Lemma segments_a : forallb isSegment [a] = true.
Proof. cbn. now rewrite segment_a. Qed.

Local Abbreviation cascade := (cascade base a b c).

Lemma descend_cascade st :
  descend [a; b; c] (entries (store (cascade st))) = Reached [].
Proof.
  unfold DataAccessorBasedStore.cascade.
  apply (descend_assigned [a; b] c [] _ _ []).
  apply (descend_assigned [a] b [] _ _ []).
  apply (descend_assigned [] a [] _ _ (entries (store st))). reflexivity.
Qed.

Lemma createRecursiveContainers_cascade fuel st :
  Children.lookup a (entries (store st)) = None ->
  DataAccessorBasedStore.isExistingContainer (generateMetadata base (asEntry (store st)))
  = inr true ->
  createRecursiveContainers (4 + fuel) (containerPath base [a; b; c]) st
  = Some (Ok tt (cascade st)).
Proof.
  intros Hmissing Hroot.
  assert (Hnone : forall rest,
             forallb isSegment (a :: rest) = true ->
             getEntry base (containerPath base (a :: rest)) st = Throw NotFoundHttpError st).
  { intros rest Hrest. apply (getEntry_missing base _ a rest); [|exact Hmissing].
    now apply parts_containerPath. }
  change (4 + fuel) with (Datatypes.S (Datatypes.S (Datatypes.S (Datatypes.S fuel)))).
  rewrite (createRecursiveContainers_missing base parseQuads _ _ st (Hnone [b; c] segments_abc)).
  unfold andThen at 1. unfold andThen at 1. unfold done at 1. unfold liftE at 1.
  change [a; b; c] with ([a; b] ++ [c]) at 1.
  rewrite (getContainer_containerPath base base_normal [a; b] c segment_c).
  rewrite (createRecursiveContainers_missing base parseQuads _ _ st (Hnone [b] segments_ab)).
  unfold andThen at 1. unfold andThen at 1. unfold done at 1. unfold liftE at 1.
  change [a; b] with ([a] ++ [b]) at 1.
  rewrite (getContainer_containerPath base base_normal [a] b segment_b).
  rewrite (createRecursiveContainers_missing base parseQuads _ _ st (Hnone [] segments_a)).
  unfold andThen at 1. unfold andThen at 1. unfold done at 1. unfold liftE at 1.
  change [a] with ([] ++ [a]) at 1.
  rewrite (getContainer_containerPath base base_normal [] a segment_a).
  rewrite containerPath_nil.
  rewrite (createRecursiveContainers_found (accessor base) parseQuads fuel base st
             (generateMetadata base (asEntry (store st))) st).
  2: { cbn [DataAccessor.getNormalizedMetadata accessor]. unfold getNormalizedMetadata, bind.
       now rewrite (MemoryFacts.getEntry_root base base st (pieces_of_base base)). }
  2: exact Hroot.
  change ([] ++ [a]) with [a].
  rewrite (writeData_empty_container base parseQuads _ [] a (entries (store st)) st
             parse_empty segments_a eq_refl).
  change ([a] ++ [b]) with [a; b].
  rewrite (writeData_empty_container base parseQuads _ [a] b [] _ parse_empty segments_ab).
  2: { apply (descend_assigned [] a [] _ _ (entries (store st))). reflexivity. }
  change ([a; b] ++ [c]) with [a; b; c].
  rewrite (writeData_empty_container base parseQuads _ [a; b] c [] _ parse_empty segments_abc).
  2: { apply (descend_assigned [a] b [] _ _ []).
       apply (descend_assigned [] a [] _ _ (entries (store st))). reflexivity. }
  reflexivity.
Qed.

Lemma types_of_emptyContainer id :
  Metadata.getAll RDF.type (emptyContainerMetadata id)
  = [LDP.Container; LDP.BasicContainer; LDP.Resource].
Proof.
  unfold Metadata.getAll, Metadata.about, emptyContainerMetadata.
  cbn [Metadata.quads Metadata.identifier MetadataController.generateResourceQuads
       MetadataController.typeQuad filter subject predicate].
  rewrite String.eqb_refl. reflexivity.
Qed.

(** A container the recursion made is found by [getMetadata], under
    its own identifier and as a container. *)
Lemma getMetadata_made dir n st :
  forallb isSegment (dir ++ [n]) = true ->
  payloadAt (dir ++ [n]) (entries (store st))
  = Some (Some (emptyContainerMetadata (containerPath base (dir ++ [n])))) ->
  exists md,
    getMetadata base (containerPath base (dir ++ [n])) st = Ok md st
    /\ Metadata.identifier md = containerPath base (dir ++ [n])
    /\ isExistingContainer md = inr true.
Proof.
  intros Hsegs Hpayload. unfold payloadAt in Hpayload.
  destruct (find (dir ++ [n]) (entries (store st))) as [[l|ch m]|] eqn:Hfind; try discriminate.
  injection Hpayload as ->.
  exists (generateMetadata (containerPath base (dir ++ [n])) (Branch ch (Some
            (emptyContainerMetadata (containerPath base (dir ++ [n])))))).
  split; [|split].
  - unfold getMetadata, bind.
    rewrite (MemoryFacts.getEntry_below base _ dir n st (parts_containerPath base _ Hsegs)), Hfind.
    now rewrite (endsWith_containerPath base base_normal).
  - reflexivity.
  - unfold isExistingContainer. rewrite types_of_container.
    cbn [storedMetadata]. now rewrite types_of_emptyContainer.
Qed.

Local Abbreviation created := (created base a b c r).

Lemma setRepresentation_cascade fuel representation st :
  Children.lookup a (entries (store st)) = None ->
  isExistingContainer (generateMetadata base (asEntry (store st))) = inr true ->
  isNewContainer (metadata representation) (Some (resourcePath base [a; b; c] r)) = false ->
  failure (data representation) = None ->
  setRepresentation (accessor base) base parseQuads getContainer (4 + fuel)
    (resourcePath base [a; b; c] r) representation st
  = Some (Ok tt (created representation st)).
Proof.
  intros Hmissing Hroot Hkind Hdata.
  assert (Hparts : parts (slice (String.length base) (resourcePath base [a; b; c] r))
                   = [a; b; c] ++ [r])
    by (apply parts_resourcePath; [apply segments_abc | exact segment_r]).
  unfold setRepresentation, validateIdentifier.
  rewrite startsWith_resourcePath. cbn [negb].
  unfold andThen at 1. unfold done at 1.
  cbn [DataAccessor.canHandle DataAccessor.getNormalizedMetadata accessor].
  unfold canHandle, getNormalizedMetadata, tryCatch, bind, ret.
  rewrite (getEntry_missing base _ a [b; c; r] st Hparts Hmissing).
  cbn [isNotFound negb]. rewrite Hkind.
  unfold andThen at 1. unfold done at 1.
  rewrite (endsWith_resourcePath base _ r segment_r). cbn [Bool.eqb negb].
  unfold writeData, writeDataUsing.
  unfold andThen at 1. unfold done at 1.
  unfold andThen at 1. unfold andThen at 1. unfold done at 1. unfold liftE at 1.
  rewrite (getContainer_resourcePath base base_normal [a; b; c] r segment_r).
  unfold ret at 1.
  rewrite (createRecursiveContainers_cascade fuel st Hmissing Hroot).
  unfold done. cbn [DataAccessor.writeDataResource accessor].
  rewrite (writeDataResource_below base _ [a; b; c] r [] _ _ _ Hparts (descend_cascade st) Hdata).
  reflexivity.
Qed.

Lemma payload_created q representation st :
  In q [[a]; [a; b]; [a; b; c]] ->
  payloadAt q (entries (store (created representation st)))
  = Some (Some (emptyContainerMetadata (containerPath base q))).
Proof.
  set (E0 := entries (store st)).
  set (E1 := modify [] (Children.assign a (emptyContainer [a])) E0).
  set (E2 := modify [a] (Children.assign b (emptyContainer [a; b])) E1).
  set (E3 := modify [a; b] (Children.assign c (emptyContainer [a; b; c])) E2).
  assert (Hd1 : descend [a] E1 = Reached []).
  { apply (descend_assigned [] a [] _ _ E0). reflexivity. }
  assert (Hd2 : descend [a; b] E2 = Reached []).
  { apply (descend_assigned [a] b [] _ _ []). exact Hd1. }
  assert (Hpayload : forall dir n (v : option RepresentationMetadata)
                            (es d : Entries DataEntry (option RepresentationMetadata)),
             descend dir es = Reached d ->
             payloadAt (dir ++ [n]) (modify dir (Children.assign n (Branch [] v)) es) = Some v).
  { intros dir n v es d Hd. unfold payloadAt. now rewrite (find_assigned dir n _ es d Hd). }
  assert (Ha1 : payloadAt [a] E1 = Some (Some (emptyContainerMetadata (containerPath base [a]))))
    by (apply (Hpayload [] a _ E0 E0); reflexivity).
  assert (Hb2 : payloadAt [a; b] E2
                = Some (Some (emptyContainerMetadata (containerPath base [a; b]))))
    by (apply (Hpayload [a] b _ E1 []); exact Hd1).
  assert (Hc3 : payloadAt [a; b; c] E3
                = Some (Some (emptyContainerMetadata (containerPath base [a; b; c]))))
    by (apply (Hpayload [a; b] c _ E2 []); exact Hd2).
  assert (Ha2 : payloadAt [a] E2 = Some (Some (emptyContainerMetadata (containerPath base [a]))))
    by exact (payloadAt_modify_below [] a [] _ E1 _ Ha1).
  assert (Ha3 : payloadAt [a] E3 = Some (Some (emptyContainerMetadata (containerPath base [a]))))
    by exact (payloadAt_modify_below [] a [b] _ E2 _ Ha2).
  assert (Hb3 : payloadAt [a; b] E3
                = Some (Some (emptyContainerMetadata (containerPath base [a; b]))))
    by exact (payloadAt_modify_below [a] b [] _ E2 _ Hb2).
  intros [<-|[<-|[<-|[]]]]; unfold DataAccessorBasedStore.created, withEntry; cbn [store entries];
    change (entries (store (cascade st))) with E3.
  - exact (payloadAt_modify_below [] a [b; c] _ E3 _ Ha3).
  - exact (payloadAt_modify_below [a] b [c] _ E3 _ Hb3).
  - exact (payloadAt_modify_below [a; b] c [] _ E3 _ Hc3).
Qed.

Lemma getData_created representation st :
  exists out st',
    getData base (resourcePath base [a; b; c] r) (created representation st) = Ok out st'
    /\ fst (readAll out st') = chunks (data representation).
Proof.
  set (d := {| entryData := List.length (streams st);
               entryMetadata := Some (resourceMetadata (resourcePath base [a; b; c] r)
                                        representation) |}).
  assert (Hparts : parts (slice (String.length base) (resourcePath base [a; b; c] r))
                   = [a; b; c] ++ [r])
    by (apply parts_resourcePath; [apply segments_abc | exact segment_r]).
  assert (Hd : descend [a; b; c] (entries (store (created representation st)))
               = Reached (Children.assign r (Leaf d) [])).
  { unfold DataAccessorBasedStore.created, withEntry. cbn [store entries].
    apply descend_modify. apply descend_cascade. }
  eexists _, _. split.
  - apply (getData_copy base _ [a; b; c] r _ d _ Hparts Hd). apply lookup_assign_eq.
  - unfold readAll. cbn [fst]. rewrite afterCopy_output.
    + unfold buffered, DataAccessorBasedStore.created, withEntry. cbn [streams entryData d].
      rewrite app_nth2 by lia. now rewrite Nat.sub_diag.
    + unfold DataAccessorBasedStore.created, withEntry. cbn [streams entryData d]. rewrite length_app. cbn. lia.
Qed.

End CascadingCreation.


(* ================================================================== *)
(** * The store over the in-memory accessor: a taken name              *)
(* ================================================================== *)

Section SlugCollision.
Import InMemoryDataAccessor DataAccessorBasedStore.
Variable base : string.
Hypothesis base_normal : ensureTrailingSlash base = base.
Variable parseQuads : Readable -> Error + list Quad.
Variable uuid : nat -> string.
Variable segs : list string.
Variables x : string.
Hypothesis segments : forallb isSegment segs = true.
Hypothesis segment_x : isSegment x = true.
Hypothesis segment_uuid : isSegment (uuid 0) = true.
Hypothesis fresh : uuid 0 <> x.

Local Abbreviation getContainer := UrlContainerManager.getContainer.
Local Abbreviation container := (containerPath base segs).
Local Abbreviation addResource :=
  (DataAccessorBasedStore.addResource (accessor base) base parseQuads getContainer uuid).

Lemma getEntry_container_descend children m st :
  getEntry base container st = Ok (Branch children m) st ->
  descend segs (entries (store st)) = Reached children.
Proof.
  pose proof (parts_containerPath base segs segments) as Hparts.
  destruct (list_snoc_cases segs) as [Hnil|(dir & n & Hsnoc)].
  - rewrite Hnil in *. rewrite (MemoryFacts.getEntry_root base _ st Hparts).
    unfold asEntry. intros H. now injection H as <- _.
  - rewrite Hsnoc in *. rewrite (MemoryFacts.getEntry_below base _ dir n st Hparts).
    destruct (find (dir ++ [n]) (entries (store st))) as [entry|] eqn:Hfind; [|discriminate].
    intros H. injection H as ->. now apply find_branch_descend in Hfind.
Qed.

Lemma trim_segment : trimTrailingSlashes x = x.
Proof. apply trim_no_slash, endsWith_slashFree, isSegment_slashFree, segment_x. Qed.

(** A name below the container, with and without its slash. *)
Lemma candidate_slashes (n : string) (isContainer : bool) :
  isSegment n = true ->
  ensureTrailingSlash (container +:+ n +:+ (if isContainer then "/" else ""))
  = container +:+ n +:+ "/"
  /\ trimTrailingSlashes (container +:+ n +:+ (if isContainer then "/" else ""))
     = container +:+ n.
Proof.
  intros Hn.
  pose proof (ensure_resourcePath base segs n Hn) as He.
  pose proof (trim_resourcePath base segs n Hn) as Ht.
  rewrite containerPath_snoc, resourcePath_containerPath in He.
  rewrite resourcePath_containerPath in Ht.
  destruct isContainer.
  - rewrite <- append_assoc. now rewrite ensure_snoc_slash, trim_snoc_slash, append_assoc in *.
  - rewrite append_nil_r. split; [|exact Ht]. now rewrite He, append_assoc.
Qed.

(** The generated name differs from the taken one, slash or not. *)
Lemma fresh_name (isContainer : bool) :
  container +:+ uuid 0 +:+ (if isContainer then "/" else "") <> resourcePath base segs x
  /\ container +:+ uuid 0 +:+ (if isContainer then "/" else "")
     <> containerPath base (segs ++ [x]).
Proof.
  split; intros H; apply (f_equal trimTrailingSlashes) in H;
    rewrite (proj2 (candidate_slashes (uuid 0) isContainer segment_uuid)) in H.
  - rewrite (trim_resourcePath base segs x segment_x), resourcePath_containerPath in H.
    apply append_inv_head in H. exact (fresh H).
  - rewrite containerPath_snoc, trim_snoc_slash in H.
    rewrite (trim_resourcePath base segs x segment_x), resourcePath_containerPath in H.
    apply append_inv_head in H. exact (fresh H).
Qed.

Lemma childNames_lookup children child :
  Children.lookup x children = Some child ->
  In (container +:+ x +:+ (if isDataEntry child then "" else "/"))
     (childNames container children).
Proof.
  induction children as [|[k v] children IH]; [discriminate|].
  cbn [Children.lookup childNames map fst snd].
  destruct (String.eqb_spec k x) as [->|Hne].
  - intros H. injection H as ->. now left.
  - intros H. right. now apply IH.
Qed.

(** The name the client suggests is taken, whatever the kinds. *)
Lemma slug_collides (isContainer : bool) children m child :
  Children.lookup x children = Some child ->
  existsb
    (fun term =>
       (term =? ensureTrailingSlash (container +:+ x +:+ (if isContainer then "/" else "")))
       || (term =? trimTrailingSlashes (container +:+ x +:+ (if isContainer then "/" else ""))))
    (Metadata.getAll LDP.contains (generateMetadata container (Branch children m)))
  = true.
Proof.
  intros Hchild. destruct (candidate_slashes x isContainer segment_x) as [-> ->].
  rewrite contains_of_container, existsb_app. apply orb_true_iff. right.
  apply existsb_exists. eexists. split; [exact (childNames_lookup _ _ Hchild)|].
  destruct (isDataEntry child).
  - rewrite append_nil_r, String.eqb_refl. apply orb_true_r.
  - now rewrite String.eqb_refl.
Qed.

Section Adding.
Variables (children : list (string * CacheEntry)) (m : option RepresentationMetadata).
Variables (child : CacheEntry) (representation : Representation) (st : State).
Hypothesis container_entry : getEntry base container st = Ok (Branch children m) st.
Hypothesis container_kind :
  isExistingContainer (generateMetadata container (Branch children m)) = inr true.
Hypothesis has_child : Children.lookup x children = Some child.
Hypothesis suggested : Metadata.get HTTP.slug (metadata representation) = Some x.

Local Abbreviation stripped :=
  {| binary := binary representation;
     data := data representation;
     metadata := Metadata.removeAll HTTP.slug (metadata representation) |}.

(** [addResource] up to the write: the generated name replaces the
    suggested one. *)
Lemma addResource_regenerates fuel :
  addResource fuel container representation st
  = andThen
      (writeData (accessor base) parseQuads getContainer fuel
         (container +:+ uuid 0
          +:+ (if isNewContainer (metadata representation) None then "/" else ""))
         stripped (isNewContainer (metadata representation) None) false)
      (fun _ => done (ret (container +:+ uuid 0
                           +:+ (if isNewContainer (metadata representation) None
                                then "/" else ""))))
      st.
Proof.
  unfold DataAccessorBasedStore.addResource, validateIdentifier.
  rewrite startsWith_containerPath. cbn [negb].
  unfold andThen at 1. unfold done at 1.
  cbn [DataAccessor.canHandle DataAccessor.getNormalizedMetadata accessor].
  unfold canHandle at 1. unfold bind at 1. unfold ret at 1. unfold bind at 1. unfold ret at 1.
  rewrite suggested. rewrite (isSegment_nonEmpty x segment_x).
  unfold createURI. rewrite (ensure_containerPath base base_normal segs segments).
  rewrite (isSegment_nonEmpty x segment_x), trim_segment.
  unfold andThen at 1. unfold done at 1. unfold tryCatch at 1. unfold bind at 1.
  unfold getNormalizedMetadata at 1. unfold bind at 1. rewrite container_entry.
  unfold ret at 1. rewrite (slug_collides _ children m child has_child).
  unfold ret at 1. cbn [fst snd].
  unfold andThen at 1. unfold done at 1. unfold liftE.
  rewrite container_kind. cbn [negb]. unfold ret at 1.
  reflexivity.
Qed.

Lemma addResource_data fuel :
  isNewContainer (metadata representation) None = false ->
  failure (data representation) = None ->
  addResource fuel container representation st
  = Some (Ok (resourcePath base segs (uuid 0))
             (withEntry segs (uuid 0)
                (Leaf {| entryData := List.length (streams st);
                         entryMetadata :=
                           Some (resourceMetadata (container +:+ uuid 0 +:+ "") stripped) |})
                {| store := store st;
                   streams := streams st ++ [chunks (data representation)] |})).
Proof.
  intros Hkind Hdata. rewrite addResource_regenerates, Hkind.
  unfold writeData, writeDataUsing.
  unfold andThen at 1. unfold andThen at 1. unfold done at 1. unfold ret at 1.
  unfold andThen at 1. unfold done at 1. unfold ret at 1. unfold done at 1.
  cbn [DataAccessor.writeDataResource accessor data metadata].
  assert (Hid : container +:+ uuid 0 +:+ "" = resourcePath base segs (uuid 0))
    by now rewrite append_nil_r, resourcePath_containerPath.
  rewrite (writeDataResource_below base _ segs (uuid 0) children _ _ st).
  - unfold done, ret. now rewrite Hid.
  - rewrite Hid. now apply parts_resourcePath.
  - now apply (getEntry_container_descend children m).
  - exact Hdata.
Qed.

Lemma addResource_container fuel quads :
  isNewContainer (metadata representation) None = true ->
  parseQuads (data representation) = inr quads ->
  existsb (fun quad => predicate quad =? LDP.contains) quads = false ->
  exists md,
    addResource fuel container representation st
    = Some (Ok (containerPath base (segs ++ [uuid 0]))
               (withEntry segs (uuid 0) (Branch [] (Some md)) st)).
Proof.
  intros Hkind Hparse Hquads. rewrite addResource_regenerates, Hkind.
  unfold writeData, writeDataUsing.
  unfold andThen at 1. unfold andThen at 1. unfold done at 1.
  unfold handleContainerData, tryCatch, bind, liftE. cbn [data metadata binary].
  rewrite Hparse, Hquads. unfold ret at 1.
  unfold andThen at 1. unfold done at 1. unfold ret at 1. unfold done at 1.
  cbn [DataAccessor.writeContainer accessor].
  assert (Hid : container +:+ uuid 0 +:+ "/" = containerPath base (segs ++ [uuid 0]))
    by now rewrite containerPath_snoc, resourcePath_containerPath, append_assoc.
  eexists.
  rewrite (writeContainer_below base _ segs (uuid 0) children _ st).
  - unfold done, ret. now rewrite Hid.
  - rewrite Hid. apply parts_containerPath. rewrite forallb_app, segments. cbn.
    now rewrite segment_uuid.
  - now apply (getEntry_container_descend children m).
Qed.

(** The child that had the name is still there. *)
Lemma child_kept entry streams' :
  getEntry base (resourcePath base segs x)
    (withEntry segs (uuid 0) entry {| store := store st; streams := streams' |})
  = Ok child (withEntry segs (uuid 0) entry {| store := store st; streams := streams' |}).
Proof.
  rewrite (MemoryFacts.getEntry_below base _ segs x _
             (parts_resourcePath base segs x segments segment_x)).
  unfold withEntry. cbn [store entries].
  rewrite (find_other segs (uuid 0) x entry _ children
             (getEntry_container_descend children m st container_entry) fresh).
  now rewrite has_child.
Qed.

End Adding.

End SlugCollision.


(** C2 as stated fails: where [c/] holds [c/x] and the body of the
    representation breaks while it is read, the call is rejected with
    the error of the stream. *)
Lemma addResource_broken_body :
  (exists child,
      InMemoryDataAccessor.getEntry testBase "http://test.com/c/x" containerWithChild
      = Ok child containerWithChild)
  /\ DataAccessorBasedStore.addResource (InMemoryDataAccessor.accessor testBase) testBase
       testParser UrlContainerManager.getContainer testUuid 0
       "http://test.com/c/"
       {| binary := true; data := brokenStream ["new"];
          metadata := metadata (withSlug "x" ["new"]) |}
       containerWithChild
     = Some (Throw (GenericError "error") containerWithChild).
Proof. split; [eexists|]; reflexivity. Qed.

(* ================================================================== *)
(** * The store: what it refuses before it writes                      *)
(* ================================================================== *)

Section StoreRefusals.
Import DataAccessorBasedStore.
Context {S R : Type}.
Variable accessor : DataAccessor S R.
Variable base : string.
Variable parseQuads : Readable -> Error + list Quad.
Variable getContainer : ResourceIdentifier -> Error + ResourceIdentifier.
Variable uuid : nat -> string.

Local Abbreviation addResource :=
  (DataAccessorBasedStore.addResource accessor base parseQuads getContainer uuid).
Local Abbreviation setRepresentation :=
  (DataAccessorBasedStore.setRepresentation accessor base parseQuads getContainer).
Local Abbreviation writeData :=
  (DataAccessorBasedStore.writeData accessor parseQuads getContainer).

(** X1. An identifier that does not start with the base of the store is
    "not found" for every operation, and the accessor is not called:
    the backend is left as it was. *)
Theorem store_rejects_foreign_identifier fuel id representation s :
  startsWith id base = false ->
  getRepresentation accessor base id s = Throw NotFoundHttpError s
  /\ addResource fuel id representation s = Some (Throw NotFoundHttpError s)
  /\ setRepresentation fuel id representation s = Some (Throw NotFoundHttpError s)
  /\ modifyResource accessor base id s = Throw NotFoundHttpError s
  /\ deleteResource accessor base id s = Throw NotFoundHttpError s.
Proof.
  intros Hforeign.
  unfold getRepresentation, DataAccessorBasedStore.addResource,
    DataAccessorBasedStore.setRepresentation, modifyResource, deleteResource,
    andThen, done, bind, validateIdentifier, throw.
  rewrite Hforeign. cbn [negb]. repeat split; reflexivity.
Qed.

Section SetRepresentation.
Variables (fuel : nat) (id : ResourceIdentifier) (representation : Representation).
Variables (s s1 s2 : S).
Hypothesis valid : startsWith id base = true.
Hypothesis handled : DataAccessor.canHandle representation s = Ok tt s1.

Lemma setRepresentation_found md :
  DataAccessor.getNormalizedMetadata id s1 = Ok md s2 ->
  Metadata.identifier md = id ->
  setRepresentation fuel id representation s
  = andThen
      (done
         ((existing <- liftE (isExistingContainer md) ;;
           if negb (Bool.eqb (isNewContainer (metadata representation) (Some id)) existing)
           then throw ConflictHttpError else ret tt) ;;;
          if negb (Bool.eqb (isNewContainer (metadata representation) (Some id))
                            (endsWith id "/"))
          then throw UnsupportedHttpError else ret tt))
      (fun _ => writeData fuel id representation
                  (isNewContainer (metadata representation) (Some id)) false)
      s2.
Proof.
  intros Hfound Hsame.
  unfold DataAccessorBasedStore.setRepresentation, validateIdentifier.
  rewrite valid. cbn [negb].
  unfold andThen at 1. unfold done at 1. unfold bind at 1. unfold ret at 1.
  unfold bind at 1. rewrite handled. unfold tryCatch, bind. rewrite Hfound, Hsame.
  rewrite String.eqb_refl. cbn [negb]. unfold ret at 1. reflexivity.
Qed.

Lemma setRepresentation_missing :
  DataAccessor.getNormalizedMetadata id s1 = Throw NotFoundHttpError s2 ->
  setRepresentation fuel id representation s
  = andThen
      (done
         (ret tt ;;;
          if negb (Bool.eqb (isNewContainer (metadata representation) (Some id))
                            (endsWith id "/"))
          then throw UnsupportedHttpError else ret tt))
      (fun _ => writeData fuel id representation
                  (isNewContainer (metadata representation) (Some id)) true)
      s2.
Proof.
  intros Hmissing.
  unfold DataAccessorBasedStore.setRepresentation, validateIdentifier.
  rewrite valid. cbn [negb].
  unfold andThen at 1. unfold done at 1. unfold bind at 1. unfold ret at 1.
  unfold bind at 1. rewrite handled. unfold tryCatch, bind. rewrite Hmissing.
  cbn [isNotFound negb]. unfold ret at 1. reflexivity.
Qed.

(** X2. When something is stored under the other spelling of the
    identifier (the metadata found carries a different identifier), or
    under the identifier itself but of the other kind,
    [setRepresentation] fails with "conflict" and writes nothing: the
    backend is as the look-up left it. *)
Theorem setRepresentation_conflict md :
  DataAccessor.getNormalizedMetadata id s1 = Ok md s2 ->
  Metadata.identifier md <> id
  \/ isExistingContainer md
     = inr (negb (isNewContainer (metadata representation) (Some id))) ->
  setRepresentation fuel id representation s = Some (Throw ConflictHttpError s2).
Proof.
  intros Hfound [Hother | Hkind].
  - unfold DataAccessorBasedStore.setRepresentation, validateIdentifier.
    rewrite valid. cbn [negb].
    unfold andThen, done, bind, tryCatch, ret. rewrite handled, Hfound.
    destruct (String.eqb_spec (Metadata.identifier md) id) as [Heq|_]; [contradiction|].
    reflexivity.
  - destruct (String.eqb_spec (Metadata.identifier md) id) as [Heq|Hne].
    + rewrite (setRepresentation_found md Hfound Heq).
      unfold andThen, done, bind, liftE. rewrite Hkind.
      now destruct (isNewContainer (metadata representation) (Some id)).
    + unfold DataAccessorBasedStore.setRepresentation, validateIdentifier.
      rewrite valid. cbn [negb].
      unfold andThen, done, bind, tryCatch, ret. rewrite handled, Hfound.
      destruct (String.eqb_spec (Metadata.identifier md) id) as [Heq|_]; [contradiction|].
      reflexivity.
Qed.

(** X3. When nothing is stored under the identifier and the kind of
    the representation does not fit its trailing slash (a container
    without one, or a typed data resource with one),
    [setRepresentation] fails with "unsupported" before any container
    is made. *)
Theorem setRepresentation_unsupported :
  DataAccessor.getNormalizedMetadata id s1 = Throw NotFoundHttpError s2 ->
  isNewContainer (metadata representation) (Some id) = negb (endsWith id "/") ->
  setRepresentation fuel id representation s = Some (Throw UnsupportedHttpError s2).
Proof.
  intros Hmissing Hkind. rewrite (setRepresentation_missing Hmissing), Hkind.
  unfold andThen, done, bind, ret. now destruct (endsWith id "/").
Qed.

End SetRepresentation.

(** X4. [writeData] checks the body of a container first: a body that
    does not parse is "unsupported", a body with a containment triple
    is a "conflict", and in both cases no parent container has been
    made and nothing has been written, whatever the recursion budget.
    A body that passes is added to the metadata, which loses its
    content type and gains the identifier and the container types, and
    that is what the accessor is given. *)
Theorem writeData_checks_container_body fuel id representation createContainers s :
  match parseQuads (data representation) with
  | inl _ =>
      writeData fuel id representation true createContainers s
      = Some (Throw UnsupportedHttpError s)
  | inr quads =>
      if existsb (fun quad => predicate quad =? LDP.contains) quads
      then writeData fuel id representation true createContainers s
           = Some (Throw ConflictHttpError s)
      else writeData fuel id representation true false s
           = Some (DataAccessor.writeContainer id
                     (Some (Metadata.addQuads
                              (MetadataController.generateResourceQuads id true)
                              (Metadata.setIdentifier id
                                 (Metadata.addQuads quads
                                    (Metadata.removeAll CONTENT_TYPE
                                       (metadata representation))))))
                     s)
  end.
Proof.
  unfold DataAccessorBasedStore.writeData, writeDataUsing, andThen, done,
    handleContainerData, bind, tryCatch, liftE.
  destruct (parseQuads (data representation)) as [e|quads]; [reflexivity|].
  destruct (existsb (fun quad => predicate quad =? LDP.contains) quads); [reflexivity|].
  unfold ret. cbn [metadata Metadata.identifier Metadata.setIdentifier].
  now destruct (DataAccessor.writeContainer _ _ s).
Qed.

Section AddResource.
Variables (fuel : nat) (container : ResourceIdentifier) (representation : Representation).
Variables (s s1 s2 : S).
Hypothesis valid : startsWith container base = true.
Hypothesis handled : DataAccessor.canHandle representation s = Ok tt s1.

(** X5. [addResource] on a target that is not stored and is not
    written with a trailing slash is "not found"; nothing is made. *)
Theorem addResource_missing_target :
  DataAccessor.getNormalizedMetadata container s1 = Throw NotFoundHttpError s2 ->
  endsWith container "/" = false ->
  addResource fuel container representation s = Some (Throw NotFoundHttpError s2).
Proof.
  intros Hmissing Hslash.
  unfold DataAccessorBasedStore.addResource, validateIdentifier.
  rewrite valid. cbn [negb].
  unfold andThen, done, bind, tryCatch, ret. rewrite handled, Hmissing, Hslash.
  reflexivity.
Qed.

(** X6. [addResource] on a target that is stored but is not a container
    is "method not allowed"; nothing is written. *)
Theorem addResource_not_a_container md :
  DataAccessor.getNormalizedMetadata container s1 = Ok md s2 ->
  isExistingContainer md = inr false ->
  addResource fuel container representation s = Some (Throw MethodNotAllowedHttpError s2).
Proof.
  intros Hfound Hkind.
  unfold DataAccessorBasedStore.addResource, validateIdentifier.
  rewrite valid. cbn [negb].
  unfold andThen, done, bind, tryCatch, ret, liftE. rewrite handled, Hfound.
  cbn [fst snd]. rewrite Hkind. reflexivity.
Qed.

End AddResource.
End StoreRefusals.

Lemma store_rejects_foreign_identifier_witness :
  DataAccessorBasedStore.getRepresentation (InMemoryDataAccessor.accessor testBase) testBase
    "http://other.com/x" emptyStore
  = Throw NotFoundHttpError emptyStore
  /\ DataAccessorBasedStore.addResource (InMemoryDataAccessor.accessor testBase) testBase
       testParser UrlContainerManager.getContainer testUuid 0
       "http://other.com/x" (plainText ["hello"]) emptyStore
     = Some (Throw NotFoundHttpError emptyStore)
  /\ DataAccessorBasedStore.setRepresentation (InMemoryDataAccessor.accessor testBase) testBase
       testParser UrlContainerManager.getContainer 0
       "http://other.com/x" (plainText ["hello"]) emptyStore
     = Some (Throw NotFoundHttpError emptyStore)
  /\ DataAccessorBasedStore.modifyResource (InMemoryDataAccessor.accessor testBase) testBase
       "http://other.com/x" emptyStore
     = Throw NotFoundHttpError emptyStore
  /\ DataAccessorBasedStore.deleteResource (InMemoryDataAccessor.accessor testBase) testBase
       "http://other.com/x" emptyStore
     = Throw NotFoundHttpError emptyStore.
Proof.
  apply (store_rejects_foreign_identifier (InMemoryDataAccessor.accessor testBase) testBase
           testParser UrlContainerManager.getContainer testUuid 0
           "http://other.com/x" (plainText ["hello"]) emptyStore).
  reflexivity.
Defined.

Lemma setRepresentation_conflict_witness :
  DataAccessorBasedStore.setRepresentation (InMemoryDataAccessor.accessor testBase) testBase
    testParser UrlContainerManager.getContainer 0
    "http://test.com/c" (plainText ["hello"]) containerWithChild
  = Some (Throw ConflictHttpError containerWithChild).
Proof.
  eapply (setRepresentation_conflict (InMemoryDataAccessor.accessor testBase) testBase
            testParser UrlContainerManager.getContainer 0
            "http://test.com/c" (plainText ["hello"])
            containerWithChild containerWithChild containerWithChild).
  - reflexivity.
  - reflexivity.
  - vm_compute. reflexivity.
  - left. discriminate.
Defined.

Lemma setRepresentation_unsupported_witness :
  DataAccessorBasedStore.setRepresentation (InMemoryDataAccessor.accessor testBase) testBase
    testParser UrlContainerManager.getContainer 0
    "http://test.com/a/b/c/resource" (containerTyped ["hello"]) emptyStore
  = Some (Throw UnsupportedHttpError emptyStore).
Proof.
  apply (setRepresentation_unsupported (InMemoryDataAccessor.accessor testBase) testBase
           testParser UrlContainerManager.getContainer 0
           "http://test.com/a/b/c/resource" (containerTyped ["hello"])
           emptyStore emptyStore emptyStore); reflexivity.
Defined.

Lemma addResource_missing_target_witness :
  DataAccessorBasedStore.addResource (InMemoryDataAccessor.accessor testBase) testBase
    testParser UrlContainerManager.getContainer testUuid 0
    "http://test.com/missing" (plainText ["hello"]) emptyStore
  = Some (Throw NotFoundHttpError emptyStore).
Proof.
  apply (addResource_missing_target (InMemoryDataAccessor.accessor testBase) testBase
           testParser UrlContainerManager.getContainer testUuid 0
           "http://test.com/missing" (plainText ["hello"])
           emptyStore emptyStore emptyStore); reflexivity.
Defined.

Lemma addResource_not_a_container_witness :
  DataAccessorBasedStore.addResource (InMemoryDataAccessor.accessor testBase) testBase
    testParser UrlContainerManager.getContainer testUuid 0
    "http://test.com/c/x" (plainText ["hello"]) containerWithChild
  = Some (Throw MethodNotAllowedHttpError containerWithChild).
Proof.
  eapply (addResource_not_a_container (InMemoryDataAccessor.accessor testBase) testBase
            testParser UrlContainerManager.getContainer testUuid 0
            "http://test.com/c/x" (plainText ["hello"])
            containerWithChild containerWithChild containerWithChild).
  - reflexivity.
  - reflexivity.
  - vm_compute. reflexivity.
  - reflexivity.
Defined.

(* ================================================================== *)
(** * [InMemoryDataAccessor]: edges of the cache                       *)
(* ================================================================== *)

Section MemoryEdges.
Import InMemoryDataAccessor.
Variable base : string.

Local Abbreviation piecesOf id := (parts (slice (String.length base) id)).

(** X7. The root is handed to writers and to [deleteResource] inside
    an object made on the spot, so writing or deleting at the base
    succeeds and leaves the cache as it was; a data write still drains
    its stream into a new one that nothing refers to. *)
Theorem root_is_never_replaced data metadata st :
  writeContainer base base metadata st = Ok tt st
  /\ deleteResource base base st = Ok tt st
  /\ writeDataResource base base data metadata st
     = match failure data with
       | Some e => Throw e st
       | None => Ok tt {| store := store st; streams := streams st ++ [chunks data] |}
       end
  /\ getEntry base base st = Ok (asEntry (store st)) st.
Proof.
  pose proof (MemoryFacts.getParentEntry_root base base st (pieces_of_base base)) as Hroot.
  unfold writeContainer, deleteResource, writeDataResource, getEntry, bind, arrayifyStream.
  rewrite Hroot. cbn [name parent Children.lookup String.eqb Ascii.eqb Bool.eqb].
  repeat split; try reflexivity.
  now destruct (failure data).
Qed.


Lemma copyData_pieces id id' d st :
  piecesOf id = piecesOf id' -> copyData base id d st = copyData base id' d st.
Proof.
  intros H. unfold copyData, bind. cbn.
  now rewrite (MemoryFacts.getParentEntry_pieces base id id' _ H).
Qed.

Lemma getData_pieces id id' st :
  piecesOf id = piecesOf id' -> getData base id st = getData base id' st.
Proof.
  intros H. unfold getData, bind. rewrite (MemoryFacts.getEntry_pieces base id id' st H).
  destruct (getEntry base id' st) as [[d|ch m] st'|e st']; try reflexivity.
  now apply copyData_pieces.
Qed.

Lemma writeDataResource_pieces id id' data metadata st :
  piecesOf id = piecesOf id' ->
  writeDataResource base id data metadata st = writeDataResource base id' data metadata st.
Proof.
  intros H. unfold writeDataResource, bind.
  now rewrite (MemoryFacts.getParentEntry_pieces base id id' st H).
Qed.

Lemma writeContainer_pieces id id' metadata st :
  piecesOf id = piecesOf id' ->
  writeContainer base id metadata st = writeContainer base id' metadata st.
Proof.
  intros H. unfold writeContainer, bind.
  now rewrite (MemoryFacts.getParentEntry_pieces base id id' st H).
Qed.

(** X9. Apart from [getMetadata], the accessor resolves an identifier
    by its non-empty pieces only: [getData] and the two writers do the
    same whether the identifier is given with a trailing slash or
    without, so a data entry can be read and written under [id/] and a
    container made under [id]. *)
Theorem in_memory_ignores_trailing_slash id data metadata st :
  getData base (ensureTrailingSlash id) st = getData base id st
  /\ getData base (trimTrailingSlashes id) st = getData base id st
  /\ writeDataResource base (ensureTrailingSlash id) data metadata st
     = writeDataResource base id data metadata st
  /\ writeDataResource base (trimTrailingSlashes id) data metadata st
     = writeDataResource base id data metadata st
  /\ writeContainer base (ensureTrailingSlash id) metadata st
     = writeContainer base id metadata st
  /\ writeContainer base (trimTrailingSlashes id) metadata st
     = writeContainer base id metadata st.
Proof.
  repeat split;
    first [ apply getData_pieces | apply writeDataResource_pieces | apply writeContainer_pieces ];
    first [ apply parts_slice_ensure | apply parts_slice_trim ].
Qed.


Lemma addQuads_nil md : Metadata.addQuads [] md = md.
Proof. destruct md as [i q]. unfold Metadata.addQuads. cbn. now rewrite app_nil_r. Qed.

(** X11. What a writer stores is what [getMetadata] returns: after a
    data write below the root, under the identifier without a trailing
    slash, the metadata given (or new metadata for the identifier when
    none was given); after [writeContainer], under the identifier with
    its slash, the metadata given and no containment edge beyond it,
    whatever was stored at the path before. *)
Theorem getMetadata_after_write id data metadata st st' :
  piecesOf id <> [] ->
  (endsWith id "/" = false ->
   writeDataResource base id data metadata st = Ok tt st' ->
   getMetadata base id st' = Ok (storedMetadata id metadata) st')
  /\ (endsWith id "/" = true ->
      writeContainer base id metadata st = Ok tt st' ->
      getMetadata base id st' = Ok (storedMetadata id metadata) st').
Proof.
  intros Hne.
  destruct (list_snoc_cases (piecesOf id)) as [Hp | (dir & n & Hp)]; [contradiction|].
  split; intros Hslash Hwrite.
  - unfold writeDataResource, bind, arrayifyStream in Hwrite.
    rewrite (MemoryFacts.getParentEntry_below base id dir n st Hp) in Hwrite.
    destruct (descend dir (entries (store st))) as [es| |] eqn:Hd; try discriminate.
    destruct (failure data); [discriminate|].
    cbn in Hwrite. injection Hwrite as <-.
    unfold getMetadata, bind.
    rewrite (MemoryFacts.getEntry_below base id dir n _ Hp). cbn [store entries].
    rewrite (find_assigned dir n _ _ es Hd). cbn [isDataEntry]. rewrite Hslash. reflexivity.
  - unfold writeContainer, bind in Hwrite.
    rewrite (MemoryFacts.getParentEntry_below base id dir n st Hp) in Hwrite.
    destruct (descend dir (entries (store st))) as [es| |] eqn:Hd; try discriminate.
    cbn in Hwrite. injection Hwrite as <-.
    unfold getMetadata, bind.
    rewrite (MemoryFacts.getEntry_below base id dir n _ Hp). cbn [store entries].
    rewrite (find_assigned dir n _ _ es Hd). cbn [isDataEntry]. rewrite Hslash.
    cbn [Bool.eqb generateMetadata map MetadataController.generateContainerContainsResourceQuads].
    unfold ret. f_equal. unfold storedMetadata. destruct metadata; apply addQuads_nil.
Qed.

End MemoryEdges.


(** X12. A new accessor holds the root container and nothing else: the
    base is found as an empty container, and every identifier below the
    base whose first piece is an ordinary name is "not found". *)
Theorem constructor_makes_root b id :
  let base := ensureTrailingSlash b in
  let st := InMemoryDataAccessor.constructor b in
  ordinary (hd "" (InMemoryDataAccessor.pieces base id)) = true ->
  (exists md,
      InMemoryDataAccessor.getMetadata base base st = Ok md st
      /\ Metadata.identifier md = base
      /\ DataAccessorBasedStore.isExistingContainer md = inr true
      /\ Metadata.getAll LDP.contains md = [])
  /\ match parts (slice (String.length base) id) with
     | [] => True
     | _ :: _ => InMemoryDataAccessor.getEntry base id st = Throw NotFoundHttpError st
     end.
Proof.
  intros base st _. split.
  - eexists. split; [|split; [|split]].
    + unfold InMemoryDataAccessor.getMetadata, bind.
      rewrite (MemoryFacts.getEntry_root base base st (pieces_of_base base)).
      cbn [InMemoryDataAccessor.isDataEntry InMemoryDataAccessor.asEntry Bool.eqb].
      replace (endsWith base "/") with true by (symmetry; apply endsWith_ensure). reflexivity.
    + reflexivity.
    + unfold DataAccessorBasedStore.isExistingContainer, st,
        InMemoryDataAccessor.constructor, InMemoryDataAccessor.asEntry.
      cbn [InMemoryDataAccessor.store InMemoryDataAccessor.entries
           InMemoryDataAccessor.containerMetadata].
      rewrite types_of_container. cbn [InMemoryDataAccessor.storedMetadata].
      rewrite getAll_addQuads.
      cbn [Metadata.getAll Metadata.new Metadata.quads Metadata.identifier filter map app
           MetadataController.generateResourceQuads MetadataController.typeQuad
           subject predicate object andb].
      rewrite String.eqb_refl. reflexivity.
    + unfold st, InMemoryDataAccessor.constructor, InMemoryDataAccessor.asEntry.
      cbn [InMemoryDataAccessor.store InMemoryDataAccessor.entries
           InMemoryDataAccessor.containerMetadata].
      rewrite contains_of_container. cbn [InMemoryDataAccessor.storedMetadata].
      rewrite getAll_addQuads.
      cbn [Metadata.getAll Metadata.new Metadata.quads Metadata.identifier filter map app
           MetadataController.generateResourceQuads MetadataController.typeQuad
           subject predicate object andb InMemoryDataAccessor.childNames].
      rewrite String.eqb_refl. reflexivity.
  - destruct (parts (slice (String.length base) id)) as [|n rest] eqn:Hp; [exact I|].
    now apply (getEntry_missing base id n rest st Hp).
Qed.

Lemma constructor_makes_root_witness :
  InMemoryDataAccessor.getEntry testBase "http://test.com/resource" emptyStore
  = Throw NotFoundHttpError emptyStore.
Proof.
  exact (proj2 (constructor_makes_root "http://test.com/" "http://test.com/resource" eq_refl)).
Defined.

(* ================================================================== *)
(** * The store: [getRepresentation]                                   *)
(* ================================================================== *)

Section MetadataSet.

Lemma getAll_removeAll p md : Metadata.getAll p (Metadata.removeAll p md) = [].
Proof.
  unfold Metadata.getAll, Metadata.removeAll, Metadata.about.
  cbn [Metadata.quads Metadata.identifier].
  induction (Metadata.quads md) as [|q qs IH]; [reflexivity|].
  cbn [filter].
  destruct ((subject q =? Metadata.identifier md) && (predicate q =? p)) eqn:E;
    cbn [negb]; [exact IH|].
  cbn [filter]. now rewrite E.
Qed.

(** [metadata.set(predicate, value)] leaves exactly that value. *)
Lemma getAll_set p value md : Metadata.getAll p (Metadata.set p value md) = [value].
Proof.
  unfold Metadata.set. rewrite getAll_addQuads, getAll_removeAll.
  cbn [filter subject predicate Metadata.removeAll Metadata.identifier app].
  now rewrite !String.eqb_refl.
Qed.

(** Another predicate is not touched by [set]. *)
Lemma getAll_set_other p p' value md :
  p' <> p -> Metadata.getAll p' (Metadata.set p value md) = Metadata.getAll p' md.
Proof.
  intros Hne. unfold Metadata.set. rewrite getAll_addQuads.
  cbn [filter subject predicate Metadata.removeAll Metadata.identifier].
  rewrite String.eqb_refl. cbn [andb].
  destruct (String.eqb_spec p p') as [Heq|_]; [now elim Hne|].
  cbn [map]. rewrite app_nil_r.
  unfold Metadata.getAll, Metadata.removeAll, Metadata.about.
  cbn [Metadata.quads Metadata.identifier].
  induction (Metadata.quads md) as [|q qs IH]; [reflexivity|].
  cbn [filter].
  destruct (subject q =? Metadata.identifier md) eqn:Es;
    destruct (predicate q =? p) eqn:Ep;
    destruct (predicate q =? p') eqn:Ep';
    cbn [andb negb filter map]; rewrite ?Es, ?Ep'; cbn [andb negb filter map];
    rewrite ?IH; try reflexivity.
  apply String.eqb_eq in Ep, Ep'. congruence.
Qed.

End MetadataSet.

Section GetRepresentation.
Import DataAccessorBasedStore.
Context {S R : Type}.
Variable accessor : DataAccessor S R.
Variable base : string.

(** X13. [getRepresentation] of a container does not ask the accessor
    for data: the result is not binary, its content type is
    [internal/quads] and nothing else, its identifier and its types are
    those the accessor gave, and its data are the quads of its own
    metadata, also of metadata added to the result afterwards. *)
Theorem getRepresentation_container id s s1 md :
  startsWith id base = true ->
  DataAccessor.getMetadata id s = Ok md s1 ->
  isExistingContainer md = inr true ->
  exists result,
    getRepresentation accessor base id s = Ok result s1
    /\ Retrieved.binary result = false
    /\ Metadata.getAll CONTENT_TYPE (Retrieved.metadata result) = [INTERNAL_QUADS]
    /\ Metadata.identifier (Retrieved.metadata result) = Metadata.identifier md
    /\ isExistingContainer (Retrieved.metadata result) = inr true
    /\ forall more,
         Retrieved.quads
           {| Retrieved.binary := Retrieved.binary result;
              Retrieved.data := Retrieved.data result;
              Retrieved.metadata := Metadata.addQuads more (Retrieved.metadata result) |}
         = Some (Metadata.quads (Retrieved.metadata result) ++ more).
Proof.
  intros Hvalid Hmd Hkind. eexists. split; [|split; [|split; [|split; [|split]]]].
  - unfold getRepresentation, validateIdentifier, bind, liftE.
    rewrite Hvalid. cbn [negb ret]. rewrite Hmd, Hkind. reflexivity.
  - reflexivity.
  - apply getAll_set.
  - reflexivity.
  - cbn [Retrieved.metadata]. unfold isExistingContainer, Metadata.setContentType in *.
    rewrite getAll_set_other by discriminate. exact Hkind.
  - intros more. reflexivity.
Qed.

(** X14. [getRepresentation] of anything else hands out the stream of
    the accessor and the metadata unchanged; it is binary unless the
    metadata says [internal/quads].  Metadata without any type makes
    it fail with the error of [isExistingContainer], before data is
    asked for. *)
Theorem getRepresentation_data id s s1 md :
  startsWith id base = true ->
  DataAccessor.getMetadata id s = Ok md s1 ->
  match Metadata.getAll RDF.type md with
  | [] => getRepresentation accessor base id s
          = Throw (GenericError "Unknown resource type.") s1
  | _ :: _ =>
      isExistingContainer md = inr false ->
      getRepresentation accessor base id s
      = match DataAccessor.getData id s1 with
        | Ok stream s2 =>
            Ok {| Retrieved.binary :=
                    negb (match Metadata.get CONTENT_TYPE md with
                          | Some contentType => contentType =? INTERNAL_QUADS
                          | None => false
                          end);
                  Retrieved.data := Retrieved.OfAccessor stream;
                  Retrieved.metadata := md |} s2
        | Throw e s2 => Throw e s2
        end
  end.
Proof.
  intros Hvalid Hmd.
  unfold getRepresentation, validateIdentifier, bind, liftE.
  rewrite Hvalid. cbn [negb ret]. rewrite Hmd.
  unfold isExistingContainer.
  destruct (Metadata.getAll RDF.type md) as [|type types]; [reflexivity|].
  intros H. assert (Hnone := f_equal (fun r => match r with inr b => b | inl _ => true end) H).
  cbn beta iota in Hnone. rewrite Hnone. reflexivity.
Qed.

End GetRepresentation.

(* ================================================================== *)
(** * The store over the in-memory accessor: writes that fail          *)
(* ================================================================== *)

Section BrokenBody.
Import InMemoryDataAccessor DataAccessorBasedStore.
Variable base : string.
Hypothesis base_normal : ensureTrailingSlash base = base.
Variable parseQuads : Readable -> Error + list Quad.
Hypothesis parse_empty : parseQuads (streamifyArray []) = inr [].
Variables a b c r : string.
Hypothesis segment_a : isSegment a = true.
Hypothesis segment_b : isSegment b = true.
Hypothesis segment_c : isSegment c = true.
Hypothesis segment_r : isSegment r = true.

Local Abbreviation getContainer := UrlContainerManager.getContainer.


End BrokenBody.

Section BelowDataResource.
Import InMemoryDataAccessor DataAccessorBasedStore.
Variable base : string.
Hypothesis base_normal : ensureTrailingSlash base = base.
Variable parseQuads : Readable -> Error + list Quad.
Variable segs : list string.
Variables x r : string.
Hypothesis segments : forallb isSegment segs = true.
Hypothesis segment_x : isSegment x = true.
Hypothesis segment_r : isSegment r = true.

Local Abbreviation getContainer := UrlContainerManager.getContainer.

Lemma find_leaf_descend {L C : Type} dir n (es : Entries L C) l :
  find (dir ++ [n]) es = Some (Leaf l) -> descend (dir ++ [n]) es = NotBranch.
Proof.
  rewrite find_snoc, descend_app.
  destruct (descend dir es) as [d| |]; try discriminate.
  cbn [descend]. now intros ->.
Qed.

(** X16. Nothing can be stored below a data resource: when [x] is a
    data resource, [setRepresentation] at [x/r] finds nothing there,
    asks for the container [x/] to be made, finds the data resource
    under that name and fails with "conflict"; the backend is as it
    was. *)
Theorem setRepresentation_below_data_resource fuel representation d st :
  find (segs ++ [x]) (entries (store st)) = Some (Leaf d) ->
  isExistingContainer (generateMetadata (containerPath base (segs ++ [x])) (Leaf d))
  = inr false ->
  isNewContainer (metadata representation) (Some (resourcePath base (segs ++ [x]) r)) = false ->
  setRepresentation (accessor base) base parseQuads getContainer (Datatypes.S fuel)
    (resourcePath base (segs ++ [x]) r) representation st
  = Some (Throw ConflictHttpError st).
Proof.
  intros Hleaf Htypes Hkind.
  assert (Hsegs : forallb isSegment (segs ++ [x]) = true).
  { rewrite forallb_app, segments. cbn. now rewrite segment_x. }
  assert (Hparts : parts (slice (String.length base) (resourcePath base (segs ++ [x]) r))
                   = (segs ++ [x]) ++ [r])
    by (apply parts_resourcePath; assumption).
  assert (Hnone : getEntry base (resourcePath base (segs ++ [x]) r) st
                  = Throw NotFoundHttpError st).
  { rewrite (MemoryFacts.getEntry_below base _ (segs ++ [x]) r st Hparts), find_snoc.
    now rewrite (find_leaf_descend segs x _ d Hleaf). }
  assert (Hfound : getEntry base (containerPath base (segs ++ [x])) st = Ok (Leaf d) st).
  { rewrite (MemoryFacts.getEntry_below base _ segs x st (parts_containerPath base _ Hsegs)).
    now rewrite Hleaf. }
  unfold setRepresentation, validateIdentifier.
  rewrite startsWith_resourcePath. cbn [negb].
  unfold andThen at 1. unfold done at 1.
  cbn [DataAccessor.canHandle DataAccessor.getNormalizedMetadata accessor].
  unfold canHandle, getNormalizedMetadata, tryCatch, bind, ret.
  rewrite Hnone. cbn [isNotFound negb]. rewrite Hkind.
  unfold andThen at 1. unfold done at 1.
  rewrite (endsWith_resourcePath base _ r segment_r). cbn [Bool.eqb negb].
  unfold writeData, writeDataUsing.
  unfold andThen at 1. unfold done at 1.
  unfold andThen at 1. unfold andThen at 1. unfold done at 1. unfold liftE at 1.
  rewrite (getContainer_resourcePath base base_normal (segs ++ [x]) r segment_r).
  cbn [createRecursiveContainers]. unfold rescue, done, bind, liftE.
  cbn [DataAccessor.getNormalizedMetadata accessor].
  unfold ret at 1. unfold getNormalizedMetadata, bind. rewrite Hfound. unfold ret at 1.
  rewrite Htypes. reflexivity.
Qed.

End BelowDataResource.

(* ================================================================== *)
(** * The store over the in-memory accessor: a free name               *)
(* ================================================================== *)

Section FreeSlug.
Import InMemoryDataAccessor DataAccessorBasedStore.
Variable base : string.
Hypothesis base_normal : ensureTrailingSlash base = base.
Variable parseQuads : Readable -> Error + list Quad.
Variable uuid : nat -> string.
Variable segs : list string.
Variable x : string.
Hypothesis segments : forallb isSegment segs = true.
Hypothesis segment_x : isSegment x = true.

Local Abbreviation getContainer := UrlContainerManager.getContainer.
Local Abbreviation container := (containerPath base segs).
Local Abbreviation addResource :=
  (DataAccessorBasedStore.addResource (accessor base) base parseQuads getContainer uuid).

Lemma trim_segment_suffix (k : string) (slash : bool) :
  isSegment k = true -> trimTrailingSlashes (k +:+ (if slash then "/" else "")) = k.
Proof.
  intros Hk. destruct slash; rewrite ?trim_snoc_slash, ?append_nil_r;
    apply trim_no_slash, endsWith_slashFree, isSegment_slashFree, Hk.
Qed.

(** Two segments that agree up to a trailing slash are the same. *)
Lemma segment_suffix_inj (k : string) (s t : bool) :
  isSegment k = true ->
  k +:+ (if s then "/" else "") = x +:+ (if t then "/" else "") -> k = x.
Proof.
  intros Hk H. apply (f_equal trimTrailingSlashes) in H.
  now rewrite (trim_segment_suffix k s Hk), (trim_segment_suffix x t segment_x) in H.
Qed.

Lemma childNames_free children :
  forallb (fun kv : string * CacheEntry => isSegment (fst kv)) children = true ->
  Children.lookup x children = None ->
  existsb (fun term => (term =? container +:+ x +:+ "/") || (term =? container +:+ x))
          (childNames container children)
  = false.
Proof.
  induction children as [|[k v] children IH]; [reflexivity|].
  cbn [forallb Children.lookup childNames map existsb fst snd].
  intros Hkeys Hfree. apply andb_prop in Hkeys as [Hk Hkeys].
  destruct (String.eqb_spec k x) as [Heq|Hne]; [discriminate|].
  fold (childNames container children). rewrite (IH Hkeys Hfree), orb_false_r.
  apply orb_false_iff. split; apply String.eqb_neq; intros H; apply append_inv_head in H.
  - apply Hne. apply (segment_suffix_inj k (negb (isDataEntry v)) true Hk).
    now destruct (isDataEntry v).
  - apply Hne. apply (segment_suffix_inj k (negb (isDataEntry v)) false Hk).
    rewrite append_nil_r. now destruct (isDataEntry v).
Qed.

Section Adding.
Variables (children : list (string * CacheEntry)) (m : option RepresentationMetadata).
Variables (representation : Representation) (st : State).
Hypothesis container_entry : getEntry base container st = Ok (Branch children m) st.
Hypothesis container_kind :
  isExistingContainer (generateMetadata container (Branch children m)) = inr true.
Hypothesis own_edges : Metadata.getAll LDP.contains (storedMetadata container m) = [].
Hypothesis keys : forallb (fun kv : string * CacheEntry => isSegment (fst kv)) children = true.
Hypothesis free : Children.lookup x children = None.
Hypothesis suggested : Metadata.get HTTP.slug (metadata representation) = Some x.

Local Abbreviation stripped :=
  {| binary := binary representation;
     data := data representation;
     metadata := Metadata.removeAll HTTP.slug (metadata representation) |}.

Lemma container_children_reached : descend segs (entries (store st)) = Reached children.
Proof.
  pose proof (parts_containerPath base segs segments) as Hparts.
  pose proof container_entry as Hentry.
  destruct (list_snoc_cases segs) as [Hnil|(dir & n & Hsnoc)].
  - rewrite Hnil in *. rewrite (MemoryFacts.getEntry_root base _ st Hparts) in Hentry.
    unfold asEntry in Hentry. now injection Hentry as <- _.
  - rewrite Hsnoc in *. rewrite (MemoryFacts.getEntry_below base _ dir n st Hparts) in Hentry.
    destruct (find (dir ++ [n]) (entries (store st))) as [entry|] eqn:Hfind; [|discriminate].
    injection Hentry as ->. now apply find_branch_descend in Hfind.
Qed.

(** [addResource] up to the write: the suggested name is kept. *)
Lemma addResource_keeps_slug fuel :
  addResource fuel container representation st
  = andThen
      (writeData (accessor base) parseQuads getContainer fuel
         (container +:+ x
          +:+ (if isNewContainer (metadata representation) None then "/" else ""))
         stripped (isNewContainer (metadata representation) None) false)
      (fun _ => done (ret (container +:+ x
                           +:+ (if isNewContainer (metadata representation) None
                                then "/" else ""))))
      st.
Proof.
  assert (Hcandidate : forall isContainer : bool,
    ensureTrailingSlash (container +:+ x +:+ (if isContainer then "/" else ""))
    = container +:+ x +:+ "/"
    /\ trimTrailingSlashes (container +:+ x +:+ (if isContainer then "/" else ""))
       = container +:+ x).
  { intros isContainer.
    pose proof (ensure_resourcePath base segs x segment_x) as He.
    pose proof (trim_resourcePath base segs x segment_x) as Ht.
    rewrite containerPath_snoc, resourcePath_containerPath in He.
    rewrite resourcePath_containerPath in Ht.
    destruct isContainer.
    - rewrite <- append_assoc. now rewrite ensure_snoc_slash, trim_snoc_slash, append_assoc in *.
    - rewrite append_nil_r. split; [|exact Ht]. now rewrite He, append_assoc. }
  unfold DataAccessorBasedStore.addResource, validateIdentifier.
  rewrite startsWith_containerPath. cbn [negb].
  unfold andThen at 1. unfold done at 1.
  cbn [DataAccessor.canHandle DataAccessor.getNormalizedMetadata accessor].
  unfold canHandle at 1. unfold bind at 1. unfold ret at 1. unfold bind at 1. unfold ret at 1.
  rewrite suggested. rewrite (isSegment_nonEmpty x segment_x).
  unfold createURI. rewrite (ensure_containerPath base base_normal segs segments).
  rewrite (isSegment_nonEmpty x segment_x).
  rewrite (trim_no_slash x (endsWith_slashFree x (isSegment_slashFree x segment_x))).
  unfold andThen at 1. unfold done at 1. unfold tryCatch at 1. unfold bind at 1.
  unfold getNormalizedMetadata at 1. unfold bind at 1. rewrite container_entry.
  unfold ret at 1.
  destruct (Hcandidate (isNewContainer (metadata representation) None)) as [-> ->].
  rewrite contains_of_container, own_edges. cbn [app].
  rewrite (childNames_free children keys free).
  unfold ret at 1. cbn [fst snd].
  unfold andThen at 1. unfold done at 1. unfold liftE.
  rewrite container_kind. cbn [negb]. unfold ret at 1.
  reflexivity.
Qed.

(** X17. When the name the client suggests is free in the container,
    and the names of the identifier are ordinary ones, [addResource]
    uses it: the new identifier is the
    container followed by the name, a data resource with the body is
    stored under it, and every child the container had is still there
    with the body it had: the same stream for a data entry, the same
    names and bodies below a container. *)
Theorem addResource_uses_free_slug fuel :
  forallb ordinary (segs ++ [x]) = true ->
  isNewContainer (metadata representation) None = false ->
  failure (data representation) = None ->
  exists st',
    addResource fuel container representation st
    = Some (Ok (resourcePath base segs x) st')
    /\ getEntry base (resourcePath base segs x) st'
       = Ok (Leaf {| entryData := List.length (streams st);
                     entryMetadata :=
                       Some (resourceMetadata (resourcePath base segs x) stripped) |}) st'
    /\ buffered (List.length (streams st)) st' = chunks (data representation)
    /\ (forall r, r < List.length (streams st) -> buffered r st' = buffered r st)
    /\ (forall k child,
          Children.lookup k children = Some child ->
          exists child',
            find (segs ++ [k]) (entries (store st')) = Some child'
            /\ body child' = body child).
Proof.
  intros _ Hkind Hdata.
  assert (Hid : container +:+ x +:+ "" = resourcePath base segs x)
    by now rewrite append_nil_r, resourcePath_containerPath.
  assert (Hparts : parts (slice (String.length base) (resourcePath base segs x)) = segs ++ [x])
    by now apply parts_resourcePath.
  eexists. split; [|split; [|split; [|split]]].
  - rewrite addResource_keeps_slug, Hkind.
    unfold writeData, writeDataUsing.
    unfold andThen at 1. unfold andThen at 1. unfold done at 1. unfold ret at 1.
    unfold andThen at 1. unfold done at 1. unfold ret at 1. unfold done at 1.
    cbn [DataAccessor.writeDataResource accessor data metadata].
    rewrite Hid.
    rewrite (writeDataResource_below base _ segs x children _ _ st Hparts container_children_reached Hdata).
    unfold done, ret. reflexivity.
  - rewrite (MemoryFacts.getEntry_below base _ segs x _ Hparts).
    unfold withEntry. cbn [store entries].
    now rewrite (find_assigned segs x _ _ children container_children_reached).
  - unfold buffered, withEntry. cbn [streams].
    rewrite app_nth2 by lia. now rewrite Nat.sub_diag.
  - intros r Hr. unfold buffered, withEntry. cbn [streams]. now apply app_nth1.
  - intros k child Hchild. exists child. split; [|reflexivity].
    unfold withEntry. cbn [store entries].
    rewrite (find_other segs x k _ _ children container_children_reached).
    + exact Hchild.
    + intros <-. rewrite free in Hchild. discriminate.
Qed.

End Adding.
End FreeSlug.

(* ================================================================== *)
(** * The store over the in-memory accessor: written, then read        *)
(* ================================================================== *)

Section MetadataIdentifier.

Lemma renamed_quads (i id p : string) (qs : list Quad) :
  (forall q, In q qs -> subject q = i) ->
  map object
    (filter (fun q => (subject q =? id) && (predicate q =? p))
       (map (fun q => if subject q =? i
                      then {| subject := id; predicate := predicate q; object := object q |}
                      else q) qs))
  = map object (filter (fun q => (subject q =? i) && (predicate q =? p)) qs).
Proof.
  induction qs as [|q qs IH]; intros Hown; [reflexivity|].
  cbn [map filter].
  pose proof (Hown q (or_introl eq_refl)) as Hq. apply String.eqb_eq in Hq. rewrite Hq.
  cbn [subject predicate object]. rewrite String.eqb_refl. cbn [andb].
  destruct (predicate q =? p); cbn [map object]; rewrite IH; try reflexivity;
    intros q' Hq'; apply Hown; now right.
Qed.

(** Metadata whose quads are all about its own identifier keeps what
    it says when the identifier is changed. *)
Lemma getAll_setIdentifier p id md :
  (forall q, In q (Metadata.quads md) -> subject q = Metadata.identifier md) ->
  Metadata.getAll p (Metadata.setIdentifier id md) = Metadata.getAll p md.
Proof.
  intros Hown. unfold Metadata.getAll, Metadata.setIdentifier, Metadata.about.
  cbn [Metadata.quads Metadata.identifier]. now apply renamed_quads.
Qed.

End MetadataIdentifier.

Section WrittenThenRead.
Import InMemoryDataAccessor DataAccessorBasedStore.
Variable base : string.
Hypothesis base_normal : ensureTrailingSlash base = base.
Variable parseQuads : Readable -> Error + list Quad.
Variable segs : list string.
Variable r : string.
Hypothesis segments : forallb isSegment segs = true.
Hypothesis segment_r : isSegment r = true.

Local Abbreviation getContainer := UrlContainerManager.getContainer.
Local Abbreviation container := (containerPath base segs).
Local Abbreviation id := (resourcePath base segs r).

Variables (children : list (string * CacheEntry)) (m : option RepresentationMetadata).
Variables (representation : Representation) (st : State).
Hypothesis container_entry : getEntry base container st = Ok (Branch children m) st.
Hypothesis container_kind :
  isExistingContainer (generateMetadata container (Branch children m)) = inr true.
Hypothesis own :
  forall q, In q (Metadata.quads (metadata representation)) ->
            subject q = Metadata.identifier (metadata representation).
Hypothesis kind : isNewContainer (metadata representation) (Some id) = false.
Hypothesis readable : failure (data representation) = None.

Local Abbreviation written :=
  (withEntry segs r
     (Leaf {| entryData := List.length (streams st);
              entryMetadata := Some (resourceMetadata id representation) |})
     {| store := store st; streams := streams st ++ [chunks (data representation)] |}).

Lemma parent_reached : descend segs (entries (store st)) = Reached children.
Proof.
  clear container_kind.
  pose proof (parts_containerPath base segs segments) as Hparts.
  pose proof container_entry as Hentry.
  destruct (list_snoc_cases segs) as [Hnil|(dir & n & Hsnoc)].
  - rewrite Hnil in *. rewrite (MemoryFacts.getEntry_root base _ st Hparts) in Hentry.
    unfold asEntry in Hentry. now injection Hentry as <- _.
  - rewrite Hsnoc in *. rewrite (MemoryFacts.getEntry_below base _ dir n st Hparts) in Hentry.
    destruct (find (dir ++ [n]) (entries (store st))) as [entry|] eqn:Hfind; [|discriminate].
    injection Hentry as ->. now apply find_branch_descend in Hfind.
Qed.

Lemma pieces_of_id : parts (slice (String.length base) id) = segs ++ [r].
Proof. now apply parts_resourcePath. Qed.

Lemma setRepresentation_new fuel :
  Children.lookup r children = None ->
  setRepresentation (accessor base) base parseQuads getContainer (Datatypes.S fuel)
    id representation st
  = Some (Ok tt written).
Proof.
  intros new.
  assert (Hnone : getEntry base id st = Throw NotFoundHttpError st).
  { rewrite (MemoryFacts.getEntry_below base _ segs r st pieces_of_id), find_snoc.
    now rewrite parent_reached, new. }
  unfold setRepresentation, validateIdentifier.
  rewrite startsWith_resourcePath. cbn [negb].
  unfold andThen at 1. unfold done at 1.
  cbn [DataAccessor.canHandle DataAccessor.getNormalizedMetadata accessor].
  unfold canHandle, getNormalizedMetadata, tryCatch, bind, ret.
  rewrite Hnone. cbn [isNotFound negb]. rewrite kind.
  unfold andThen at 1. unfold done at 1.
  rewrite (endsWith_resourcePath base _ r segment_r). cbn [Bool.eqb negb].
  unfold writeData, writeDataUsing.
  unfold andThen at 1. unfold done at 1.
  unfold andThen at 1. unfold andThen at 1. unfold done at 1. unfold liftE at 1.
  rewrite (getContainer_resourcePath base base_normal segs r segment_r).
  unfold ret at 1.
  rewrite (createRecursiveContainers_found (accessor base) parseQuads fuel container st
             (generateMetadata container (Branch children m)) st).
  - unfold done. cbn [DataAccessor.writeDataResource accessor].
    rewrite (writeDataResource_below base _ segs r children _ _ st
               pieces_of_id parent_reached readable).
    reflexivity.
  - cbn [DataAccessor.getNormalizedMetadata accessor].
    unfold getNormalizedMetadata, bind. now rewrite container_entry.
  - exact container_kind.
Qed.

Lemma types_written :
  Metadata.getAll RDF.type (resourceMetadata id representation)
  = Metadata.getAll RDF.type (metadata representation) ++ [LDP.Resource].
Proof.
  unfold resourceMetadata. rewrite getAll_addQuads, (getAll_setIdentifier _ _ _ own).
  cbn [MetadataController.generateResourceQuads MetadataController.typeQuad filter
       subject predicate Metadata.setIdentifier Metadata.identifier].
  rewrite String.eqb_refl. reflexivity.
Qed.

Lemma written_is_data : isExistingContainer (resourceMetadata id representation) = inr false.
Proof.
  pose proof kind as Hkind.
  unfold isExistingContainer. rewrite types_written.
  unfold isNewContainer, isExistingContainer in Hkind.
  destruct (Metadata.getAll RDF.type (metadata representation)) as [|type types];
    [reflexivity|].
  rewrite existsb_app, Hkind. reflexivity.
Qed.

Lemma contentType_written :
  Metadata.get CONTENT_TYPE (resourceMetadata id representation)
  = Metadata.get CONTENT_TYPE (metadata representation).
Proof.
  unfold Metadata.get, resourceMetadata.
  rewrite getAll_addQuads, (getAll_setIdentifier _ _ _ own).
  cbn [MetadataController.generateResourceQuads MetadataController.typeQuad filter
       subject predicate Metadata.setIdentifier Metadata.identifier].
  rewrite String.eqb_refl. cbn. now rewrite app_nil_r.
Qed.

(** Reading back what was written. *)
Lemma getRepresentation_written :
  exists result st2 out,
    getRepresentation (accessor base) base id written = Ok result st2
    /\ Retrieved.metadata result = resourceMetadata id representation
    /\ Metadata.identifier (Retrieved.metadata result) = id
    /\ Metadata.getAll RDF.type (Retrieved.metadata result)
       = Metadata.getAll RDF.type (metadata representation) ++ [LDP.Resource]
    /\ Retrieved.binary result
       = negb (match Metadata.get CONTENT_TYPE (metadata representation) with
               | Some contentType => contentType =? INTERNAL_QUADS
               | None => false
               end)
    /\ Retrieved.data result = Retrieved.OfAccessor out
    /\ fst (readAll out st2) = chunks (data representation).
Proof.
  clear container_kind.
  pose (d := {| entryData := List.length (streams st);
                entryMetadata := Some (resourceMetadata id representation) |}).
  assert (Hd : descend segs (entries (store written))
               = Reached (Children.assign r (Leaf d) children)).
  { unfold withEntry. cbn [store entries]. apply descend_modify, parent_reached. }
  assert (Hmd : getMetadata base id written
                = Ok (resourceMetadata id representation) written).
  { unfold getMetadata, bind.
    rewrite (MemoryFacts.getEntry_below base _ segs r _ pieces_of_id).
    unfold withEntry at 1. cbn [store entries].
    rewrite (find_assigned segs r _ _ children parent_reached).
    cbn [isDataEntry]. rewrite (endsWith_resourcePath base _ r segment_r). reflexivity. }
  eexists _, _, _.
  split.
  { unfold getRepresentation, validateIdentifier, bind, liftE.
    rewrite startsWith_resourcePath. cbn [negb ret].
    cbn [DataAccessor.getMetadata DataAccessor.getData accessor].
    rewrite Hmd, written_is_data.
    rewrite (getData_copy base id segs r _ d written pieces_of_id Hd (lookup_assign_eq _ _ _)).
    reflexivity. }
  cbn [Retrieved.metadata Retrieved.binary Retrieved.data].
  split; [reflexivity|]. split; [reflexivity|]. split; [apply types_written|].
  split; [now rewrite contentType_written|]. split; [reflexivity|].
  unfold readAll. cbn [fst]. rewrite afterCopy_output.
  - unfold buffered, withEntry. cbn [streams entryData d].
    rewrite app_nth2 by lia. now rewrite Nat.sub_diag.
  - unfold withEntry. cbn [streams entryData d]. rewrite length_app. cbn. lia.
Qed.

(** [setRepresentation] over a data resource that is there. *)
Lemma setRepresentation_existing fuel old :
  Children.lookup r children = Some (Leaf old) ->
  Metadata.identifier (storedMetadata id (entryMetadata old)) = id ->
  isExistingContainer (storedMetadata id (entryMetadata old)) = inr false ->
  setRepresentation (accessor base) base parseQuads getContainer fuel id representation st
  = Some (Ok tt written).
Proof.
  clear container_kind.
  intros Hold Hsame Hdata.
  assert (Hfound : getEntry base id st = Ok (Leaf old) st).
  { rewrite (MemoryFacts.getEntry_below base _ segs r st pieces_of_id), find_snoc.
    now rewrite parent_reached, Hold. }
  unfold setRepresentation, validateIdentifier.
  rewrite startsWith_resourcePath. cbn [negb].
  unfold andThen at 1. unfold done at 1.
  cbn [DataAccessor.canHandle DataAccessor.getNormalizedMetadata accessor].
  unfold canHandle, getNormalizedMetadata, tryCatch, bind, ret.
  rewrite Hfound.
  change (generateMetadata id (Leaf old)) with (storedMetadata id (entryMetadata old)).
  rewrite Hsame, String.eqb_refl. cbn [negb]. rewrite kind.
  unfold andThen at 1. unfold done at 1. unfold liftE. rewrite Hdata.
  rewrite (endsWith_resourcePath base _ r segment_r). cbn [Bool.eqb negb].
  unfold writeData, writeDataUsing.
  unfold andThen at 1. unfold done at 1.
  unfold andThen at 1. unfold done at 1.
  unfold done, ret. cbn [DataAccessor.writeDataResource accessor].
  rewrite (writeDataResource_below base _ segs r children _ _ st
             pieces_of_id parent_reached readable).
  reflexivity.
Qed.


(** X29. [setRepresentation] over a data resource that is stored under
    the same identifier replaces it, with any recursion budget: no
    container is looked for, the entry gets the new metadata and a
    stream of the new body, and [getRepresentation] returns those; the
    stream of the old body is still held by the backend. *)
Theorem setRepresentation_replaces fuel old :
  Children.lookup r children = Some (Leaf old) ->
  Metadata.identifier (storedMetadata id (entryMetadata old)) = id ->
  isExistingContainer (storedMetadata id (entryMetadata old)) = inr false ->
  exists st1 result st2 out,
    setRepresentation (accessor base) base parseQuads getContainer fuel id representation st
    = Some (Ok tt st1)
    /\ getRepresentation (accessor base) base id st1 = Ok result st2
    /\ Retrieved.metadata result = resourceMetadata id representation
    /\ Retrieved.data result = Retrieved.OfAccessor out
    /\ fst (readAll out st2) = chunks (data representation)
    /\ (forall cell, cell < List.length (streams st) -> buffered cell st1 = buffered cell st).
Proof.
  clear container_kind.
  intros Hold Hsame Hdata.
  destruct getRepresentation_written
    as (result & st2 & out & Hget & Hmd & _ & _ & _ & Hout & Hbody).
  exists written, result, st2, out.
  split; [now apply (setRepresentation_existing fuel old)|].
  split; [exact Hget|]. split; [exact Hmd|]. split; [exact Hout|]. split; [exact Hbody|].
  intros cell Hcell. unfold buffered, withEntry. cbn [streams]. now apply app_nth1.
Qed.

End WrittenThenRead.

(* ================================================================== *)
(** * The properties above, at the scenarios                           *)
(* ================================================================== *)


Lemma getMetadata_after_write_witness :
  InMemoryDataAccessor.getMetadata testBase "http://test.com/resource" withResource
  = Ok (Metadata.new "http://test.com/resource") withResource
  /\ InMemoryDataAccessor.getMetadata testBase "http://test.com/container/" withContainer
     = Ok (Metadata.new "http://test.com/container/") withContainer.
Proof.
  split.
  - apply (proj1 (getMetadata_after_write testBase "http://test.com/resource"
                    (streamifyArray ["data"]) None emptyStore withResource
                    ltac:(discriminate)));
      reflexivity.
  - apply (proj2 (getMetadata_after_write testBase "http://test.com/container/"
                    (streamifyArray []) None emptyStore withContainer
                    ltac:(discriminate)));
      reflexivity.
Defined.

Lemma getRepresentation_container_witness :
  exists result,
    DataAccessorBasedStore.getRepresentation (InMemoryDataAccessor.accessor testBase) testBase
      "http://test.com/c/" containerWithChild
    = Ok result containerWithChild
    /\ Retrieved.binary result = false
    /\ Metadata.getAll CONTENT_TYPE (Retrieved.metadata result) = [INTERNAL_QUADS]
    /\ Metadata.getAll LDP.contains (Retrieved.metadata result) = ["http://test.com/c/x"].
Proof.
  epose proof (getRepresentation_container (InMemoryDataAccessor.accessor testBase) testBase
                 "http://test.com/c/" containerWithChild containerWithChild _) as H.
  edestruct H as (result & Hget & Hbinary & Htype & _); clear H.
  - reflexivity.
  - vm_compute. reflexivity.
  - reflexivity.
  - exists result. split; [exact Hget|]. split; [exact Hbinary|]. split; [exact Htype|].
    vm_compute in Hget. injection Hget as <-. reflexivity.
Defined.

Lemma getRepresentation_data_witness :
  DataAccessorBasedStore.getRepresentation (InMemoryDataAccessor.accessor testBase) testBase
    "http://test.com/resource" withResource
  = Throw (GenericError "Unknown resource type.") withResource.
Proof.
  exact (getRepresentation_data (InMemoryDataAccessor.accessor testBase) testBase
           "http://test.com/resource" withResource withResource
           (Metadata.new "http://test.com/resource") eq_refl eq_refl).
Defined.


Lemma setRepresentation_below_data_resource_witness :
  DataAccessorBasedStore.setRepresentation (InMemoryDataAccessor.accessor testBase) testBase
    testParser UrlContainerManager.getContainer 1
    "http://test.com/c/x/y" (plainText ["new"]) containerWithChild
  = Some (Throw ConflictHttpError containerWithChild).
Proof.
  eapply (setRepresentation_below_data_resource testBase eq_refl testParser ["c"] "x" "y"
            eq_refl eq_refl eq_refl 0 (plainText ["new"]) _ containerWithChild).
  - vm_compute. reflexivity.
  - reflexivity.
  - reflexivity.
Defined.

Lemma addResource_uses_free_slug_witness :
  exists st',
    DataAccessorBasedStore.addResource (InMemoryDataAccessor.accessor testBase) testBase
      testParser UrlContainerManager.getContainer testUuid 0
      "http://test.com/c/" (withSlug "z" ["new"]) containerWithChild
    = Some (Ok "http://test.com/c/z" st')
    /\ InMemoryDataAccessor.buffered 1 st' = ["new"]
    /\ InMemoryDataAccessor.buffered 0 st' = ["hello"].
Proof.
  epose proof (addResource_uses_free_slug testBase eq_refl testParser testUuid ["c"] "z"
                 eq_refl eq_refl _ _ (withSlug "z" ["new"]) containerWithChild) as H.
  edestruct H as (st' & Hadd & _ & Hbody & Hold & _); clear H.
  - vm_compute. reflexivity.
  - reflexivity.
  - reflexivity.
  - reflexivity.
  - reflexivity.
  - reflexivity.
  - reflexivity.
  - reflexivity.
  - reflexivity.
  - exists st'. split; [exact Hadd|]. split; [exact Hbody|].
    exact (Hold 0 (Nat.lt_0_1)).
Defined.


Lemma setRepresentation_replaces_witness :
  exists st1 result st2 out,
    DataAccessorBasedStore.setRepresentation (InMemoryDataAccessor.accessor testBase) testBase
      testParser UrlContainerManager.getContainer 0
      "http://test.com/c/x" (plainText ["new"]) containerWithChild
    = Some (Ok tt st1)
    /\ DataAccessorBasedStore.getRepresentation (InMemoryDataAccessor.accessor testBase)
         testBase "http://test.com/c/x" st1
       = Ok result st2
    /\ Retrieved.data result = Retrieved.OfAccessor out
    /\ fst (InMemoryDataAccessor.readAll out st2) = ["new"]
    /\ InMemoryDataAccessor.buffered 0 st1 = ["hello"].
Proof.
  epose proof (setRepresentation_replaces testBase testParser ["c"] "x"
                 eq_refl eq_refl _ _ (plainText ["new"]) containerWithChild) as H.
  edestruct H as (st1 & result & st2 & out & Hset & Hget & _ & Hdata & Hbody & Hkept); clear H.
  - vm_compute. reflexivity.
  - intros q [].
  - reflexivity.
  - reflexivity.
  - reflexivity.
  - reflexivity.
  - reflexivity.
  - exists st1, result, st2, out.
    split; [exact Hset|]. split; [exact Hget|]. split; [exact Hdata|]. split; [exact Hbody|].
    exact (Hkept 0 Nat.lt_0_1).
Defined.

(* ================================================================== *)
(** * [FileDataAccessor]: reading                                      *)
(* ================================================================== *)

Section ReadOnly.
Context {S : Type}.

Lemma readOnly_ret {A} (a : A) : readOnly (ret (S := S) a).
Proof. intros s. reflexivity. Qed.

Lemma readOnly_throw {A} (e : Error) : readOnly (throw (S := S) (A := A) e).
Proof. intros s. reflexivity. Qed.

Lemma readOnly_liftE {A} (r : Error + A) : readOnly (liftE (S := S) r).
Proof. intros s. now destruct r. Qed.

Lemma readOnly_bind {A B} (m : Async S A) (k : A -> Async S B) :
  readOnly m -> (forall a, readOnly (k a)) -> readOnly (bind m k).
Proof.
  intros Hm Hk s. unfold bind. specialize (Hm s).
  destruct (m s) as [a s'|e s']; cbn in Hm; subst s'; [apply Hk | reflexivity].
Qed.

Lemma readOnly_tryCatch {A} (m : Async S A) (handler : Error -> Async S A) :
  readOnly m -> (forall e, readOnly (handler e)) -> readOnly (tryCatch m handler).
Proof.
  intros Hm Hh s. unfold tryCatch. specialize (Hm s).
  destruct (m s) as [a s'|e s']; cbn in Hm; subst s'; [reflexivity | apply Hh].
Qed.

Lemma readOnly_if {A} (b : bool) (m m' : Async S A) :
  readOnly m -> readOnly m' -> readOnly (if b then m else m').
Proof. now destruct b. Qed.

End ReadOnly.

Section FileReads.
Variable mapUrlToFilePath : ResourceIdentifier -> Error + string.
Variable mapFilePathToUrl : string -> string.
Variable getContentTypeFromExtension : string -> string.
Variable parseQuads : Readable -> Error + list Quad.
Variable toISOString : nat -> string.
Variable numberToString : nat -> string.

Local Abbreviation getData := (FileDataAccessor.getData mapUrlToFilePath).
Local Abbreviation getMetadata :=
  (FileDataAccessor.getMetadata mapUrlToFilePath mapFilePathToUrl
     getContentTypeFromExtension parseQuads toISOString numberToString).
Local Abbreviation getNormalizedMetadata :=
  (FileDataAccessor.getNormalizedMetadata mapUrlToFilePath mapFilePathToUrl
     getContentTypeFromExtension parseQuads toISOString numberToString).
Local Abbreviation childMetadata :=
  (FileDataAccessor.childMetadata mapFilePathToUrl toISOString numberToString).

Lemma readOnly_lstat path : readOnly (Fs.lstat path).
Proof. intros fs. apply FsFacts.lstat_state. Qed.

Lemma readOnly_readdir path : readOnly (Fs.readdir path).
Proof.
  intros fs. unfold Fs.readdir. destruct (Fs.locate path fs); try reflexivity.
  destruct (Children.lookup name siblings) as [[l|ch c]|]; reflexivity.
Qed.

Lemma readOnly_getStats path : readOnly (FileDataAccessor.getStats path).
Proof.
  apply readOnly_tryCatch; [apply readOnly_lstat|].
  intros e. apply readOnly_if; apply readOnly_throw.
Qed.

Lemma readOnly_getRawMetadata path :
  readOnly (FileDataAccessor.getRawMetadata parseQuads path).
Proof.
  apply readOnly_tryCatch.
  - apply readOnly_bind; [apply readOnly_lstat|]. intros _.
    apply readOnly_bind; [intros fs; reflexivity|]. intros stream. apply readOnly_liftE.
  - intros e. apply readOnly_if; [apply readOnly_throw | apply readOnly_ret].
Qed.

Lemma readOnly_getBaseMetadata id path stats isContainer :
  readOnly (FileDataAccessor.getBaseMetadata parseQuads toISOString numberToString
              id path stats isContainer).
Proof.
  apply readOnly_bind; [apply readOnly_getRawMetadata|]. intros raw. apply readOnly_ret.
Qed.

Lemma readOnly_childMetadata path files :
  forall quads childURIs, readOnly (childMetadata path files quads childURIs).
Proof.
  induction files as [|childName files IH]; intros quads childURIs;
    cbn [FileDataAccessor.childMetadata]; [apply readOnly_ret|].
  apply readOnly_if; [apply IH|].
  apply readOnly_bind; [apply readOnly_lstat|]. intros childStats.
  apply readOnly_if; apply IH.
Qed.

Lemma readOnly_getMetadata id : readOnly (getMetadata id).
Proof.
  apply readOnly_bind; [apply readOnly_liftE|]. intros path.
  apply readOnly_bind; [apply readOnly_getStats|]. intros stats.
  apply readOnly_if; [|apply readOnly_if; [|apply readOnly_throw]].
  - apply readOnly_bind; [apply readOnly_getBaseMetadata|]. intros md. apply readOnly_ret.
  - apply readOnly_bind; [apply readOnly_getBaseMetadata|]. intros md.
    apply readOnly_bind; [|intros children; apply readOnly_ret].
    apply readOnly_bind; [apply readOnly_readdir|]. intros files.
    apply readOnly_bind; [apply readOnly_childMetadata|]. intros found. apply readOnly_ret.
Qed.

(** X19. Reading through the file accessor never changes the file
    system: whatever [getData], [getMetadata] and
    [getNormalizedMetadata] return or throw, for any identifier, the
    files and folders are as before. *)
Theorem file_reads_change_nothing id fs :
  stateOf (getData id fs) = fs
  /\ stateOf (getMetadata id fs) = fs
  /\ stateOf (getNormalizedMetadata id fs) = fs.
Proof.
  split; [|split].
  - revert fs. change (readOnly (getData id)).
    apply readOnly_bind; [apply readOnly_liftE|]. intros path.
    apply readOnly_bind; [apply readOnly_getStats|]. intros stats.
    apply readOnly_if; [intros fs; reflexivity | apply readOnly_throw].
  - apply readOnly_getMetadata.
  - revert fs. change (readOnly (getNormalizedMetadata id)).
    apply readOnly_tryCatch; [apply readOnly_getMetadata|].
    intros e. apply readOnly_if; [apply readOnly_getMetadata | apply readOnly_throw].
Qed.

(** The loop over the names of a folder passes over metadata files. *)
Lemma childMetadata_skips path files :
  forall quads childURIs fs,
    childMetadata path files quads childURIs fs
    = childMetadata path
        (filter (fun name => negb (FileDataAccessor.isMetadataPath name)) files)
        quads childURIs fs.
Proof.
  induction files as [|childName files IH]; intros quads childURIs fs; [reflexivity|].
  cbn [FileDataAccessor.childMetadata filter].
  destruct (FileDataAccessor.isMetadataPath childName) eqn:Hmeta; cbn [negb]; [apply IH|].
  cbn [FileDataAccessor.childMetadata]. rewrite Hmeta. unfold bind.
  destruct (Fs.lstat (Fs.joinPath path childName) fs) as [childStats fs'|e fs']; [|reflexivity].
  destruct (negb (Fs.isFile childStats) && negb (Fs.isDirectory childStats)); apply IH.
Qed.

End FileReads.

(* ================================================================== *)
(** * [FileDataAccessor]: the children of a folder                     *)
(* ================================================================== *)

Section PathPieces.

Lemma split_app_slash (s r : string) : split (s +:+ String slash r) = split s ++ split r.
Proof.
  induction s as [|c s IH]; [reflexivity|].
  cbn [String.append split]. rewrite IH.
  destruct (Ascii.eqb c slash); [reflexivity|].
  pose proof (split_not_nil s) as Hne.
  destruct (split s) as [|h t]; [contradiction | reflexivity].
Qed.

Lemma parts_app_slash (s r : string) : parts (s +:+ String slash r) = parts s ++ parts r.
Proof. unfold parts. now rewrite split_app_slash, filter_app. Qed.

Lemma parts_joinPath (path name : string) :
  isSegment name = true -> parts (Fs.joinPath path name) = parts path ++ [name].
Proof.
  intros Hname. unfold Fs.joinPath.
  change ("/" +:+ name) with (String slash name).
  rewrite parts_app_slash, (parts_name name Hname).
  f_equal. exact (parts_slice_trim 0 path).
Qed.

Lemma lookup_key {V : Type} (name : string) (es : list (string * V)) :
  In name (map fst es) -> Children.lookup name es <> None.
Proof.
  induction es as [|[k v] rest IH]; [intros []|].
  cbn [map fst In Children.lookup].
  destruct (String.eqb_spec k name) as [_|Hne]; [discriminate|].
  intros [Heq|Hin]; [contradiction | now apply IH].
Qed.

End PathPieces.

Section FolderListing.
Variable mapFilePathToUrl : string -> string.
Variable toISOString : nat -> string.
Variable numberToString : nat -> string.

Local Abbreviation childMetadata :=
  (FileDataAccessor.childMetadata mapFilePathToUrl toISOString numberToString).
Local Abbreviation getChildMetadataQuads :=
  (FileDataAccessor.getChildMetadataQuads mapFilePathToUrl toISOString numberToString).

Variables (path : string) (children : list (string * Fs.Node)) (fs : Fs.FileSystem).
Hypothesis folder : descend (parts path) (Fs.root fs) = Reached children.

Lemma lstat_child (name : string) :
  isSegment name = true ->
  Fs.lstat (Fs.joinPath path name) fs
  = match Children.lookup name children with
    | Some node => Ok (Fs.statsOf node) fs
    | None => Throw Fs.enoent fs
    end.
Proof.
  intros Hname. unfold Fs.lstat.
  now rewrite (FsFacts.locate_of_parts _ fs (parts path) children name
                 (parts_joinPath path name Hname) folder).
Qed.

Lemma readdir_folder : Fs.readdir path fs = Ok (map fst children) fs.
Proof.
  unfold Fs.readdir.
  destruct (list_snoc_cases (parts path)) as [Hroot|(dir & name & Hp)].
  - unfold Fs.locate. rewrite Hroot in *. cbn in folder. now injection folder as ->.
  - pose proof folder as Hd. rewrite Hp, descend_app in Hd.
    destruct (descend dir (Fs.root fs)) as [es| |] eqn:Hdir; try discriminate.
    rewrite (FsFacts.locate_of_parts path fs dir es name Hp Hdir).
    cbn [descend] in Hd.
    destruct (Children.lookup name es) as [[l|ch c]|]; try discriminate.
    now injection Hd as ->.
Qed.

Local Abbreviation listed names :=
  (flat_map
     (fun childName =>
        if FileDataAccessor.isMetadataPath childName then []
        else
          match Children.lookup childName children with
          | Some (Branch _ _) =>
              [ensureTrailingSlash (mapFilePathToUrl (Fs.joinPath path childName))]
          | Some (Leaf file) =>
              match Fs.content file with
              | Some _ => [mapFilePathToUrl (Fs.joinPath path childName)]
              | None => []
              end
          | None => []
          end)
     names).

Lemma childMetadata_listed (files : list string) :
  (forall name, In name files ->
                isSegment name = true /\ Children.lookup name children <> None) ->
  forall quads childURIs,
  exists quads',
    childMetadata path files quads childURIs fs = Ok (quads', childURIs ++ listed files) fs.
Proof.
  induction files as [|name files IH]; intros Hfiles quads childURIs.
  - exists quads. cbn. now rewrite app_nil_r.
  - destruct (Hfiles name (or_introl eq_refl)) as [Hname Hfound].
    assert (Hrest : forall n, In n files ->
                              isSegment n = true /\ Children.lookup n children <> None)
      by (intros n Hn; apply Hfiles; now right).
    cbn [FileDataAccessor.childMetadata flat_map].
    destruct (FileDataAccessor.isMetadataPath name); [apply (IH Hrest)|].
    unfold bind. rewrite (lstat_child name Hname).
    destruct (Children.lookup name children) as [[file|ch c]|]; [| |contradiction].
    + destruct file as [[cs|] time]; cbn [Fs.statsOf Fs.isFile Fs.isDirectory Fs.content
                                            negb andb].
      * destruct (IH Hrest
                    (quads
                     ++ MetadataController.generateResourceQuads
                          (mapFilePathToUrl (Fs.joinPath path name)) false
                     ++ FileDataAccessor.generatePosixQuads toISOString numberToString
                          (mapFilePathToUrl (Fs.joinPath path name))
                          (Fs.statsOf (Leaf {| Fs.content := Some cs; Fs.fileTime := time |})))
                    (childURIs ++ [mapFilePathToUrl (Fs.joinPath path name)]))
          as [quads' Hq].
        exists quads'. cbn [Fs.statsOf Fs.content] in Hq.
        rewrite <- app_assoc in Hq. exact Hq.
      * apply (IH Hrest).
    + cbn [Fs.statsOf Fs.isFile Fs.isDirectory negb andb].
      destruct (IH Hrest
                  (quads
                   ++ MetadataController.generateResourceQuads
                        (ensureTrailingSlash (mapFilePathToUrl (Fs.joinPath path name))) true
                   ++ FileDataAccessor.generatePosixQuads toISOString numberToString
                        (ensureTrailingSlash (mapFilePathToUrl (Fs.joinPath path name)))
                        (Fs.statsOf (Branch ch c)))
                  (childURIs
                   ++ [ensureTrailingSlash (mapFilePathToUrl (Fs.joinPath path name))]))
        as [quads' Hq].
      exists quads'. rewrite <- app_assoc in Hq. exact Hq.
Qed.


End FolderListing.

(* ================================================================== *)
(** * [FileDataAccessor]: written, read, deleted                       *)
(* ================================================================== *)

Module FileFacts.
Import Fs.

Lemma concat_cons (x : string) (xs : list string) :
  String.concat "" (x :: xs) = x +:+ String.concat "" xs.
Proof. destruct xs; cbn; [now rewrite append_nil_r | reflexivity]. Qed.

Lemma splitAt_append n bytes :
  fst (splitAt n bytes) +:+ snd (splitAt n bytes) = bytes.
Proof.
  revert n. induction bytes as [|c rest IH]; intros n; [reflexivity|]. cbn.
  destruct (N.eqb n 0); [reflexivity|]. specialize (IH (N.pred n)).
  destruct (splitAt (N.pred n) rest) as [taken left]. cbn in *. now rewrite IH.
Qed.

Lemma splitAt_left n c rest :
  n <> 0%N -> String.length (snd (splitAt n (String c rest))) <= String.length rest.
Proof.
  intros Hn. cbn. destruct (N.eqb_spec n 0) as [->|_]; [now elim Hn|].
  assert (Hle : forall m s, String.length (snd (splitAt m s)) <= String.length s).
  { intros m s. revert m. induction s as [|d s IH]; intros m; [cbn; lia|].
    cbn. destruct (N.eqb m 0); [cbn; lia|]. specialize (IH (N.pred m)).
    destruct (splitAt (N.pred m) s) as [taken left]. cbn in *. lia. }
  specialize (Hle (N.pred n) rest).
  destruct (splitAt (N.pred n) rest) as [taken left]. exact Hle.
Qed.

Lemma readChunks_bytes reads bytes :
  String.length bytes <= reads -> String.concat "" (readChunks reads bytes) = bytes.
Proof.
  revert bytes. induction reads as [|reads IH]; intros bytes Hlen.
  - destruct bytes; [reflexivity | cbn in Hlen; lia].
  - destruct bytes as [|c rest]; [reflexivity|]. cbn [readChunks].
    pose proof (splitAt_append highWaterMark (String c rest)) as Happ.
    pose proof (splitAt_left highWaterMark c rest ltac:(discriminate)) as Hleft.
    destruct (splitAt highWaterMark (String c rest)) as [chunk left]. cbn [fst snd] in *.
    rewrite concat_cons, IH; [exact Happ|]. cbn in Hlen. lia.
Qed.

(** A read stream yields the bytes of the file and does not break. *)
Lemma fileStream_bytes content :
  failure (fileStream content) = None
  /\ String.concat "" (chunks (fileStream content)) = String.concat "" content.
Proof.
  split; [reflexivity|]. unfold fileStream. cbn [chunks streamifyArray].
  now apply readChunks_bytes.
Qed.

(** A write that ends well leaves a regular file with the chunks. *)
Lemma pipeToFile_content path data fs fs' :
  Fs.pipeToFile path data fs = Ok tt fs' ->
  Fs.lstat path fs'
  = Ok (Fs.statsOf (Leaf {| content := Some (chunks data); fileTime := clock fs |})) fs'
  /\ Fs.createReadStream path fs' = Fs.fileStream (chunks data).
Proof.
  unfold Fs.pipeToFile.
  destruct (Fs.locate path fs) as [|dir es name|e] eqn:Hloc; try discriminate.
  destruct (FsFacts.locate_parts _ _ _ _ _ Hloc) as [Hp Hd]. intros H.
  assert (Hfs : fs' = tick (change dir
            (Children.assign name (Leaf {| content := Some (chunks data);
                                           fileTime := clock fs |})) fs)).
  { destruct (Children.lookup name es) as [[l|ch c]|]; try discriminate;
      destruct (failure data); try discriminate; now injection H. }
  assert (Hloc' : Fs.locate path fs'
                  = Child dir (Children.assign name
                                 (Leaf {| content := Some (chunks data);
                                          fileTime := clock fs |}) es) name).
  { subst fs'. apply FsFacts.locate_of_parts; [assumption|]. cbn [tick change root].
    now apply descend_modify. }
  unfold Fs.lstat, Fs.createReadStream. rewrite Hloc', lookup_assign_eq.
  split; reflexivity.
Qed.

Lemma unlink_gone path fs fs' :
  Fs.unlink path fs = Ok tt fs' -> Fs.lstat path fs' = Throw enoent fs'.
Proof.
  unfold Fs.unlink.
  destruct (Fs.locate path fs) as [|dir es name|e] eqn:Hloc; try discriminate.
  destruct (FsFacts.locate_parts _ _ _ _ _ Hloc) as [Hp Hd].
  destruct (Children.lookup name es) as [[l|ch c]|]; try discriminate.
  intros H. injection H as <-. unfold Fs.lstat.
  rewrite (FsFacts.locate_of_parts path _ dir (Children.remove name es) name Hp).
  - now rewrite lookup_remove_eq.
  - cbn [change root]. now apply descend_modify.
Qed.

Lemma rmdir_gone path fs fs' :
  Fs.rmdir path fs = Ok tt fs' -> Fs.lstat path fs' = Throw enoent fs'.
Proof.
  unfold Fs.rmdir.
  destruct (Fs.locate path fs) as [|dir es name|e] eqn:Hloc; try discriminate.
  destruct (FsFacts.locate_parts _ _ _ _ _ Hloc) as [Hp Hd].
  destruct (Children.lookup name es) as [[l|[|x ch] c]|]; try discriminate.
  intros H. injection H as <-. unfold Fs.lstat.
  rewrite (FsFacts.locate_of_parts path _ dir (Children.remove name es) name Hp).
  - now rewrite lookup_remove_eq.
  - cbn [change root]. now apply descend_modify.
Qed.

(** What exists cannot be made: [mkdir] answers [EEXIST] and changes
    nothing. *)
Lemma mkdir_exists path stats fs fs' :
  Fs.lstat path fs = Ok stats fs' -> Fs.mkdir path fs = Throw (SystemError "EEXIST") fs.
Proof.
  unfold Fs.lstat, Fs.mkdir. destruct (Fs.locate path fs); try discriminate; [reflexivity|].
  destruct (Children.lookup name siblings); [reflexivity | discriminate].
Qed.

End FileFacts.

Section FileRoundTrips.
Variable mapUrlToFilePath : ResourceIdentifier -> Error + string.
Variable mapFilePathToUrl : string -> string.
Variable getContentTypeFromExtension : string -> string.
Variable parseQuads : Readable -> Error + list Quad.
Variable serializeQuads : list Quad -> Readable.
Variable toISOString : nat -> string.
Variable numberToString : nat -> string.

Local Abbreviation getData := (FileDataAccessor.getData mapUrlToFilePath).
Local Abbreviation getMetadata :=
  (FileDataAccessor.getMetadata mapUrlToFilePath mapFilePathToUrl
     getContentTypeFromExtension parseQuads toISOString numberToString).
Local Abbreviation writeDataResource :=
  (FileDataAccessor.writeDataResource mapUrlToFilePath serializeQuads).
Local Abbreviation writeContainer :=
  (FileDataAccessor.writeContainer mapUrlToFilePath serializeQuads).
Local Abbreviation deleteResource := (FileDataAccessor.deleteResource mapUrlToFilePath).

(** X21. What [writeDataResource] wrote, [getData] reads: after a
    write that succeeded, with or without metadata, [getData] for the
    same identifier leaves the file system alone and returns a stream
    that does not break and whose chunks, put together, are the bytes
    written; how the bytes are cut into chunks is the read stream's
    own matter. *)
Theorem writeDataResource_then_getData id data metadata fs fs' :
  writeDataResource id data metadata fs = Ok tt fs' ->
  exists stream,
    getData id fs' = Ok stream fs'
    /\ failure stream = None
    /\ String.concat "" (chunks stream) = String.concat "" (chunks data).
Proof.
  unfold FileDataAccessor.writeDataResource, FileDataAccessor.getData, bind, liftE.
  destruct (mapUrlToFilePath id) as [e|path]; [discriminate|].
  destruct (FileDataAccessor.isMetadataPath path); [discriminate|].
  destruct (FileDataAccessor.writeSidecar serializeQuads path metadata fs) as [[] fs1|e fs1];
    [|discriminate].
  unfold tryCatch, FileDataAccessor.writeDataFile.
  destruct (Fs.pipeToFile path data fs1) as [[] fs2|e fs2] eqn:Hwrite.
  - intros H. injection H as <-.
    destruct (FileFacts.pipeToFile_content path data fs1 fs2 Hwrite) as [Hstat Hread].
    exists (Fs.fileStream (chunks data)).
    split; [|exact (FileFacts.fileStream_bytes (chunks data))].
    unfold FileDataAccessor.getStats, tryCatch. rewrite Hstat.
    cbn [Fs.statsOf Fs.content Fs.isFile]. now rewrite Hread.
  - destruct metadata; cbn; [|discriminate].
    destruct (Fs.unlink _ fs2); discriminate.
Qed.

(** X22. What [deleteResource] deleted is gone: after a call that
    succeeded, [getData] and [getMetadata] for the same identifier are
    "not found". *)
Theorem deleteResource_then_not_found id fs fs' :
  deleteResource id fs = Ok tt fs' ->
  getData id fs' = Throw NotFoundHttpError fs'
  /\ getMetadata id fs' = Throw NotFoundHttpError fs'.
Proof.
  unfold FileDataAccessor.deleteResource, FileDataAccessor.getData,
    FileDataAccessor.getMetadata, bind, liftE.
  destruct (mapUrlToFilePath id) as [e|path]; [discriminate|].
  destruct (FileDataAccessor.getStats path fs) as [stats fs0|e fs0]; [|discriminate].
  destruct (tryCatch (Fs.unlink (FileDataAccessor.getMetadataPath path)) _ fs0)
    as [[] fs1|e fs1]; [|discriminate].
  intros H.
  assert (Hgone : Fs.lstat path fs' = Throw Fs.enoent fs').
  { destruct (negb (endsWith id "/") && Fs.isFile stats).
    - exact (FileFacts.unlink_gone path fs1 fs' H).
    - destruct (endsWith id "/" && Fs.isDirectory stats); [|discriminate].
      exact (FileFacts.rmdir_gone path fs1 fs' H). }
  unfold FileDataAccessor.getStats, tryCatch. rewrite Hgone. split; reflexivity.
Qed.

(** X23. [writeContainer] does not mind what is already at the path:
    [mkdir] answers [EEXIST], the accessor swallows it, and the call
    goes on to the metadata file, also when the path is a regular
    file; without metadata, or with nothing but types in it, it
    succeeds and changes nothing. *)
Theorem writeContainer_on_existing_path id path stats metadata fs fs0 :
  mapUrlToFilePath id = inr path ->
  Fs.lstat path fs = Ok stats fs0 ->
  writeContainer id metadata fs = FileDataAccessor.writeSidecar serializeQuads path metadata fs
  /\ (match metadata with
      | Some metadata => Metadata.quads (Metadata.removeAll RDF.type metadata) = []
      | None => True
      end ->
      writeContainer id metadata fs = Ok tt fs).
Proof.
  intros Hmap Hstat.
  assert (Hsame : writeContainer id metadata fs
                  = FileDataAccessor.writeSidecar serializeQuads path metadata fs).
  { unfold FileDataAccessor.writeContainer, bind, liftE, tryCatch.
    rewrite Hmap, (FileFacts.mkdir_exists path stats fs fs0 Hstat). reflexivity. }
  split; [exact Hsame|]. rewrite Hsame. unfold FileDataAccessor.writeSidecar.
  destruct metadata as [metadata|]; [|reflexivity]. now intros ->.
Qed.

End FileRoundTrips.

(* ================================================================== *)
(** * [FileDataAccessor]: the metadata it makes                        *)
(* ================================================================== *)

Section TypedMetadata.
Import DataAccessorBasedStore.

Lemma getAll_addQuads_old p qs md v :
  In v (Metadata.getAll p md) -> In v (Metadata.getAll p (Metadata.addQuads qs md)).
Proof. intros H. rewrite getAll_addQuads. apply in_or_app. now left. Qed.

Lemma getAll_addQuads_types subj isContainer md :
  subj = Metadata.identifier md ->
  In LDP.Resource
    (Metadata.getAll RDF.type
       (Metadata.addQuads (MetadataController.generateResourceQuads subj isContainer) md))
  /\ (isContainer = true ->
      In LDP.Container
        (Metadata.getAll RDF.type
           (Metadata.addQuads (MetadataController.generateResourceQuads subj isContainer) md))).
Proof.
  intros ->. rewrite getAll_addQuads. split; [|intros ->]; apply in_or_app; right.
  - destruct isContainer;
      cbn [MetadataController.generateResourceQuads MetadataController.typeQuad filter
           subject predicate];
      rewrite String.eqb_refl; cbn; auto.
  - cbn [MetadataController.generateResourceQuads MetadataController.typeQuad filter
         subject predicate].
    rewrite String.eqb_refl. cbn. auto.
Qed.

Lemma isExistingContainer_typed md v :
  In v (Metadata.getAll RDF.type md) -> exists b, isExistingContainer md = inr b.
Proof.
  unfold isExistingContainer. destruct (Metadata.getAll RDF.type md); [intros []|]. eauto.
Qed.

Lemma isExistingContainer_container md :
  In LDP.Container (Metadata.getAll RDF.type md) -> isExistingContainer md = inr true.
Proof.
  unfold isExistingContainer. intros Hin.
  destruct (Metadata.getAll RDF.type md) as [|type types] eqn:E; [destruct Hin|].
  f_equal. apply existsb_exists. exists LDP.Container. split; [exact Hin | reflexivity].
Qed.

Variable mapUrlToFilePath : ResourceIdentifier -> Error + string.
Variable mapFilePathToUrl : string -> string.
Variable getContentTypeFromExtension : string -> string.
Variable parseQuads : Readable -> Error + list Quad.
Variable toISOString : nat -> string.
Variable numberToString : nat -> string.

Local Abbreviation getMetadata :=
  (FileDataAccessor.getMetadata mapUrlToFilePath mapFilePathToUrl
     getContentTypeFromExtension parseQuads toISOString numberToString).

(** X24. The metadata the file accessor returns always says what the
    resource is: it is about the identifier asked for, it carries a
    type, so that [isExistingContainer] does not throw on it, and for
    an identifier with a trailing slash it is a container.  For a
    file the only content type is the one of the extension, whatever
    the metadata file holds. *)
Theorem file_metadata_is_typed id md fs fs' :
  getMetadata id fs = Ok md fs' ->
  Metadata.identifier md = id
  /\ (exists b, isExistingContainer md = inr b)
  /\ (if endsWith id "/"
      then isExistingContainer md = inr true
      else match mapUrlToFilePath id with
           | inr path =>
               Metadata.getAll CONTENT_TYPE md = [getContentTypeFromExtension path]
           | inl _ => False
           end).
Proof.
  unfold FileDataAccessor.getMetadata, bind, liftE.
  destruct (mapUrlToFilePath id) as [e|path]; [discriminate|].
  destruct (FileDataAccessor.getStats path fs) as [stats fs0|e fs0]; [|discriminate].
  destruct (endsWith id "/"); cbn [negb andb].
  - destruct (Fs.isDirectory stats); [|discriminate].
    unfold FileDataAccessor.getDirectoryMetadata, FileDataAccessor.getBaseMetadata, bind.
    destruct (FileDataAccessor.getRawMetadata parseQuads path fs0) as [raw fs1|e fs1];
      [|discriminate].
    unfold ret at 1.
    destruct (FileDataAccessor.getChildMetadataQuads _ _ _ id path fs1) as [children fs2|e fs2];
      [|discriminate].
    intros H. injection H as <- _.
    assert (Hcontainer :
      In LDP.Container
        (Metadata.getAll RDF.type
           (Metadata.addQuads children
              (Metadata.addQuads
                 (FileDataAccessor.generatePosixQuads toISOString numberToString id stats)
                 (Metadata.addQuads (MetadataController.generateResourceQuads id true)
                    (Metadata.addQuads raw (Metadata.new id))))))).
    { do 2 apply getAll_addQuads_old.
      now apply (getAll_addQuads_types id true (Metadata.addQuads raw (Metadata.new id))). }
    split; [reflexivity|]. split.
    + exact (isExistingContainer_typed _ _ Hcontainer).
    + exact (isExistingContainer_container _ Hcontainer).
  - destruct (Fs.isFile stats); [|discriminate].
    unfold FileDataAccessor.getFileMetadata, FileDataAccessor.getBaseMetadata, bind.
    destruct (FileDataAccessor.getRawMetadata parseQuads path fs0) as [raw fs1|e fs1];
      [|discriminate].
    unfold ret. intros H. injection H as <- _.
    split; [reflexivity|]. split; [|apply getAll_set].
    apply (isExistingContainer_typed _ LDP.Resource).
    rewrite getAll_set_other by discriminate.
    apply getAll_addQuads_old.
    now apply (getAll_addQuads_types id false (Metadata.addQuads raw (Metadata.new id))).
Qed.

End TypedMetadata.

(* ================================================================== *)
(** * The store over the file accessor                                 *)
(* ================================================================== *)

Section StoreOverFiles.
Variable mapUrlToFilePath : ResourceIdentifier -> Error + string.
Variable mapFilePathToUrl : string -> string.
Variable getContentTypeFromExtension : string -> string.
Variable parseQuads : Readable -> Error + list Quad.
Variable serializeQuads : list Quad -> Readable.
Variable toISOString : nat -> string.
Variable numberToString : nat -> string.
Variable base : string.
Variable getContainer : ResourceIdentifier -> Error + ResourceIdentifier.
Variable uuid : nat -> string.

Local Abbreviation files :=
  (FileDataAccessor.accessor mapUrlToFilePath mapFilePathToUrl getContentTypeFromExtension
     parseQuads serializeQuads toISOString numberToString).

(** X25. Over the file accessor the store takes binary
    representations only: [setRepresentation] and [addResource] with a
    representation that is not binary fail with "unsupported media
    type" before anything is looked up, and the file system is as it
    was. *)
Theorem store_over_files_wants_binary fuel id representation fs :
  startsWith id base = true ->
  binary representation = false ->
  DataAccessorBasedStore.setRepresentation files base parseQuads getContainer fuel
    id representation fs
  = Some (Throw UnsupportedMediaTypeHttpError fs)
  /\ DataAccessorBasedStore.addResource files base parseQuads getContainer uuid fuel
       id representation fs
     = Some (Throw UnsupportedMediaTypeHttpError fs).
Proof.
  intros Hvalid Hbinary.
  unfold DataAccessorBasedStore.setRepresentation, DataAccessorBasedStore.addResource,
    DataAccessorBasedStore.validateIdentifier, andThen, done, bind.
  rewrite Hvalid. cbn [negb ret DataAccessor.canHandle FileDataAccessor.accessor].
  unfold FileDataAccessor.canHandle. rewrite Hbinary. split; reflexivity.
Qed.

End StoreOverFiles.

(* ================================================================== *)
(** * [NormalizedDataAccessor]: the two spellings                      *)
(* ================================================================== *)

Section Spellings.
Import NormalizedDataAccessor.

(** The identifier retried has the other shape, and retrying it leads
    back when the identifier ends in at most one slash. *)
Lemma toggled_twice id :
  (endsWith id "/" = true -> ensureTrailingSlash id = id) -> toggled (toggled id) = id.
Proof.
  intros Hone. unfold toggled at 2. destruct (endsWith id "/") eqn:Hslash.
  - unfold toggled. rewrite endsWith_trim. unfold ensureTrailingSlash.
    rewrite trim_idempotent. exact (Hone eq_refl).
  - unfold toggled. rewrite endsWith_ensure. unfold ensureTrailingSlash.
    rewrite trim_snoc_slash, trim_idempotent. now apply trim_no_slash.
Qed.

Context {S : Type}.
Variable getMetadata : ResourceIdentifier -> Async S RepresentationMetadata.
Hypothesis reads : forall id, readOnly (getMetadata id).

(** X26. Over a [getMetadata] that only reads, the two spellings of an
    identifier with at most one trailing slash are one resource to
    [getNormalizedMetadata]: when [getMetadata] knows nothing under
    the spelling asked for, the answer is the answer for the other
    spelling, metadata or error. *)
Theorem getNormalizedMetadata_either_spelling id s s' :
  (endsWith id "/" = true -> ensureTrailingSlash id = id) ->
  getMetadata id s = Throw NotFoundHttpError s' ->
  getNormalizedMetadata getMetadata id s = getNormalizedMetadata getMetadata (toggled id) s.
Proof.
  intros Hone Hnone.
  assert (Hs : s' = s) by (pose proof (reads id s) as H; now rewrite Hnone in H).
  subst s'. unfold getNormalizedMetadata, tryCatch. rewrite Hnone. cbn [isNotFound].
  fold (toggled id). fold (toggled (toggled id)). rewrite (toggled_twice id Hone).
  pose proof (reads (toggled id) s) as Hstate.
  destruct (getMetadata (toggled id) s) as [md s1|e s1]; [reflexivity|].
  cbn in Hstate. subst s1.
  destruct (isNotFound e) eqn:He; [|reflexivity].
  rewrite Hnone. now destruct e.
Qed.

End Spellings.

Lemma readOnly_in_memory_getMetadata base id :
  readOnly (InMemoryDataAccessor.getMetadata base id).
Proof.
  intros st. unfold InMemoryDataAccessor.getMetadata, bind.
  destruct (InMemoryDataAccessor.getEntry base id st) as [entry st'|e st'] eqn:E.
  - apply MemoryFacts.getEntry_ok in E as ->.
    now destruct (Bool.eqb (InMemoryDataAccessor.isDataEntry entry) (endsWith id "/")).
  - now apply MemoryFacts.getEntry_throw in E as [_ ->].
Qed.


Lemma writeDataResource_then_getData_witness :
  exists fs',
    FileDataAccessor.writeDataResource testMapper testSerializer
      "http://test.com/resource" (streamifyArray ["data"]) (Some likesApples) (uploads [])
    = Ok tt fs'
    /\ exists stream,
         FileDataAccessor.getData testMapper "http://test.com/resource" fs' = Ok stream fs'
         /\ failure stream = None
         /\ String.concat "" (chunks stream) = String.concat "" (chunks (streamifyArray ["data"])).
Proof.
  eexists. split; [reflexivity|].
  apply (writeDataResource_then_getData testMapper testSerializer
           "http://test.com/resource" (streamifyArray ["data"]) (Some likesApples) (uploads [])).
  reflexivity.
Defined.

Lemma deleteResource_then_not_found_witness :
  exists fs',
    FileDataAccessor.deleteResource testMapper "http://test.com/resource" staleSidecar
    = Ok tt fs'
    /\ FileDataAccessor.getData testMapper "http://test.com/resource" fs'
       = Throw NotFoundHttpError fs'
    /\ FileDataAccessor.getMetadata testMapper testUrl testContentType testParser
         testDate testNumber "http://test.com/resource" fs'
       = Throw NotFoundHttpError fs'.
Proof.
  eexists. split; [reflexivity|].
  apply (deleteResource_then_not_found testMapper testUrl testContentType testParser
           testDate testNumber "http://test.com/resource" staleSidecar).
  reflexivity.
Defined.

Lemma writeContainer_on_existing_path_witness :
  FileDataAccessor.writeContainer testMapper testSerializer
    "http://test.com/resource" (Some onlyType) staleSidecar
  = Ok tt staleSidecar.
Proof.
  eapply (proj2 (writeContainer_on_existing_path testMapper testSerializer
                   "http://test.com/resource" "uploads/resource" _ (Some onlyType)
                   staleSidecar staleSidecar eq_refl eq_refl)).
  reflexivity.
Defined.

Lemma file_metadata_is_typed_witness :
  exists md,
    FileDataAccessor.getMetadata testMapper testUrl testContentType testParser
      testDate testNumber "http://test.com/notes.txt"
      (uploads [("notes.txt", regularFile ["data"])])
    = Ok md (uploads [("notes.txt", regularFile ["data"])])
    /\ Metadata.identifier md = "http://test.com/notes.txt"
    /\ DataAccessorBasedStore.isExistingContainer md = inr false
    /\ Metadata.getAll CONTENT_TYPE md = ["text/plain"].
Proof.
  eexists. split; [reflexivity|].
  destruct (file_metadata_is_typed testMapper testUrl testContentType testParser
              testDate testNumber "http://test.com/notes.txt" _
              (uploads [("notes.txt", regularFile ["data"])])
              (uploads [("notes.txt", regularFile ["data"])]) eq_refl)
    as (Hid & _ & Htype).
  split; [exact Hid|]. split; [reflexivity | exact Htype].
Defined.

Lemma store_over_files_wants_binary_witness :
  DataAccessorBasedStore.setRepresentation
    (FileDataAccessor.accessor testMapper testUrl testContentType testParser
       testSerializer testDate testNumber)
    testBase testParser UrlContainerManager.getContainer 0
    "http://test.com/resource"
    {| binary := false; data := streamifyArray ["data"]; metadata := Metadata.new "" |}
    (uploads [])
  = Some (Throw UnsupportedMediaTypeHttpError (uploads []))
  /\ DataAccessorBasedStore.addResource
       (FileDataAccessor.accessor testMapper testUrl testContentType testParser
          testSerializer testDate testNumber)
       testBase testParser UrlContainerManager.getContainer testUuid 0
       "http://test.com/resource"
       {| binary := false; data := streamifyArray ["data"]; metadata := Metadata.new "" |}
       (uploads [])
     = Some (Throw UnsupportedMediaTypeHttpError (uploads [])).
Proof.
  apply (store_over_files_wants_binary testMapper testUrl testContentType testParser
           testSerializer testDate testNumber testBase UrlContainerManager.getContainer
           testUuid 0 "http://test.com/resource"
           {| binary := false; data := streamifyArray ["data"]; metadata := Metadata.new "" |}
           (uploads [])); reflexivity.
Defined.

Lemma getNormalizedMetadata_either_spelling_witness :
  NormalizedDataAccessor.getNormalizedMetadata (InMemoryDataAccessor.getMetadata testBase)
    "http://test.com/container" withContainer
  = NormalizedDataAccessor.getNormalizedMetadata (InMemoryDataAccessor.getMetadata testBase)
      "http://test.com/container/" withContainer.
Proof.
  apply (getNormalizedMetadata_either_spelling (InMemoryDataAccessor.getMetadata testBase)
           (readOnly_in_memory_getMetadata testBase)
           "http://test.com/container" withContainer withContainer).
  - discriminate.
  - reflexivity.
Defined.

(* ================================================================== *)
(** * Changes are local                                                *)
(* ================================================================== *)

Section Frame.
Context {L C : Type}.
Implicit Types (es : Entries L C) (f : Entries L C -> Entries L C).

Lemma find_lookup_congr a q es es' :
  Children.lookup a es = Children.lookup a es' -> find (a :: q) es = find (a :: q) es'.
Proof. intros H. destruct q; cbn [find]; now rewrite H. Qed.

Lemma find_cons_nonempty k rest es :
  rest <> [] ->
  find (k :: rest) es
  = match Children.lookup k es with
    | Some (Branch ch _) => find rest ch
    | _ => None
    end.
Proof. destruct rest as [|m names]; [contradiction | reflexivity]. Qed.

(** A change below another branch is not seen. *)
Lemma find_modify_elsewhere pre a b q p f es :
  a <> b ->
  find (pre ++ a :: q) (modify (pre ++ b :: p) f es) = find (pre ++ a :: q) es.
Proof.
  intros Hne. revert es. induction pre as [|k pre IH]; intros es; cbn [app modify].
  - destruct (Children.lookup b es) as [[l|ch c]|]; try reflexivity.
    apply find_lookup_congr, lookup_assign_ne. congruence.
  - destruct (Children.lookup k es) as [[l|ch c]|] eqn:E; try reflexivity.
    rewrite !find_cons_nonempty by (now destruct pre).
    now rewrite lookup_assign_eq, E, IH.
Qed.

(** A change of one name of a directory is not seen under another. *)
Lemma find_modify_sibling dir n a q f es :
  (forall es' k, k <> n -> Children.lookup k (f es') = Children.lookup k es') ->
  a <> n ->
  find (dir ++ a :: q) (modify dir f es) = find (dir ++ a :: q) es.
Proof.
  intros Hf Hne. revert es. induction dir as [|k dir IH]; intros es; cbn [app modify].
  - apply find_lookup_congr, Hf, Hne.
  - destruct (Children.lookup k es) as [[l|ch c]|] eqn:E; try reflexivity.
    rewrite !find_cons_nonempty by (now destruct dir).
    now rewrite lookup_assign_eq, E, IH.
Qed.

Lemma find_modify_frame dir n pre a b q p f es :
  (forall es' k, k <> n -> Children.lookup k (f es') = Children.lookup k es') ->
  dir ++ [n] = pre ++ b :: p ->
  a <> b ->
  find (pre ++ a :: q) (modify dir f es) = find (pre ++ a :: q) es.
Proof.
  intros Hf Hpath Hne.
  destruct (list_snoc_cases p) as [->|(p' & x & ->)].
  - apply app_inj_tail in Hpath as [-> ->]. exact (find_modify_sibling pre b a q f es Hf Hne).
  - change (pre ++ b :: p' ++ [x]) with (pre ++ (b :: p') ++ [x]) in Hpath.
    rewrite app_assoc in Hpath. apply app_inj_tail in Hpath as [-> _].
    exact (find_modify_elsewhere pre a b q p' f es Hne).
Qed.

End Frame.

Section MemoryFrame.
Import InMemoryDataAccessor.
Variable base : string.

Local Abbreviation piecesOf id := (parts (slice (String.length base) id)).

Lemma assign_others {V : Type} (n : string) (v : V) (es : list (string * V)) (k : string) :
  k <> n -> Children.lookup k (Children.assign n v es) = Children.lookup k es.
Proof. intros H. apply lookup_assign_ne. congruence. Qed.

Lemma remove_others {V : Type} (n : string) (es : list (string * V)) (k : string) :
  k <> n -> Children.lookup k (Children.remove n es) = Children.lookup k es.
Proof. intros H. apply lookup_remove_ne. congruence. Qed.

(** X27. A write or a delete that succeeds changes nothing outside the
    way to its own entry: among identifiers made of ordinary names, one
    whose pieces part from those of the written one at some name names
    the same entry afterwards, or is as much "not found" as before. *)
Theorem in_memory_changes_are_local id id' pre a b q p data metadata st st' :
  forallb ordinary (pieces base id) = true ->
  forallb ordinary (pieces base id') = true ->
  piecesOf id = pre ++ b :: p ->
  piecesOf id' = pre ++ a :: q ->
  a <> b ->
  writeDataResource base id data metadata st = Ok tt st'
  \/ writeContainer base id metadata st = Ok tt st'
  \/ deleteResource base id st = Ok tt st' ->
  getEntry base id' st'
  = match getEntry base id' st with
    | Ok entry _ => Ok entry st'
    | Throw e _ => Throw e st'
    end.
Proof.
  intros _ _ Hid Hid' Hne Hdone.
  destruct (list_snoc_cases (piecesOf id)) as [Hnil|(dir & n & Hp)];
    [rewrite Hnil in Hid; now destruct pre|].
  destruct (list_snoc_cases (piecesOf id')) as [Hnil|(dir' & n' & Hp')];
    [rewrite Hnil in Hid'; now destruct pre|].
  assert (Hpath : dir ++ [n] = pre ++ b :: p) by congruence.
  assert (Hfind : forall f,
    (forall es' k, k <> n -> Children.lookup k (f es') = Children.lookup k es') ->
    find (dir' ++ [n']) (modify dir f (entries (store st)))
    = find (dir' ++ [n']) (entries (store st))).
  { intros f Hf. replace (dir' ++ [n']) with (pre ++ a :: q) by congruence.
    now apply (find_modify_frame dir n pre a b q p f). }
  rewrite !(MemoryFacts.getEntry_below base id' dir' n' _ Hp').
  assert (Hentries : exists f,
    (forall es' k, k <> n -> Children.lookup k (f es') = Children.lookup k es')
    /\ entries (store st') = modify dir f (entries (store st))).
  { destruct Hdone as [Hw|[Hw|Hw]].
    - unfold writeDataResource, bind, arrayifyStream in Hw.
      rewrite (MemoryFacts.getParentEntry_below base id dir n st Hp) in Hw.
      destruct (descend dir (entries (store st))); try discriminate.
      destruct (failure data); [discriminate|]. cbn in Hw. injection Hw as <-.
      eexists. split; [|reflexivity]. intros es' k. apply assign_others.
    - unfold writeContainer, bind in Hw.
      rewrite (MemoryFacts.getParentEntry_below base id dir n st Hp) in Hw.
      destruct (descend dir (entries (store st))); try discriminate.
      cbn in Hw. injection Hw as <-.
      eexists. split; [|reflexivity]. intros es' k. apply assign_others.
    - unfold deleteResource, bind in Hw.
      rewrite (MemoryFacts.getParentEntry_below base id dir n st Hp) in Hw.
      destruct (descend dir (entries (store st))) as [es| |]; try discriminate.
      cbn [name parent] in Hw. destruct (Children.lookup n es); [|discriminate].
      cbn in Hw. injection Hw as <-.
      eexists. split; [|reflexivity]. intros es' k. apply remove_others. }
  destruct Hentries as (f & Hf & ->). rewrite (Hfind f Hf).
  now destruct (find (dir' ++ [n']) (entries (store st))).
Qed.

End MemoryFrame.

Lemma in_memory_changes_are_local_witness :
  exists st',
    InMemoryDataAccessor.deleteResource testBase "http://test.com/c/x" 
      (testSetRepresentation "http://test.com/d/y" (plainText ["other"]) containerWithChild)
    = Ok tt st'
    /\ exists entry,
         InMemoryDataAccessor.getEntry testBase "http://test.com/d/y" st' = Ok entry st'.
Proof.
  eexists. split; [reflexivity|].
  eexists.
  rewrite (in_memory_changes_are_local testBase "http://test.com/c/x" "http://test.com/d/y"
             [] "d" "c" ["y"] ["x"] (streamifyArray []) None
             (testSetRepresentation "http://test.com/d/y" (plainText ["other"])
                containerWithChild)
             _ eq_refl eq_refl eq_refl eq_refl ltac:(discriminate)
             (or_intror (or_intror eq_refl))).
  reflexivity.
Defined.

(* ================================================================== *)
(** * [FileDataAccessor]: metadata written, metadata read              *)
(* ================================================================== *)

Module SidecarFacts.
Import Fs.

(** What is found at the pieces of a path is what [lstat] and
    [createReadStream] see. *)
Lemma found_lstat path node fs :
  find (parts path) (Fs.root fs) = Some node ->
  Fs.lstat path fs = Ok (Fs.statsOf node) fs.
Proof.
  intros Hfind.
  destruct (list_snoc_cases (parts path)) as [Hnil|(dir & name & Hp)];
    [rewrite Hnil in Hfind; discriminate|].
  rewrite Hp, find_snoc in Hfind.
  destruct (descend dir (Fs.root fs)) as [es| |] eqn:Hd; try discriminate.
  unfold Fs.lstat. now rewrite (FsFacts.locate_of_parts path fs dir es name Hp Hd), Hfind.
Qed.

Lemma found_createReadStream path cs time fs :
  find (parts path) (Fs.root fs) = Some (Leaf {| content := Some cs; fileTime := time |}) ->
  Fs.createReadStream path fs = Fs.fileStream cs.
Proof.
  intros Hfind.
  destruct (list_snoc_cases (parts path)) as [Hnil|(dir & name & Hp)];
    [rewrite Hnil in Hfind; discriminate|].
  rewrite Hp, find_snoc in Hfind.
  destruct (descend dir (Fs.root fs)) as [es| |] eqn:Hd; try discriminate.
  unfold Fs.createReadStream.
  now rewrite (FsFacts.locate_of_parts path fs dir es name Hp Hd), Hfind.
Qed.

(** The tree a write that ends well leaves. *)
Lemma pipeToFile_root path dir name data fs fs' :
  parts path = dir ++ [name] ->
  Fs.pipeToFile path data fs = Ok tt fs' ->
  Fs.root fs'
  = modify dir (Children.assign name (Leaf {| content := Some (chunks data);
                                              fileTime := clock fs |})) (Fs.root fs)
  /\ find (dir ++ [name]) (Fs.root fs')
     = Some (Leaf {| content := Some (chunks data); fileTime := clock fs |}).
Proof.
  intros Hp. unfold Fs.pipeToFile.
  destruct (Fs.locate path fs) as [|dir' es name'|e] eqn:Hloc; try discriminate.
  destruct (FsFacts.locate_parts _ _ _ _ _ Hloc) as [Hp' Hd].
  rewrite Hp in Hp'. apply app_inj_tail in Hp' as [<- <-]. intros H.
  assert (Hfs : fs' = tick (change dir
            (Children.assign name (Leaf {| content := Some (chunks data);
                                           fileTime := clock fs |})) fs)).
  { destruct (Children.lookup name es) as [[l|ch c]|]; try discriminate;
      destruct (failure data); try discriminate; now injection H. }
  subst fs'. cbn [tick change root]. split; [reflexivity|].
  now apply (find_assigned dir name _ _ es).
Qed.

End SidecarFacts.

Section SidecarRoundTrip.
Variable mapUrlToFilePath : ResourceIdentifier -> Error + string.
Variable mapFilePathToUrl : string -> string.
Variable getContentTypeFromExtension : string -> string.
Variable parseQuads : Readable -> Error + list Quad.
Variable serializeQuads : list Quad -> Readable.
Variable toISOString : nat -> string.
Variable numberToString : nat -> string.

Local Abbreviation getMetadata :=
  (FileDataAccessor.getMetadata mapUrlToFilePath mapFilePathToUrl
     getContentTypeFromExtension parseQuads toISOString numberToString).
Local Abbreviation writeDataResource :=
  (FileDataAccessor.writeDataResource mapUrlToFilePath serializeQuads).

Variables (id : ResourceIdentifier) (folder name : string).
Variables (data : Readable) (metadata : RepresentationMetadata).
Variables (fs fs' : Fs.FileSystem).

Local Abbreviation path := (Fs.joinPath folder name).
Local Abbreviation kept := (Metadata.quads (Metadata.removeAll RDF.type metadata)).

Hypothesis mapped : mapUrlToFilePath id = inr path.
Hypothesis file_name : isSegment name = true.
Hypothesis no_slash : endsWith id "/" = false.
Hypothesis some_left : kept <> [].
Hypothesis parsed : parseQuads (Fs.fileStream (chunks (serializeQuads kept))) = inr kept.
Hypothesis written : writeDataResource id data (Some metadata) fs = Ok tt fs'.

Lemma slashFree_append (s t : string) :
  slashFree s = true -> slashFree t = true -> slashFree (s +:+ t) = true.
Proof.
  intros Hs Ht. induction s as [|c s IH]; [exact Ht|].
  cbn in *. apply andb_prop in Hs as [Hc Hs]. now rewrite Hc, IH.
Qed.

Lemma sidecar_name : isSegment (name +:+ ".meta") = true.
Proof.
  unfold isSegment. apply andb_true_intro. split.
  - destruct name; reflexivity.
  - apply slashFree_append; [now apply isSegment_slashFree | reflexivity].
Qed.

Lemma sidecar_path : FileDataAccessor.getMetadataPath path = Fs.joinPath folder (name +:+ ".meta").
Proof.
  unfold FileDataAccessor.getMetadataPath, Fs.joinPath. now rewrite !append_assoc.
Qed.

Lemma sidecar_differs : name +:+ ".meta" <> name.
Proof.
  intros H. apply (f_equal String.length) in H. rewrite length_append in H. cbn in H. lia.
Qed.

(** The two files a write with metadata leaves. *)
Lemma written_files :
  exists time time',
    find (parts path) (Fs.root fs')
    = Some (Leaf {| Fs.content := Some (chunks data); Fs.fileTime := time |})
    /\ find (parts (FileDataAccessor.getMetadataPath path)) (Fs.root fs')
       = Some (Leaf {| Fs.content := Some (chunks (serializeQuads kept));
                       Fs.fileTime := time' |}).
Proof.
  pose proof written as Hw.
  unfold FileDataAccessor.writeDataResource, bind, liftE in Hw. rewrite mapped in Hw.
  destruct (FileDataAccessor.isMetadataPath path); [discriminate|].
  unfold FileDataAccessor.writeSidecar in Hw.
  destruct kept as [|q qs] eqn:Hkept; [now elim some_left|].
  cbn [List.length Nat.ltb Nat.leb] in Hw.
  unfold FileDataAccessor.writeDataFile in Hw.
  destruct (Fs.pipeToFile (FileDataAccessor.getMetadataPath path) (serializeQuads (q :: qs)) fs)
    as [[] fs1|e fs1] eqn:Hside; [|discriminate].
  unfold tryCatch in Hw.
  destruct (Fs.pipeToFile path data fs1) as [[] fs2|e fs2] eqn:Hdata.
  2: { unfold bind in Hw. destruct (Fs.unlink _ fs2); discriminate. }
  injection Hw as <-.
  pose proof (parts_joinPath folder name file_name) as Hp.
  pose proof (parts_joinPath folder (name +:+ ".meta") sidecar_name) as Hpm.
  rewrite <- sidecar_path in Hpm.
  destruct (SidecarFacts.pipeToFile_root _ _ _ _ _ _ Hpm Hside) as [_ Hfound1].
  destruct (SidecarFacts.pipeToFile_root _ _ _ _ _ _ Hp Hdata) as [Hroot2 Hfound2].
  exists (Fs.clock fs1), (Fs.clock fs). split.
  - now rewrite Hp.
  - rewrite Hpm, Hroot2.
    rewrite (find_modify_sibling (parts folder) name (name +:+ ".meta") [] _ (Fs.root fs1)).
    + exact Hfound1.
    + intros es' k Hk. apply lookup_assign_ne. congruence.
    + exact sidecar_differs.
Qed.

(** X28. Metadata written with a file is metadata read with it: after
    [writeDataResource] with metadata that has more than types in it,
    into a file of a folder, [getMetadata] returns, under the
    identifier, the quads the metadata file was given as the parser
    reads them back, the resource type, the facts of the file system
    and the content type of the extension; the types in the metadata
    written are not kept. *)
Theorem writeDataResource_then_getMetadata :
  exists stats,
    getMetadata id fs'
    = Ok (Metadata.set CONTENT_TYPE (getContentTypeFromExtension path)
            (Metadata.addQuads
               (FileDataAccessor.generatePosixQuads toISOString numberToString id stats)
               (Metadata.addQuads (MetadataController.generateResourceQuads id false)
                  (Metadata.addQuads kept (Metadata.new id)))))
         fs'
    /\ Fs.isFile stats = true
    /\ Fs.size stats = String.length (String.concat "" (chunks data)).
Proof.
  destruct written_files as (time & time' & Hfile & Hside).
  pose proof (SidecarFacts.found_lstat _ _ _ Hfile) as Hstat.
  pose proof (SidecarFacts.found_lstat _ _ _ Hside) as Hstat'.
  pose proof (SidecarFacts.found_createReadStream _ _ _ _ Hside) as Hread.
  eexists. split; [|split].
  - unfold FileDataAccessor.getMetadata, bind, liftE. rewrite mapped.
    unfold FileDataAccessor.getStats, tryCatch. rewrite Hstat, no_slash.
    cbn [Fs.statsOf Fs.content Fs.isFile negb andb].
    unfold FileDataAccessor.getFileMetadata, FileDataAccessor.getBaseMetadata, bind.
    unfold FileDataAccessor.getRawMetadata, tryCatch, bind, liftE.
    rewrite Hstat', Hread, parsed. reflexivity.
  - reflexivity.
  - reflexivity.
Qed.

End SidecarRoundTrip.

Lemma writeDataResource_then_getMetadata_witness :
  exists fs' stats,
    FileDataAccessor.writeDataResource testMapper testSerializer
      "http://test.com/resource" (streamifyArray ["data"]) (Some likesApples) (uploads [])
    = Ok tt fs'
    /\ FileDataAccessor.getMetadata testMapper testUrl testContentType
         (fun _ => inr (Metadata.quads likesApples)) testDate testNumber
         "http://test.com/resource" fs'
       = Ok (Metadata.set CONTENT_TYPE "application/octet-stream"
               (Metadata.addQuads
                  (FileDataAccessor.generatePosixQuads testDate testNumber
                     "http://test.com/resource" stats)
                  (Metadata.addQuads
                     (MetadataController.generateResourceQuads "http://test.com/resource" false)
                     (Metadata.addQuads (Metadata.quads likesApples)
                        (Metadata.new "http://test.com/resource")))))
            fs'
    /\ Fs.size stats = 4.
Proof.
  eexists.
  edestruct (writeDataResource_then_getMetadata testMapper testUrl testContentType
               (fun _ => inr (Metadata.quads likesApples)) testSerializer testDate testNumber
               "http://test.com/resource" "uploads" "resource"
               (streamifyArray ["data"]) likesApples (uploads []))
    as (stats & Hget & _ & Hsize).
  - reflexivity.
  - reflexivity.
  - reflexivity.
  - discriminate.
  - reflexivity.
  - reflexivity.
  - exists stats. split; [reflexivity|]. split; [exact Hget | exact Hsize].
Defined.

(* ================================================================== *)
(** * The store over the in-memory accessor: a container not yet there *)
(* ================================================================== *)

Section MissingContainer.
Import InMemoryDataAccessor DataAccessorBasedStore.
Variable base : string.
Hypothesis base_normal : ensureTrailingSlash base = base.
Variable parseQuads : Readable -> Error + list Quad.
Hypothesis parse_empty : parseQuads (streamifyArray []) = inr [].
Variable uuid : nat -> string.
Variables a x : string.
Hypothesis segment_a : isSegment a = true.
Hypothesis segment_x : isSegment x = true.

Local Abbreviation getContainer := UrlContainerManager.getContainer.
Local Abbreviation container := (containerPath base [a]).


End MissingContainer.


(* ================================================================== *)
(** * The file accessor under the mapper: paths                        *)
(* ================================================================== *)

(** Under the mapper, the identifier [base + rel] is the path
    [root/ + rel]: a container is a folder, a data resource a file, and
    the names below the base are the names below the root folder. *)
Section MappedPaths.
Variables base root : string.

Local Abbreviation rootFolder := (ensureTrailingSlash root).
Local Abbreviation mapper := (ExtensionBasedMapper.mapUrlToFilePath base root).
Local Abbreviation url := (ExtensionBasedMapper.mapFilePathToUrl base root).

Lemma joinPath_root (rel : string) : Fs.joinPath root rel = rootFolder +:+ rel.
Proof. unfold Fs.joinPath, ensureTrailingSlash. now rewrite append_assoc. Qed.

Lemma mapped_container segs :
  mapper (containerPath base segs) = inr (containerPath rootFolder segs).
Proof.
  unfold ExtensionBasedMapper.mapUrlToFilePath. rewrite startsWith_containerPath.
  unfold containerPath at 1. now rewrite slice_append, joinPath_root.
Qed.

Lemma mapped_resource segs r :
  mapper (resourcePath base segs r) = inr (resourcePath rootFolder segs r).
Proof.
  unfold ExtensionBasedMapper.mapUrlToFilePath. rewrite startsWith_resourcePath.
  unfold resourcePath at 1. now rewrite slice_append, joinPath_root.
Qed.

Lemma parts_trim (s : string) : parts (trimTrailingSlashes s) = parts s.
Proof. exact (parts_slice_trim 0 s). Qed.

Lemma parts_rootFolder : parts rootFolder = parts root.
Proof. unfold ensureTrailingSlash. rewrite parts_snoc_slash. apply parts_trim. Qed.

Lemma parts_folder segs :
  forallb isSegment segs = true -> parts (containerPath rootFolder segs) = parts root ++ segs.
Proof.
  intros Hsegs. unfold containerPath, ensureTrailingSlash.
  rewrite append_assoc. change ("/" +:+ joinSegments segs) with (String slash (joinSegments segs)).
  rewrite parts_app_slash, (parts_joinSegments segs Hsegs).
  now rewrite parts_trim.
Qed.

Lemma parts_file segs r :
  forallb isSegment segs = true -> isSegment r = true ->
  parts (resourcePath rootFolder segs r) = parts root ++ segs ++ [r].
Proof.
  intros Hsegs Hr. unfold resourcePath, ensureTrailingSlash.
  rewrite append_assoc.
  change ("/" +:+ joinSegments segs +:+ r) with (String slash (joinSegments segs +:+ r)).
  rewrite parts_app_slash, (parts_joinSegments_name segs r Hsegs Hr).
  now rewrite parts_trim.
Qed.

(** The metadata file of a folder is the file [.meta] in it, the one
    of a file is the file beside it. *)
Lemma metadataPath_folder segs :
  FileDataAccessor.getMetadataPath (containerPath rootFolder segs)
  = resourcePath rootFolder segs ".meta".
Proof. unfold FileDataAccessor.getMetadataPath, containerPath, resourcePath. apply append_assoc. Qed.

Lemma metadataPath_file segs r :
  FileDataAccessor.getMetadataPath (resourcePath rootFolder segs r)
  = resourcePath rootFolder segs (r +:+ ".meta").
Proof.
  unfold FileDataAccessor.getMetadataPath, resourcePath. now rewrite !append_assoc.
Qed.

Lemma joinPath_folder segs name :
  forallb isSegment segs = true ->
  Fs.joinPath (containerPath rootFolder segs) name = resourcePath rootFolder segs name.
Proof.
  intros Hsegs. unfold Fs.joinPath.
  destruct (list_snoc_cases segs) as [->|(dir & n & ->)].
  - rewrite (containerPath_nil rootFolder). unfold ensureTrailingSlash at 1.
    rewrite trim_snoc_slash, trim_idempotent.
    unfold resourcePath, ensureTrailingSlash. cbn [joinSegments]. now rewrite !append_assoc.
  - assert (Hn : isSegment n = true).
    { rewrite forallb_app in Hsegs. apply andb_prop in Hsegs as [_ Hn]. cbn in Hn.
      now rewrite andb_true_r in Hn. }
    rewrite containerPath_snoc, trim_snoc_slash, (trim_resourcePath rootFolder dir n Hn).
    unfold resourcePath. rewrite joinSegments_app. cbn [joinSegments].
    now rewrite !append_assoc.
Qed.

(** The child of a folder is named by the container and its name. *)
Lemma url_child segs name :
  forallb isSegment segs = true ->
  url (Fs.joinPath (containerPath rootFolder segs) name) = resourcePath base segs name.
Proof.
  intros Hsegs. rewrite (joinPath_folder segs name Hsegs).
  unfold ExtensionBasedMapper.mapFilePathToUrl, resourcePath.
  now rewrite slice_append.
Qed.

End MappedPaths.

(* ================================================================== *)
(** * The file accessor: what is at a path                             *)
(* ================================================================== *)

Module PathFacts.
Import Fs.

(** A path that stops at a missing name is answered with [ENOENT]. *)
Lemma lstat_absent path pre n rest fs d :
  parts path = pre ++ n :: rest ->
  descend pre (Fs.root fs) = Reached d ->
  Children.lookup n d = None ->
  Fs.lstat path fs = Throw enoent fs.
Proof.
  intros Hp Hd Hn. unfold Fs.lstat, Fs.locate. rewrite Hp.
  destruct (pre ++ n :: rest) as [|k names] eqn:E; [now destruct pre|]. rewrite <- E.
  destruct (list_snoc_cases rest) as [->|(mid & x & ->)].
  - rewrite removelast_last, last_last, Hd, Hn. reflexivity.
  - replace (pre ++ n :: mid ++ [x]) with ((pre ++ n :: mid) ++ [x])
      by now rewrite <- app_assoc.
    rewrite removelast_last, last_last, descend_app, Hd. cbn [descend]. now rewrite Hn.
Qed.

Lemma lstat_folder path children fs :
  descend (parts path) (Fs.root fs) = Reached children ->
  exists stats,
    Fs.lstat path fs = Ok stats fs
    /\ Fs.isDirectory stats = true /\ Fs.isFile stats = false.
Proof.
  intros Hd. destruct (list_snoc_cases (parts path)) as [Hnil|(dir & n & Hp)].
  - eexists. unfold Fs.lstat, Fs.locate. rewrite Hnil. repeat split.
  - rewrite Hp in Hd. destruct (descend_find_branch dir n _ _ Hd) as [c Hfind].
    rewrite <- Hp in Hfind. eexists. rewrite (SidecarFacts.found_lstat path _ fs Hfind).
    repeat split.
Qed.

Lemma mkdir_new path dir n es fs :
  parts path = dir ++ [n] ->
  descend dir (Fs.root fs) = Reached es ->
  Children.lookup n es = None ->
  Fs.mkdir path fs
  = Ok tt (tick (change dir (Children.assign n (Branch [] (clock fs))) fs)).
Proof.
  intros Hp Hd Hn. unfold Fs.mkdir.
  now rewrite (FsFacts.locate_of_parts path fs dir es n Hp Hd), Hn.
Qed.

Lemma pipeToFile_new path dir n es data fs :
  parts path = dir ++ [n] ->
  descend dir (Fs.root fs) = Reached es ->
  match Children.lookup n es with Some (Branch _ _) => False | _ => True end ->
  failure data = None ->
  Fs.pipeToFile path data fs
  = Ok tt (tick (change dir (Children.assign n (Leaf {| content := Some (chunks data);
                                                       fileTime := clock fs |})) fs)).
Proof.
  intros Hp Hd Hn Hdata. unfold Fs.pipeToFile.
  rewrite (FsFacts.locate_of_parts path fs dir es n Hp Hd), Hdata.
  destruct (Children.lookup n es) as [[l|ch c]|]; [reflexivity | contradiction | reflexivity].
Qed.

Lemma unlink_file path dir n es l fs :
  parts path = dir ++ [n] ->
  descend dir (Fs.root fs) = Reached es ->
  Children.lookup n es = Some (Leaf l) ->
  Fs.unlink path fs = Ok tt (change dir (Children.remove n) fs).
Proof.
  intros Hp Hd Hn. unfold Fs.unlink.
  now rewrite (FsFacts.locate_of_parts path fs dir es n Hp Hd), Hn.
Qed.

Lemma unlink_absent path dir n es fs :
  parts path = dir ++ [n] ->
  descend dir (Fs.root fs) = Reached es ->
  Children.lookup n es = None ->
  Fs.unlink path fs = Throw enoent fs.
Proof.
  intros Hp Hd Hn. unfold Fs.unlink.
  now rewrite (FsFacts.locate_of_parts path fs dir es n Hp Hd), Hn.
Qed.

Lemma rmdir_empty path dir n es c fs :
  parts path = dir ++ [n] ->
  descend dir (Fs.root fs) = Reached es ->
  Children.lookup n es = Some (Branch [] c) ->
  Fs.rmdir path fs = Ok tt (change dir (Children.remove n) fs).
Proof.
  intros Hp Hd Hn. unfold Fs.rmdir.
  now rewrite (FsFacts.locate_of_parts path fs dir es n Hp Hd), Hn.
Qed.

Lemma rmdir_not_empty path dir n es child children c fs :
  parts path = dir ++ [n] ->
  descend dir (Fs.root fs) = Reached es ->
  Children.lookup n es = Some (Branch (child :: children) c) ->
  Fs.rmdir path fs = Throw (SystemError "ENOTEMPTY") fs.
Proof.
  intros Hp Hd Hn. unfold Fs.rmdir.
  now rewrite (FsFacts.locate_of_parts path fs dir es n Hp Hd), Hn.
Qed.

Lemma createReadStream_file path cs time fs :
  find (parts path) (Fs.root fs) = Some (Leaf {| content := Some cs; fileTime := time |}) ->
  Fs.createReadStream path fs = fileStream cs.
Proof. apply SidecarFacts.found_createReadStream. Qed.

End PathFacts.

(* ================================================================== *)
(** * The file accessor under the mapper: reading                      *)
(* ================================================================== *)

Section KeysOfChildren.
Context {L C : Type}.
Implicit Types es : Entries L C.

Lemma keys_assign_present n (v w : Tree L C) es :
  Children.lookup n es = Some w -> map fst (Children.assign n v es) = map fst es.
Proof.
  induction es as [|[k u] es IH]; [discriminate|]. cbn.
  destruct (String.eqb_spec k n) as [->|Hne]; [reflexivity|].
  intros H. cbn. now rewrite (IH H).
Qed.

Lemma keys_assign_absent n (v : Tree L C) es :
  Children.lookup n es = None -> map fst (Children.assign n v es) = map fst es ++ [n].
Proof.
  induction es as [|[k u] es IH]; [reflexivity|]. cbn.
  destruct (String.eqb_spec k n) as [->|Hne]; [discriminate|].
  intros H. cbn. now rewrite (IH H).
Qed.

(** A change below a child keeps the names of the children. *)
Lemma keys_modify n rest (f : Entries L C -> Entries L C) es :
  map fst (modify (n :: rest) f es) = map fst es.
Proof.
  cbn [modify]. destruct (Children.lookup n es) as [[l|ch c]|] eqn:E; try reflexivity.
  exact (keys_assign_present n _ _ es E).
Qed.

Lemma keys_modify_below names n rest (f : Entries L C -> Entries L C) es d :
  descend names es = Reached d ->
  exists d',
    descend names (modify (names ++ n :: rest) f es) = Reached d'
    /\ map fst d' = map fst d.
Proof.
  intros Hd. exists (modify (n :: rest) f d). split.
  - now apply descend_modify_below.
  - apply keys_modify.
Qed.

Lemma lookup_not_key n es : ~ In n (map fst es) -> Children.lookup n es = None.
Proof.
  induction es as [|[k u] es IH]; [reflexivity|]. cbn. intros H.
  destruct (String.eqb_spec k n) as [->|Hne]; [elim H; now left|].
  apply IH. intros Hin. apply H. now right.
Qed.

Lemma keys_forallb (P : string -> bool) es :
  forallb (fun kv : string * Tree L C => P (fst kv)) es = forallb P (map fst es).
Proof. induction es as [|[k u] es IH]; [reflexivity|]. cbn. now rewrite IH. Qed.

End KeysOfChildren.

Section MetadataNames.

Lemma endsWith_below_slash (t r suffix : string) :
  slashFree suffix = true -> suffix <> "" ->
  endsWith (t +:+ "/" +:+ r) suffix = endsWith ("/" +:+ r) suffix.
Proof.
  intros Hfree Hne. induction t as [|ch t IH]; [reflexivity|].
  change (String ch t +:+ "/" +:+ r) with (String ch (t +:+ "/" +:+ r)).
  change (endsWith (String ch (t +:+ "/" +:+ r)) suffix)
    with ((String ch (t +:+ "/" +:+ r) =? suffix) || endsWith (t +:+ "/" +:+ r) suffix).
  rewrite IH.
  destruct (String.eqb_spec (String ch (t +:+ "/" +:+ r)) suffix) as [Heq|_]; [|reflexivity].
  exfalso. rewrite <- Heq in Hfree. clear -Hfree.
  cbn in Hfree. apply andb_prop in Hfree as [_ Hfree].
  induction t as [|d t IH]; cbn in Hfree; [discriminate|].
  apply andb_prop in Hfree as [_ Hfree]. now apply IH.
Qed.

(** A path is a metadata path when its last name is the name of a
    metadata file. *)
Lemma isMetadataPath_resourcePath folder segs r :
  endsWith folder "/" = true ->
  FileDataAccessor.isMetadataPath (resourcePath folder segs r)
  = FileDataAccessor.isMetadataPath r.
Proof.
  intros Hfolder. unfold FileDataAccessor.isMetadataPath.
  assert (Hslash : exists t, folder +:+ joinSegments segs = t +:+ "/").
  { destruct (list_snoc_cases segs) as [->|(dir & n & ->)].
    - cbn [joinSegments]. rewrite append_nil_r.
      clear -Hfolder. induction folder as [|ch s IH]; [discriminate|].
      change (endsWith (String ch s) "/") with ((String ch s =? "/") || endsWith s "/") in Hfolder.
      apply orb_prop in Hfolder as [Heq|Hrest].
      + apply String.eqb_eq in Heq. rewrite Heq. now exists "".
      + destruct (IH Hrest) as [t Ht]. exists (String ch t). cbn. now rewrite Ht.
    - rewrite joinSegments_app. cbn [joinSegments]. rewrite append_nil_r.
      exists (folder +:+ joinSegments dir +:+ n). now rewrite !append_assoc. }
  destruct Hslash as [t Ht]. unfold resourcePath. rewrite <- append_assoc, Ht, append_assoc.
  rewrite endsWith_below_slash; [|reflexivity|discriminate].
  cbn [append endsWith]. reflexivity.
Qed.

Lemma metadata_name_differs (r : string) : r +:+ ".meta" <> r.
Proof.
  intros H. apply (f_equal String.length) in H. rewrite length_append in H. cbn in H. lia.
Qed.

Lemma metadata_name_segment (r : string) : isSegment r = true -> isSegment (r +:+ ".meta") = true.
Proof.
  intros Hr. unfold isSegment. apply andb_true_intro. split.
  - destruct r; reflexivity.
  - pose proof (isSegment_slashFree r Hr) as Hfree. clear Hr.
    induction r as [|ch r IH]; [reflexivity|].
    cbn in *. apply andb_prop in Hfree as [Hc Hfree]. now rewrite Hc, IH.
Qed.

Lemma metadata_name_not_dot (r : string) : r <> "" -> r +:+ ".meta" <> ".meta".
Proof.
  intros Hne H. apply (f_equal String.length) in H. rewrite length_append in H.
  destruct r; [now elim Hne | cbn in H; lia].
Qed.

Lemma not_metadata_name (r : string) : FileDataAccessor.isMetadataPath r = false -> r <> ".meta".
Proof. intros H ->. discriminate. Qed.

End MetadataNames.

Section FileReading.
Variables base root : string.
Hypothesis base_normal : ensureTrailingSlash base = base.
Variable getContentTypeFromExtension : string -> string.
Variable parseQuads : Readable -> Error + list Quad.
Variable toISOString : nat -> string.
Variable numberToString : nat -> string.

Local Abbreviation rootFolder := (ensureTrailingSlash root).
Local Abbreviation mapper := (ExtensionBasedMapper.mapUrlToFilePath base root).
Local Abbreviation url := (ExtensionBasedMapper.mapFilePathToUrl base root).
Local Abbreviation getData := (FileDataAccessor.getData mapper).
Local Abbreviation getMetadata :=
  (FileDataAccessor.getMetadata mapper url getContentTypeFromExtension parseQuads
     toISOString numberToString).
Local Abbreviation getNormalizedMetadata :=
  (FileDataAccessor.getNormalizedMetadata mapper url getContentTypeFromExtension parseQuads
     toISOString numberToString).
Local Abbreviation getRawMetadata := (FileDataAccessor.getRawMetadata parseQuads).
Local Abbreviation childMetadata :=
  (FileDataAccessor.childMetadata url toISOString numberToString).

Lemma getStats_absent path fs :
  Fs.lstat path fs = Throw Fs.enoent fs ->
  FileDataAccessor.getStats path fs = Throw NotFoundHttpError fs.
Proof. intros H. unfold FileDataAccessor.getStats, tryCatch. now rewrite H. Qed.

(** Nothing is at an identifier whose path stops at a missing name,
    with or without a trailing slash. *)
Lemma files_nothing_at segs n pre k rest d fs :
  forallb isSegment (segs ++ [n]) = true ->
  parts root ++ segs ++ [n] = pre ++ k :: rest ->
  descend pre (Fs.root fs) = Reached d ->
  Children.lookup k d = None ->
  getNormalizedMetadata (containerPath base (segs ++ [n])) fs = Throw NotFoundHttpError fs
  /\ getNormalizedMetadata (resourcePath base segs n) fs = Throw NotFoundHttpError fs
  /\ getData (resourcePath base segs n) fs = Throw NotFoundHttpError fs.
Proof.
  intros Hsegs Hparts Hd Hk.
  assert (Hn : isSegment n = true).
  { rewrite forallb_app in Hsegs. apply andb_prop in Hsegs as [_ Hn]. cbn in Hn.
    now rewrite andb_true_r in Hn. }
  assert (Hdirs : forallb isSegment segs = true).
  { rewrite forallb_app in Hsegs. now apply andb_prop in Hsegs as [Hs _]. }
  assert (Hfolder : Fs.lstat (containerPath rootFolder (segs ++ [n])) fs = Throw Fs.enoent fs).
  { apply (PathFacts.lstat_absent _ pre k rest fs d); [|exact Hd|exact Hk].
    now rewrite (parts_folder root _ Hsegs). }
  assert (Hfile : Fs.lstat (resourcePath rootFolder segs n) fs = Throw Fs.enoent fs).
  { apply (PathFacts.lstat_absent _ pre k rest fs d); [|exact Hd|exact Hk].
    now rewrite (parts_file root _ _ Hdirs Hn). }
  assert (Hc : getMetadata (containerPath base (segs ++ [n])) fs = Throw NotFoundHttpError fs).
  { unfold FileDataAccessor.getMetadata, bind, liftE. rewrite mapped_container.
    now rewrite (getStats_absent _ _ Hfolder). }
  assert (Hr : getMetadata (resourcePath base segs n) fs = Throw NotFoundHttpError fs).
  { unfold FileDataAccessor.getMetadata, bind, liftE. rewrite mapped_resource.
    now rewrite (getStats_absent _ _ Hfile). }
  split; [|split].
  - unfold FileDataAccessor.getNormalizedMetadata, NormalizedDataAccessor.getNormalizedMetadata,
      tryCatch.
    rewrite Hc. cbn [isNotFound]. rewrite (endsWith_containerPath base base_normal).
    now rewrite (trim_containerPath_snoc base segs n Hn).
  - unfold FileDataAccessor.getNormalizedMetadata, NormalizedDataAccessor.getNormalizedMetadata,
      tryCatch.
    rewrite Hr. cbn [isNotFound]. rewrite (endsWith_resourcePath base segs n Hn).
    now rewrite (ensure_resourcePath base segs n Hn).
  - unfold FileDataAccessor.getData, bind, liftE. rewrite mapped_resource.
    now rewrite (getStats_absent _ _ Hfile).
Qed.

(** A folder without a metadata file has no metadata of its own. *)
Lemma getRawMetadata_folder segs children fs :
  forallb isSegment segs = true ->
  descend (parts root ++ segs) (Fs.root fs) = Reached children ->
  ~ In ".meta" (map fst children) ->
  getRawMetadata (containerPath rootFolder segs) fs = Ok [] fs.
Proof.
  intros Hsegs Hd Hnone. unfold FileDataAccessor.getRawMetadata, tryCatch, bind.
  rewrite metadataPath_folder.
  rewrite (PathFacts.lstat_absent _ (parts root ++ segs) ".meta" [] fs children).
  - reflexivity.
  - rewrite (parts_file root segs ".meta" Hsegs eq_refl). now rewrite app_assoc.
  - exact Hd.
  - now apply lookup_not_key.
Qed.

Lemma filter_no_edges subj qs :
  Forall (fun q => predicate q <> LDP.contains) qs ->
  filter (fun q => (subject q =? subj) && (predicate q =? LDP.contains)) qs = [].
Proof.
  induction 1 as [|q qs Hq _ IH]; [reflexivity|]. cbn [filter].
  apply String.eqb_neq in Hq. now rewrite Hq, andb_false_r.
Qed.

Lemma resourceQuads_no_edges subj isContainer :
  Forall (fun q => predicate q <> LDP.contains)
         (MetadataController.generateResourceQuads subj isContainer).
Proof.
  destruct isContainer; repeat constructor; cbn; apply String.eqb_neq; reflexivity.
Qed.

Lemma posixQuads_no_edges subj stats :
  Forall (fun q => predicate q <> LDP.contains)
         (FileDataAccessor.generatePosixQuads toISOString numberToString subj stats).
Proof. repeat constructor; cbn; apply String.eqb_neq; reflexivity. Qed.

(** The quads about the children hold no containment triple. *)
Lemma childMetadata_no_edges path files :
  forall quads childURIs found fs fs',
    childMetadata path files quads childURIs fs = Ok found fs' ->
    Forall (fun q => predicate q <> LDP.contains) quads ->
    Forall (fun q => predicate q <> LDP.contains) (fst found).
Proof.
  induction files as [|name files IH]; intros quads childURIs found fs fs';
    cbn [FileDataAccessor.childMetadata].
  - intros H Hq. injection H as <- _. exact Hq.
  - destruct (FileDataAccessor.isMetadataPath name); [apply IH|].
    unfold bind. destruct (Fs.lstat (Fs.joinPath path name) fs) as [stats fs1|e fs1];
      [|discriminate].
    destruct (negb (Fs.isFile stats) && negb (Fs.isDirectory stats)); [apply IH|].
    intros H Hq. apply (IH _ _ _ _ _ H).
    apply Forall_app. split; [exact Hq|].
    apply Forall_app. split; [apply resourceQuads_no_edges | apply posixQuads_no_edges].
Qed.

(** What [getMetadata] returns for a folder: metadata under the
    identifier of the container, with the container types, whose
    containment triples are those of the metadata file followed by the
    children the folder lists. *)
Lemma getMetadata_folder segs children raw fs :
  forallb isSegment segs = true ->
  descend (parts root ++ segs) (Fs.root fs) = Reached children ->
  forallb isSegment (map fst children) = true ->
  getRawMetadata (containerPath rootFolder segs) fs = Ok raw fs ->
  exists md,
    getMetadata (containerPath base segs) fs = Ok md fs
    /\ Metadata.identifier md = containerPath base segs
    /\ DataAccessorBasedStore.isExistingContainer md = inr true
    /\ Metadata.getAll LDP.contains md
       = Metadata.getAll LDP.contains
           (Metadata.addQuads raw (Metadata.new (containerPath base segs)))
         ++ listedChildren url (containerPath rootFolder segs) children.
Proof.
  intros Hsegs Hd Hkeys Hraw.
  pose proof (parts_folder root segs Hsegs) as Hparts.
  assert (Hd' : descend (parts (containerPath rootFolder segs)) (Fs.root fs) = Reached children)
    by now rewrite Hparts.
  destruct (PathFacts.lstat_folder _ _ _ Hd') as (stats & Hstat & Hdir & Hfile).
  destruct (childMetadata_listed url toISOString numberToString _ _ _ Hd' (map fst children))
    with (quads := @nil Quad) (childURIs := @nil string) as [quads Hq].
  { intros name Hin. split; [|now apply lookup_key].
    rewrite forallb_forall in Hkeys. exact (Hkeys _ Hin). }
  pose proof (childMetadata_no_edges _ _ _ _ _ _ _ Hq (Forall_nil _)) as Hnone.
  cbn [fst] in Hnone.
  eexists. split; [|split; [|split]].
  - unfold FileDataAccessor.getMetadata, bind, liftE. rewrite mapped_container.
    unfold FileDataAccessor.getStats, tryCatch. rewrite Hstat.
    rewrite (endsWith_containerPath base base_normal), Hdir. cbn [negb andb].
    unfold FileDataAccessor.getDirectoryMetadata, FileDataAccessor.getBaseMetadata, bind.
    rewrite Hraw. unfold ret at 1.
    unfold FileDataAccessor.getChildMetadataQuads, bind.
    rewrite (readdir_folder _ _ _ Hd'), Hq. reflexivity.
  - reflexivity.
  - apply isExistingContainer_container.
    apply getAll_addQuads_old. apply getAll_addQuads_old.
    now apply (getAll_addQuads_types (containerPath base segs) true).
  - rewrite !getAll_addQuads. cbn [Metadata.identifier Metadata.addQuads Metadata.new fst snd].
    rewrite filter_app, map_app.
    rewrite (filter_no_edges _ _ (resourceQuads_no_edges _ true)).
    rewrite (filter_no_edges _ _ (posixQuads_no_edges _ stats)).
    rewrite (filter_no_edges _ _ Hnone).
    rewrite getAll_contains_edges. cbn [map app]. rewrite !app_nil_r.
    unfold Metadata.getAll at 1. reflexivity.
Qed.

(** A file is read as the bytes it holds. *)
Lemma getData_file segs r cs time fs :
  forallb isSegment segs = true -> isSegment r = true ->
  find (parts root ++ segs ++ [r]) (Fs.root fs)
  = Some (Leaf {| Fs.content := Some cs; Fs.fileTime := time |}) ->
  getData (resourcePath base segs r) fs = Ok (Fs.fileStream cs) fs.
Proof.
  intros Hsegs Hr Hfind. rewrite <- (parts_file root segs r Hsegs Hr) in Hfind.
  unfold FileDataAccessor.getData, bind, liftE. rewrite mapped_resource.
  unfold FileDataAccessor.getStats, tryCatch.
  rewrite (SidecarFacts.found_lstat _ _ _ Hfind).
  cbn [Fs.statsOf Fs.content Fs.isFile].
  now rewrite (PathFacts.createReadStream_file _ _ _ _ Hfind).
Qed.

End FileReading.

(* ================================================================== *)
(** * Both accessors: [getNormalizedMetadata] and [deleteResource]     *)
(* ================================================================== *)

Lemma isFileName_segment (name : string) : Fs.isFileName name = true -> isSegment name = true.
Proof.
  unfold Fs.isFileName. intros H. apply andb_prop in H as [H _].
  now apply andb_prop in H as [H _].
Qed.

Lemma isFileName_segments (names : list string) :
  forallb Fs.isFileName names = true -> forallb isSegment names = true.
Proof.
  induction names as [|n names IH]; [reflexivity|]. cbn. intros H.
  apply andb_prop in H as [Hn H]. now rewrite (isFileName_segment n Hn), IH.
Qed.

Lemma described_toggle (id : ResourceIdentifier) :
  Described.toggleTrailingSlash id = NormalizedDataAccessor.toggled id.
Proof.
  unfold Described.toggleTrailingSlash, NormalizedDataAccessor.toggled.
  destruct (endsWith id "/") eqn:E; [reflexivity|].
  unfold ensureTrailingSlash. now rewrite (trim_no_slash id E).
Qed.

(** The shared algorithm does what its description says, whatever
    [getMetadata] it is given. *)
Lemma getNormalizedMetadata_described {S : Type}
    (getMetadata : ResourceIdentifier -> Async S RepresentationMetadata) id s :
  NormalizedDataAccessor.getNormalizedMetadata getMetadata id s
  = Described.getNormalizedMetadata getMetadata id s.
Proof.
  unfold NormalizedDataAccessor.getNormalizedMetadata, Described.getNormalizedMetadata, tryCatch.
  destruct (getMetadata id s) as [md s'|e s']; [reflexivity|].
  destruct e; try reflexivity. cbn [isNotFound]. rewrite described_toggle. reflexivity.
Qed.





(* ================================================================== *)
(** * The store: deleting, over any accessor and over files            *)
(* ================================================================== *)

Section StoreDeletes.
Context {S R : Type}.
Variable accessor : DataAccessor S R.
Variable base : string.
Hypothesis base_normal : ensureTrailingSlash base = base.

Local Abbreviation storeDelete := (DataAccessorBasedStore.deleteResource accessor base).

Lemma storeDelete_root s : storeDelete base s = Throw MethodNotAllowedHttpError s.
Proof.
  unfold DataAccessorBasedStore.deleteResource, DataAccessorBasedStore.validateIdentifier, bind.
  rewrite startsWith_refl. cbn [negb ret]. now rewrite base_normal, String.eqb_refl.
Qed.

(** Below the root, the store asks for the metadata and looks at its
    containment triples. *)
Lemma storeDelete_below id md s s' :
  startsWith id base = true ->
  ensureTrailingSlash id <> base ->
  DataAccessor.getMetadata id s = Ok md s' ->
  storeDelete id s
  = match Metadata.getAll LDP.contains md with
    | [] => DataAccessor.deleteResource id s'
    | _ :: _ => Throw ConflictHttpError s'
    end.
Proof.
  intros Hstarts Hroot Hget.
  unfold DataAccessorBasedStore.deleteResource, DataAccessorBasedStore.validateIdentifier, bind.
  rewrite Hstarts. cbn [negb ret].
  destruct (String.eqb_spec (ensureTrailingSlash id) base) as [Heq|_]; [contradiction|].
  rewrite Hget. now destruct (Metadata.getAll LDP.contains md).
Qed.

End StoreDeletes.

Section FileDeletes.
Variables base root : string.
Hypothesis base_normal : ensureTrailingSlash base = base.
Variable getContentTypeFromExtension : string -> string.
Variable parseQuads : Readable -> Error + list Quad.
Variable serializeQuads : list Quad -> Readable.
Variable toISOString : nat -> string.
Variable numberToString : nat -> string.

Local Abbreviation rootFolder := (ensureTrailingSlash root).
Local Abbreviation mapper := (ExtensionBasedMapper.mapUrlToFilePath base root).
Local Abbreviation url := (ExtensionBasedMapper.mapFilePathToUrl base root).
Local Abbreviation files :=
  (FileDataAccessor.accessor mapper url getContentTypeFromExtension parseQuads serializeQuads
     toISOString numberToString).
Local Abbreviation getMetadata :=
  (FileDataAccessor.getMetadata mapper url getContentTypeFromExtension parseQuads
     toISOString numberToString).
Local Abbreviation storeDelete := (DataAccessorBasedStore.deleteResource files base).

(** What [getMetadata] returns for a regular file without a metadata
    file: no containment triple. *)
Lemma getMetadata_file segs r children cs time fs :
  forallb isSegment segs = true -> isSegment r = true ->
  descend (parts root ++ segs) (Fs.root fs) = Reached children ->
  Children.lookup r children = Some (Leaf {| Fs.content := Some cs; Fs.fileTime := time |}) ->
  ~ In (r +:+ ".meta") (map fst children) ->
  exists md,
    getMetadata (resourcePath base segs r) fs = Ok md fs
    /\ Metadata.identifier md = resourcePath base segs r
    /\ Metadata.getAll LDP.contains md = [].
Proof.
  intros Hsegs Hr Hd Hfile Hnone.
  assert (Hfind : find (parts (resourcePath rootFolder segs r)) (Fs.root fs)
                  = Some (Leaf {| Fs.content := Some cs; Fs.fileTime := time |})).
  { rewrite (parts_file root segs r Hsegs Hr), app_assoc, find_snoc, Hd. exact Hfile. }
  assert (Hraw : FileDataAccessor.getRawMetadata parseQuads (resourcePath rootFolder segs r) fs
                 = Ok [] fs).
  { unfold FileDataAccessor.getRawMetadata, tryCatch, bind. rewrite metadataPath_file.
    rewrite (PathFacts.lstat_absent _ (parts root ++ segs) (r +:+ ".meta") [] fs children).
    - reflexivity.
    - rewrite (parts_file root segs _ Hsegs (metadata_name_segment r Hr)).
      now rewrite app_assoc.
    - exact Hd.
    - now apply lookup_not_key. }
  eexists. split; [|split].
  - unfold FileDataAccessor.getMetadata, bind, liftE. rewrite mapped_resource.
    unfold FileDataAccessor.getStats, tryCatch.
    rewrite (SidecarFacts.found_lstat _ _ _ Hfind).
    rewrite (endsWith_resourcePath base segs r Hr).
    cbn [Fs.statsOf Fs.content Fs.isFile negb andb].
    unfold FileDataAccessor.getFileMetadata, FileDataAccessor.getBaseMetadata, bind.
    rewrite Hraw. reflexivity.
  - reflexivity.
  - rewrite getAll_set_other by (apply String.eqb_neq; reflexivity).
    rewrite !getAll_addQuads. cbn [Metadata.identifier Metadata.addQuads Metadata.new].
    rewrite (filter_no_edges _ _ (resourceQuads_no_edges _ false)).
    rewrite (filter_no_edges _ _ (posixQuads_no_edges toISOString numberToString _ _)).
    reflexivity.
Qed.

(** The accessor's [deleteResource] on a regular file that has no
    metadata file. *)
Lemma deleteResource_file segs r children l fs :
  forallb isSegment segs = true -> isSegment r = true ->
  descend (parts root ++ segs) (Fs.root fs) = Reached children ->
  Children.lookup r children = Some (Leaf l) ->
  Fs.content l <> None ->
  ~ In (r +:+ ".meta") (map fst children) ->
  FileDataAccessor.deleteResource mapper (resourcePath base segs r) fs
  = Ok tt (Fs.change (parts root ++ segs) (Children.remove r) fs).
Proof.
  intros Hsegs Hr Hd Hfile Hregular Hnone.
  pose proof (parts_file root segs r Hsegs Hr) as Hparts. rewrite app_assoc in Hparts.
  assert (Hfind : find (parts (resourcePath rootFolder segs r)) (Fs.root fs) = Some (Leaf l))
    by now rewrite Hparts, find_snoc, Hd.
  unfold FileDataAccessor.deleteResource, bind, liftE. rewrite mapped_resource.
  unfold FileDataAccessor.getStats, tryCatch at 1.
  rewrite (SidecarFacts.found_lstat _ _ _ Hfind).
  unfold tryCatch. rewrite metadataPath_file.
  rewrite (PathFacts.unlink_absent _ (parts root ++ segs) (r +:+ ".meta") children fs).
  - cbn [hasCode Fs.enoent String.eqb Ascii.eqb Bool.eqb negb ret].
    rewrite (endsWith_resourcePath base segs r Hr).
    destruct l as [[cs|] time]; [|now elim Hregular].
    cbn [Fs.statsOf Fs.content Fs.isFile negb andb].
    exact (PathFacts.unlink_file _ _ r children _ fs Hparts Hd Hfile).
  - rewrite (parts_file root segs _ Hsegs (metadata_name_segment r Hr)).
    now rewrite app_assoc.
  - exact Hd.
  - now apply lookup_not_key.
Qed.

(** The accessor's [deleteResource] on an empty folder. *)
Lemma deleteResource_folder dir n es c fs :
  forallb isSegment (dir ++ [n]) = true ->
  descend (parts root ++ dir) (Fs.root fs) = Reached es ->
  Children.lookup n es = Some (Branch [] c) ->
  FileDataAccessor.deleteResource mapper (containerPath base (dir ++ [n])) fs
  = Ok tt (Fs.change (parts root ++ dir) (Children.remove n) fs).
Proof.
  intros Hsegs Hd Hfolder.
  pose proof (parts_folder root (dir ++ [n]) Hsegs) as Hparts. rewrite app_assoc in Hparts.
  assert (Hinside : descend ((parts root ++ dir) ++ [n]) (Fs.root fs) = Reached []).
  { rewrite descend_app, Hd. cbn [descend]. now rewrite Hfolder. }
  assert (Hfind : find (parts (containerPath rootFolder (dir ++ [n]))) (Fs.root fs)
                  = Some (Branch [] c))
    by now rewrite Hparts, find_snoc, Hd.
  unfold FileDataAccessor.deleteResource, bind, liftE. rewrite mapped_container.
  unfold FileDataAccessor.getStats, tryCatch at 1.
  rewrite (SidecarFacts.found_lstat _ _ _ Hfind).
  unfold tryCatch. rewrite metadataPath_folder.
  rewrite (PathFacts.unlink_absent _ ((parts root ++ dir) ++ [n]) ".meta" [] fs).
  - cbn [hasCode Fs.enoent String.eqb Ascii.eqb Bool.eqb negb ret].
    rewrite (endsWith_containerPath base base_normal).
    cbn [Fs.statsOf Fs.isFile Fs.isDirectory negb andb].
    exact (PathFacts.rmdir_empty _ _ n es c fs Hparts Hd Hfolder).
  - rewrite (parts_file root (dir ++ [n]) ".meta" Hsegs eq_refl).
    now rewrite !app_assoc.
  - exact Hinside.
  - reflexivity.
Qed.

Lemma resourcePath_not_base segs r :
  forallb isSegment segs = true -> isSegment r = true ->
  ensureTrailingSlash (resourcePath base segs r) <> base.
Proof.
  intros Hsegs Hr. rewrite (ensure_resourcePath base segs r Hr).
  apply containerPath_not_base; [|now destruct segs].
  rewrite forallb_app, Hsegs. cbn. now rewrite Hr.
Qed.

(** Over files: a folder that holds one regular file and nothing else
    can be deleted once the file has been. *)
Lemma store_deleteResource_files dir n x l fs :
  forallb isSegment (dir ++ [n]) = true -> isSegment x = true ->
  FileDataAccessor.isMetadataPath x = false ->
  descend (parts root ++ dir ++ [n]) (Fs.root fs) = Reached [(x, Leaf l)] ->
  Fs.content l <> None ->
  exists fs' fs'',
    storeDelete (resourcePath base (dir ++ [n]) x) fs = Ok tt fs'
    /\ storeDelete (containerPath base (dir ++ [n])) fs' = Ok tt fs''
    /\ getMetadata (containerPath base (dir ++ [n])) fs'' = Throw NotFoundHttpError fs''.
Proof.
  intros Hsegs Hx Hmeta Hd Hregular.
  assert (Hxm : ~ In (x +:+ ".meta") (map fst [(x, @Leaf Fs.File nat l)])).
  { intros [H|[]]. cbn in H. symmetry in H. now apply metadata_name_differs in H. }
  assert (Hlook : Children.lookup x [(x, @Leaf Fs.File nat l)] = Some (Leaf l))
    by (cbn; now rewrite String.eqb_refl).
  (* the child *)
  destruct l as [[cs|] time]; [|now elim Hregular].
  destruct (getMetadata_file (dir ++ [n]) x _ cs time fs Hsegs Hx Hd Hlook Hxm)
    as (md & Hget & _ & Hnone).
  pose proof (deleteResource_file (dir ++ [n]) x _ _ fs Hsegs Hx Hd Hlook Hregular Hxm) as Hdel.
  set (fs' := Fs.change (parts root ++ dir ++ [n]) (Children.remove x) fs) in *.
  assert (Hd' : descend (parts root ++ dir ++ [n]) (Fs.root fs') = Reached []).
  { unfold fs', Fs.change. cbn [Fs.root].
    rewrite (descend_modify _ (Children.remove x) _ _ Hd). cbn. now rewrite String.eqb_refl. }
  (* the folder, now empty *)
  destruct (getMetadata_folder base root base_normal getContentTypeFromExtension parseQuads
              toISOString numberToString (dir ++ [n]) [] [] fs' Hsegs Hd' eq_refl)
    as (md' & Hget' & _ & _ & Hnone').
  { apply (getRawMetadata_folder root parseQuads (dir ++ [n]) [] fs' Hsegs Hd'). intros []. }
  rewrite app_assoc in Hd'.
  destruct (descend_find_branch _ _ _ _ Hd') as [c Hfind].
  rewrite find_snoc in Hfind.
  destruct (descend (parts root ++ dir) (Fs.root fs')) as [es| |] eqn:Hparent; try discriminate.
  pose proof (deleteResource_folder dir n es c fs' Hsegs Hparent Hfind) as Hdel'.
  exists fs', (Fs.change (parts root ++ dir) (Children.remove n) fs').
  split; [|split].
  - rewrite (storeDelete_below files base _ md fs fs); [now rewrite Hnone| |now apply resourcePath_not_base|exact Hget].
    apply startsWith_resourcePath.
  - rewrite (storeDelete_below files base _ md' fs' fs'); [|apply startsWith_containerPath| |exact Hget'].
    + rewrite Hnone'. cbn [Metadata.getAll Metadata.addQuads Metadata.new Metadata.quads
                            filter map app listedChildren flat_map]. exact Hdel'.
    + rewrite (ensure_containerPath base base_normal _ Hsegs).
      apply containerPath_not_base; [exact Hsegs | now destruct dir].
  - unfold FileDataAccessor.getMetadata, bind, liftE. rewrite mapped_container.
    rewrite getStats_absent; [reflexivity|].
    apply (PathFacts.lstat_absent _ (parts root ++ dir) n [] _ (Children.remove n es)).
    + rewrite (parts_folder root _ Hsegs). now rewrite app_assoc.
    + cbn [Fs.change Fs.root]. now apply descend_modify.
    + apply lookup_remove_eq.
Qed.

End FileDeletes.




(* ================================================================== *)
(** * The store over the file accessor: writing                        *)
(* ================================================================== *)

Section StoreRounds.
Context {S R : Type}.
Variable accessor : DataAccessor S R.
Variable parseQuads : Readable -> Error + list Quad.

Local Abbreviation getContainer := UrlContainerManager.getContainer.
Local Abbreviation createRecursiveContainers :=
  (DataAccessorBasedStore.createRecursiveContainers accessor parseQuads getContainer).
Local Abbreviation writeDataUsing :=
  (DataAccessorBasedStore.writeDataUsing accessor parseQuads getContainer).

(** A round that finds nothing goes on with the parent, whatever the
    accessor. *)
Lemma createRecursiveContainers_absent fuel id s :
  DataAccessor.getNormalizedMetadata id s = Throw NotFoundHttpError s ->
  createRecursiveContainers (Datatypes.S fuel) id s
  = andThen (andThen (done (liftE (getContainer id))) (createRecursiveContainers fuel))
      (fun _ => writeDataUsing (createRecursiveContainers fuel) id
                  (DataAccessorBasedStore.getEmptyContainerRepresentation id) true false)
      s.
Proof.
  intros H. cbn [DataAccessorBasedStore.createRecursiveContainers].
  unfold rescue at 1. unfold done at 1. unfold bind at 1. now rewrite H.
Qed.

(** The metadata the store hands over for an empty container holds
    nothing but its types. *)
Lemma emptyContainer_only_types id :
  Metadata.quads
    (Metadata.removeAll RDF.type
       (Metadata.addQuads (MetadataController.generateResourceQuads id true)
          (Metadata.setIdentifier id
             (Metadata.addQuads []
                (Metadata.removeAll CONTENT_TYPE (Metadata.new id))))))
  = [].
Proof.
  unfold Metadata.removeAll, Metadata.about.
  cbn [Metadata.quads Metadata.identifier Metadata.addQuads Metadata.setIdentifier
       Metadata.new Metadata.removeAll filter map app
       MetadataController.generateResourceQuads MetadataController.typeQuad
       subject predicate].
  now rewrite !String.eqb_refl.
Qed.

End StoreRounds.

Section FileWriting.
Variables base root : string.
Hypothesis base_normal : ensureTrailingSlash base = base.
Variable getContentTypeFromExtension : string -> string.
Variable parseQuads : Readable -> Error + list Quad.
Variable serializeQuads : list Quad -> Readable.
Variable toISOString : nat -> string.
Variable numberToString : nat -> string.
Hypothesis serializes : forall quads, failure (serializeQuads quads) = None.

Local Abbreviation rootFolder := (ensureTrailingSlash root).
Local Abbreviation mapper := (ExtensionBasedMapper.mapUrlToFilePath base root).
Local Abbreviation url := (ExtensionBasedMapper.mapFilePathToUrl base root).
Local Abbreviation files :=
  (FileDataAccessor.accessor mapper url getContentTypeFromExtension parseQuads serializeQuads
     toISOString numberToString).
Local Abbreviation getContainer := UrlContainerManager.getContainer.
Local Abbreviation writeContainer := (FileDataAccessor.writeContainer mapper serializeQuads).
Local Abbreviation writeDataResource :=
  (FileDataAccessor.writeDataResource mapper serializeQuads).

(** [writeContainer] where nothing is, with metadata that holds types
    only: the folder is made and no metadata file is written. *)
Lemma writeContainer_new dir n es md fs :
  forallb isSegment (dir ++ [n]) = true ->
  descend (parts root ++ dir) (Fs.root fs) = Reached es ->
  Children.lookup n es = None ->
  Metadata.quads (Metadata.removeAll RDF.type md) = [] ->
  writeContainer (containerPath base (dir ++ [n])) (Some md) fs
  = Ok tt (Fs.made (parts root ++ dir) n fs).
Proof.
  intros Hsegs Hd Hn Hmd.
  pose proof (parts_folder root (dir ++ [n]) Hsegs) as Hparts. rewrite app_assoc in Hparts.
  unfold FileDataAccessor.writeContainer, bind, liftE, tryCatch. rewrite mapped_container.
  rewrite (PathFacts.mkdir_new _ _ n es fs Hparts Hd Hn).
  unfold FileDataAccessor.writeSidecar. now rewrite Hmd.
Qed.

(** The empty container the recursion makes, over files. *)
Lemma writeData_empty_folder recur dir n es fs :
  parseQuads (streamifyArray []) = inr [] ->
  forallb isSegment (dir ++ [n]) = true ->
  descend (parts root ++ dir) (Fs.root fs) = Reached es ->
  Children.lookup n es = None ->
  DataAccessorBasedStore.writeDataUsing files parseQuads getContainer recur
    (containerPath base (dir ++ [n]))
    (DataAccessorBasedStore.getEmptyContainerRepresentation (containerPath base (dir ++ [n])))
    true false fs
  = Some (Ok tt (Fs.made (parts root ++ dir) n fs)).
Proof.
  intros Hparse Hsegs Hd Hn.
  unfold DataAccessorBasedStore.writeDataUsing, andThen, done,
    DataAccessorBasedStore.handleContainerData, tryCatch, bind, liftE.
  cbn [DataAccessorBasedStore.getEmptyContainerRepresentation data metadata binary].
  rewrite Hparse. cbn [existsb ret].
  cbn [DataAccessor.writeContainer FileDataAccessor.accessor metadata Metadata.identifier
       Metadata.setIdentifier].
  rewrite (writeContainer_new dir n es _ fs Hsegs Hd Hn (emptyContainer_only_types _)).
  reflexivity.
Qed.

Lemma assign_twice {V : Type} n (v w : V) (es : list (string * V)) :
  Children.assign n v (Children.assign n w es) = Children.assign n v es.
Proof.
  induction es as [|[k u] es IH]; cbn; [now rewrite String.eqb_refl|].
  destruct (String.eqb_spec k n) as [->|Hne]; cbn.
  - now rewrite String.eqb_refl.
  - destruct (String.eqb_spec k n); [contradiction|]. now rewrite IH.
Qed.

(** Two changes of the same folder are one. *)
Lemma modify_twice {L C : Type} names (f g : Entries L C -> Entries L C) (es : Entries L C) :
  modify names g (modify names f es) = modify names (fun d => g (f d)) es.
Proof.
  revert es. induction names as [|k names IH]; intros es; [reflexivity|].
  cbn [modify]. destruct (Children.lookup k es) as [[l|ch c]|] eqn:E.
  - now rewrite E.
  - now rewrite lookup_assign_eq, assign_twice, IH.
  - now rewrite E.
Qed.

Lemma keys_assign_cases {L C : Type} n (v : Tree L C) (es : Entries L C) k :
  In k (map fst (Children.assign n v es)) -> In k (map fst es) \/ k = n.
Proof.
  destruct (Children.lookup n es) as [w|] eqn:E.
  - rewrite (keys_assign_present n v w es E). now left.
  - rewrite (keys_assign_absent n v es E), in_app_iff. intros [H|[H|[]]]; [now left | now right].
Qed.

Lemma writeDataResource_new segs r es data md fs :
  forallb isSegment segs = true -> isSegment r = true ->
  FileDataAccessor.isMetadataPath r = false ->
  descend (parts root ++ segs) (Fs.root fs) = Reached es ->
  match Children.lookup r es with Some (Branch _ _) => False | _ => True end ->
  match Children.lookup (r +:+ ".meta") es with Some (Branch _ _) => False | _ => True end ->
  failure data = None ->
  exists fs' f,
    writeDataResource (resourcePath base segs r) data (Some md) fs = Ok tt fs'
    /\ Fs.root fs' = modify (parts root ++ segs) f (Fs.root fs)
    /\ FileDataAccessor.leaves r data f.
Proof.
  intros Hsegs Hr Hname Hd Hfile Hside Hdata.
  pose proof (parts_file root segs r Hsegs Hr) as Hparts. rewrite app_assoc in Hparts.
  pose proof (parts_file root segs _ Hsegs (metadata_name_segment r Hr)) as Hpartsm.
  rewrite app_assoc in Hpartsm.
  assert (Hne : r +:+ ".meta" <> r) by apply metadata_name_differs.
  unfold FileDataAccessor.writeDataResource, bind, liftE. rewrite mapped_resource.
  rewrite (isMetadataPath_resourcePath rootFolder segs r (endsWith_snoc_slash _)), Hname.
  unfold FileDataAccessor.writeSidecar, FileDataAccessor.writeDataFile, tryCatch.
  rewrite metadataPath_file.
  destruct (Metadata.quads (Metadata.removeAll RDF.type md)) as [|q kept] eqn:Hkept.
  - cbn [List.length Nat.ltb Nat.leb ret].
    rewrite (PathFacts.pipeToFile_new _ _ r es data fs Hparts Hd Hfile Hdata).
    exists (Fs.tick (Fs.change (parts root ++ segs)
                       (Children.assign r (Leaf {| Fs.content := Some (chunks data);
                                                   Fs.fileTime := Fs.clock fs |})) fs)),
           (Children.assign r (Leaf {| Fs.content := Some (chunks data);
                                       Fs.fileTime := Fs.clock fs |})).
    split; [reflexivity|]. split; [reflexivity|].
    split; [|split].
    + intros es'. eexists. apply lookup_assign_eq.
    + intros es' k Hk _. apply lookup_assign_ne. congruence.
    + intros es' k Hin. apply keys_assign_cases in Hin as [H|H]; [now left | right; now left].
  - cbn [List.length Nat.ltb Nat.leb].
    rewrite (PathFacts.pipeToFile_new _ _ (r +:+ ".meta") es _ fs Hpartsm Hd Hside
               (serializes _)).
    set (sidecar := Leaf {| Fs.content := Some (chunks (serializeQuads (q :: kept)));
                            Fs.fileTime := Fs.clock fs |} : Tree Fs.File nat).
    set (fs1 := Fs.tick (Fs.change (parts root ++ segs)
                           (Children.assign (r +:+ ".meta") sidecar) fs)).
    rewrite (PathFacts.pipeToFile_new _ (parts root ++ segs) r
               (Children.assign (r +:+ ".meta") sidecar es) data fs1 Hparts).
    + exists (Fs.tick (Fs.change (parts root ++ segs)
                         (Children.assign r (Leaf {| Fs.content := Some (chunks data);
                                                     Fs.fileTime := Fs.clock fs1 |})) fs1)),
             (fun es' => Children.assign r (Leaf {| Fs.content := Some (chunks data);
                                                    Fs.fileTime := Fs.clock fs1 |})
                           (Children.assign (r +:+ ".meta") sidecar es')).
      split; [reflexivity|]. split; [|split; [|split]].
      * cbn [Fs.tick Fs.change Fs.root fs1]. apply modify_twice.
      * intros es'. eexists. apply lookup_assign_eq.
      * intros es' k Hk Hkm. rewrite lookup_assign_ne by congruence.
        apply lookup_assign_ne. congruence.
      * intros es' k Hin. apply keys_assign_cases in Hin as [H|H]; [|right; now left].
        apply keys_assign_cases in H as [H|H]; [now left | right; now right].
    + cbn [Fs.tick Fs.change Fs.root fs1]. now apply descend_modify.
    + rewrite lookup_assign_ne by exact Hne. exact Hfile.
    + exact Hdata.
Qed.

End FileWriting.

(* ================================================================== *)
(** * The store over the file accessor: cascading creation             *)
(* ================================================================== *)

Section FileCascade.
Variables base root : string.
Hypothesis base_normal : ensureTrailingSlash base = base.
Variable getContentTypeFromExtension : string -> string.
Variable parseQuads : Readable -> Error + list Quad.
Variable serializeQuads : list Quad -> Readable.
Variable toISOString : nat -> string.
Variable numberToString : nat -> string.
Hypothesis serializes : forall quads, failure (serializeQuads quads) = None.
Hypothesis parse_empty : parseQuads (streamifyArray []) = inr [].
Variables a b c r : string.
Hypothesis segment_a : isSegment a = true.
Hypothesis segment_b : isSegment b = true.
Hypothesis segment_c : isSegment c = true.
Hypothesis segment_r : isSegment r = true.
Hypothesis plain_b : FileDataAccessor.isMetadataPath b = false.
Hypothesis plain_c : FileDataAccessor.isMetadataPath c = false.
Hypothesis plain_r : FileDataAccessor.isMetadataPath r = false.

Local Abbreviation rootFolder := (ensureTrailingSlash root).
Local Abbreviation mapper := (ExtensionBasedMapper.mapUrlToFilePath base root).
Local Abbreviation url := (ExtensionBasedMapper.mapFilePathToUrl base root).
Local Abbreviation files :=
  (FileDataAccessor.accessor mapper url getContentTypeFromExtension parseQuads serializeQuads
     toISOString numberToString).
Local Abbreviation getContainer := UrlContainerManager.getContainer.
Local Abbreviation getMetadata :=
  (FileDataAccessor.getMetadata mapper url getContentTypeFromExtension parseQuads
     toISOString numberToString).
Local Abbreviation getNormalizedMetadata :=
  (FileDataAccessor.getNormalizedMetadata mapper url getContentTypeFromExtension parseQuads
     toISOString numberToString).
Local Abbreviation getData := (FileDataAccessor.getData mapper).
Local Abbreviation createRecursiveContainers :=
  (DataAccessorBasedStore.createRecursiveContainers files parseQuads getContainer).

Variables (top : Entries Fs.File nat) (raw : list Quad) (fs : Fs.FileSystem).
Hypothesis root_folder : descend (parts root) (Fs.root fs) = Reached top.
Hypothesis root_names : forallb isSegment (map fst top) = true.
Hypothesis root_metadata :
  FileDataAccessor.getRawMetadata parseQuads (containerPath rootFolder []) fs = Ok raw fs.
Hypothesis missing : Children.lookup a top = None.

Local Abbreviation made1 := (Fs.made (parts root) a fs).
Local Abbreviation made2 := (Fs.made (parts root ++ [a]) b made1).
Local Abbreviation made3 := (Fs.made (parts root ++ [a; b]) c made2).

Lemma folders_abc : forallb isSegment [a; b; c] = true.
Proof. cbn. now rewrite segment_a, segment_b, segment_c. Qed.

Lemma folders_ab : forallb isSegment [a; b] = true.
Proof. cbn. now rewrite segment_a, segment_b. Qed.

Lemma folders_a : forallb isSegment [a] = true.
Proof. cbn. now rewrite segment_a. Qed.

Lemma root_is_container :
  exists md,
    getNormalizedMetadata base fs = Ok md fs
    /\ DataAccessorBasedStore.isExistingContainer md = inr true.
Proof.
  assert (Hd : descend (parts root ++ []) (Fs.root fs) = Reached top)
    by now rewrite app_nil_r.
  destruct (getMetadata_folder base root base_normal getContentTypeFromExtension parseQuads
              toISOString numberToString [] top raw fs eq_refl Hd root_names root_metadata)
    as (md & Hget & _ & Hkind & _).
  rewrite (containerPath_nil base) in Hget.
  exists md. split; [|exact Hkind].
  unfold FileDataAccessor.getNormalizedMetadata, NormalizedDataAccessor.getNormalizedMetadata,
    tryCatch.
  now rewrite Hget.
Qed.

Lemma folder_made1 : descend (parts root ++ [a]) (Fs.root made1) = Reached [].
Proof. exact (descend_assigned (parts root) a [] _ _ top root_folder). Qed.

Lemma folder_made2 : descend (parts root ++ [a; b]) (Fs.root made2) = Reached [].
Proof.
  change (parts root ++ [a; b]) with (parts root ++ [a] ++ [b]). rewrite app_assoc.
  exact (descend_assigned (parts root ++ [a]) b [] _ _ [] folder_made1).
Qed.

Lemma folder_made3 : descend (parts root ++ [a; b; c]) (Fs.root made3) = Reached [].
Proof.
  change (parts root ++ [a; b; c]) with (parts root ++ [a; b] ++ [c]). rewrite app_assoc.
  exact (descend_assigned (parts root ++ [a; b]) c [] _ _ [] folder_made2).
Qed.

Lemma createRecursiveContainers_folders fuel :
  createRecursiveContainers (4 + fuel) (containerPath base [a; b; c]) fs = Some (Ok tt made3).
Proof.
  assert (Hnone : forall dir n,
             forallb isSegment ((a :: dir) ++ [n]) = true ->
             DataAccessor.getNormalizedMetadata (DataAccessor := files)
               (containerPath base ((a :: dir) ++ [n])) fs
             = Throw NotFoundHttpError fs).
  { intros dir n Hsegs.
    exact (proj1 (files_nothing_at base root base_normal getContentTypeFromExtension parseQuads
                    toISOString numberToString (a :: dir) n (parts root) a (dir ++ [n]) top fs
                    Hsegs eq_refl root_folder missing)). }
  assert (Hnone_a : DataAccessor.getNormalizedMetadata (DataAccessor := files)
                      (containerPath base ([] ++ [a])) fs
                    = Throw NotFoundHttpError fs).
  { exact (proj1 (files_nothing_at base root base_normal getContentTypeFromExtension parseQuads
                    toISOString numberToString [] a (parts root) a [] top fs
                    folders_a eq_refl root_folder missing)). }
  destruct root_is_container as (md & Hroot & Hkind).
  change (4 + fuel) with (Datatypes.S (Datatypes.S (Datatypes.S (Datatypes.S fuel)))).
  rewrite (createRecursiveContainers_absent files parseQuads _ _ fs (Hnone [b] c folders_abc)).
  unfold andThen at 1. unfold andThen at 1. unfold done at 1. unfold liftE at 1.
  change ((a :: [b]) ++ [c]) with ([a; b] ++ [c]).
  rewrite (getContainer_containerPath base base_normal [a; b] c segment_c).
  rewrite (createRecursiveContainers_absent files parseQuads _ _ fs (Hnone [] b folders_ab)).
  unfold andThen at 1. unfold andThen at 1. unfold done at 1. unfold liftE at 1.
  change ((a :: []) ++ [b]) with ([a] ++ [b]).
  rewrite (getContainer_containerPath base base_normal [a] b segment_b).
  rewrite (createRecursiveContainers_absent files parseQuads _ _ fs Hnone_a).
  unfold andThen at 1. unfold andThen at 1. unfold done at 1. unfold liftE at 1.
  rewrite (getContainer_containerPath base base_normal [] a segment_a).
  rewrite containerPath_nil.
  rewrite (createRecursiveContainers_found files parseQuads fuel base fs md fs Hroot Hkind).
  rewrite (writeData_empty_folder base root getContentTypeFromExtension parseQuads
             serializeQuads toISOString numberToString _ [] a top fs parse_empty folders_a).
  2: now rewrite app_nil_r.
  2: exact missing.
  rewrite app_nil_r.
  rewrite (writeData_empty_folder base root getContentTypeFromExtension parseQuads
             serializeQuads toISOString numberToString _ [a] b [] made1 parse_empty folders_ab
             folder_made1 eq_refl).
  rewrite (writeData_empty_folder base root getContentTypeFromExtension parseQuads
             serializeQuads toISOString numberToString _ [a; b] c [] made2 parse_empty
             folders_abc folder_made2 eq_refl).
  reflexivity.
Qed.

Lemma setRepresentation_folders fuel representation :
  binary representation = true ->
  DataAccessorBasedStore.isNewContainer (metadata representation)
    (Some (resourcePath base [a; b; c] r)) = false ->
  failure (data representation) = None ->
  exists fs' f,
    DataAccessorBasedStore.setRepresentation files base parseQuads getContainer (4 + fuel)
      (resourcePath base [a; b; c] r) representation fs
    = Some (Ok tt fs')
    /\ Fs.root fs' = modify (parts root ++ [a; b; c]) f (Fs.root made3)
    /\ FileDataAccessor.leaves r (data representation) f.
Proof.
  intros Hbinary Hkind Hdata.
  destruct (writeDataResource_new base root serializeQuads serializes [a; b; c] r []
              (data representation)
              (DataAccessorBasedStore.resourceMetadata (resourcePath base [a; b; c] r)
                 representation)
              made3 folders_abc segment_r plain_r folder_made3 I I Hdata)
    as (fs' & f & Hwrite & Hroot & Hleaves).
  exists fs', f. split; [|split; [exact Hroot | exact Hleaves]].
  unfold DataAccessorBasedStore.setRepresentation, DataAccessorBasedStore.validateIdentifier.
  rewrite startsWith_resourcePath. cbn [negb].
  unfold andThen at 1. unfold done at 1.
  cbn [DataAccessor.canHandle DataAccessor.getNormalizedMetadata FileDataAccessor.accessor].
  unfold FileDataAccessor.canHandle, tryCatch, bind, ret. rewrite Hbinary.
  rewrite (proj1 (proj2 (files_nothing_at base root base_normal getContentTypeFromExtension
                           parseQuads toISOString numberToString [a; b; c] r (parts root) a
                           [b; c; r] top fs ltac:(cbn; now rewrite segment_a, segment_b,
                                                    segment_c, segment_r)
                           eq_refl root_folder missing))).
  cbn [isNotFound negb]. rewrite Hkind.
  unfold andThen at 1. unfold done at 1.
  rewrite (endsWith_resourcePath base _ r segment_r). cbn [Bool.eqb negb].
  unfold DataAccessorBasedStore.writeData, DataAccessorBasedStore.writeDataUsing.
  unfold andThen at 1. unfold done at 1.
  unfold andThen at 1. unfold andThen at 1. unfold done at 1. unfold liftE at 1.
  rewrite (getContainer_resourcePath base base_normal [a; b; c] r segment_r).
  unfold ret at 1.
  rewrite (createRecursiveContainers_folders fuel).
  unfold done. cbn [DataAccessor.writeDataResource FileDataAccessor.accessor].
  unfold DataAccessorBasedStore.resourceMetadata in Hwrite. cbn [Metadata.identifier Metadata.setIdentifier].
  now rewrite Hwrite.
Qed.

(** The folders and the file afterwards. *)
Lemma folders_found fs' f representation :
  Fs.root fs' = modify (parts root ++ [a; b; c]) f (Fs.root made3) ->
  FileDataAccessor.leaves r (data representation) f ->
  (forall q, In q [[a]; [a; b]; [a; b; c]] ->
     exists md,
       getMetadata (containerPath base q) fs' = Ok md fs'
       /\ Metadata.identifier md = containerPath base q
       /\ DataAccessorBasedStore.isExistingContainer md = inr true)
  /\ exists stream,
       getData (resourcePath base [a; b; c] r) fs' = Ok stream fs'
       /\ failure stream = None
       /\ String.concat "" (chunks stream) = String.concat "" (chunks (data representation)).
Proof.
  intros Hroot (Hfile & Hrest & Hkeys).
  assert (Hfound : forall q children,
            forallb isSegment q = true ->
            descend (parts root ++ q) (Fs.root fs') = Reached children ->
            forallb isSegment (map fst children) = true ->
            ~ In ".meta" (map fst children) ->
            exists md,
              getMetadata (containerPath base q) fs' = Ok md fs'
              /\ Metadata.identifier md = containerPath base q
              /\ DataAccessorBasedStore.isExistingContainer md = inr true).
  { intros q children Hq Hd Hnames Hnone.
    destruct (getMetadata_folder base root base_normal getContentTypeFromExtension parseQuads
                toISOString numberToString q children [] fs' Hq Hd Hnames
                (getRawMetadata_folder root parseQuads q children fs' Hq Hd Hnone))
      as (md & Hget & Hid & Hkind & _).
    now exists md. }
  assert (Hc : descend (parts root ++ [a; b; c]) (Fs.root fs') = Reached (f [])).
  { rewrite Hroot. apply descend_modify. exact folder_made3. }
  assert (Hb : exists d, descend (parts root ++ [a; b]) (Fs.root fs') = Reached d
                         /\ map fst d = [c]).
  { rewrite Hroot. change (parts root ++ [a; b; c]) with (parts root ++ [a; b] ++ [c]).
    rewrite app_assoc.
    destruct (keys_modify_below (parts root ++ [a; b]) c [] f (Fs.root made3)
                (Children.assign c (Branch [] (Fs.clock made2)) []))
      as (d & Hd & Hk).
    { cbn [Fs.made Fs.tick Fs.change Fs.root]. apply descend_modify. exact folder_made2. }
    exists d. split; [exact Hd | exact Hk]. }
  assert (Ha : exists d, descend (parts root ++ [a]) (Fs.root fs') = Reached d
                         /\ map fst d = [b]).
  { rewrite Hroot. change (parts root ++ [a; b; c]) with (parts root ++ [a] ++ [b; c]).
    rewrite app_assoc.
    destruct (keys_modify_below (parts root ++ [a]) b [] (Children.assign c (Branch [] (Fs.clock made2)))
                (Fs.root made2) (Children.assign b (Branch [] (Fs.clock made1)) []))
      as (d2 & Hd2 & Hk2).
    { cbn [Fs.made Fs.tick Fs.change Fs.root]. apply descend_modify. exact folder_made1. }
    destruct (keys_modify_below (parts root ++ [a]) b [c] f (Fs.root made3) d2)
      as (d & Hd & Hk).
    { cbn [Fs.made Fs.tick Fs.change Fs.root].
      change (parts root ++ [a; b]) with (parts root ++ [a] ++ [b]). rewrite app_assoc.
      exact Hd2. }
    exists d. split; [exact Hd|]. now rewrite Hk, Hk2. }
  split.
  - intros q [<-|[<-|[<-|[]]]].
    + destruct Ha as (d & Hd & Hk). apply (Hfound [a] d folders_a Hd); rewrite Hk.
      * cbn. now rewrite segment_b.
      * intros [H|[]]. symmetry in H. now apply (not_metadata_name b plain_b).
    + destruct Hb as (d & Hd & Hk). apply (Hfound [a; b] d folders_ab Hd); rewrite Hk.
      * cbn. now rewrite segment_c.
      * intros [H|[]]. symmetry in H. now apply (not_metadata_name c plain_c).
    + apply (Hfound [a; b; c] (f []) folders_abc Hc).
      * apply forallb_forall. intros k Hin.
        destruct (Hkeys [] k Hin) as [Hf|[Hk|Hk]];
          [destruct Hf | subst k; exact segment_r | subst k; now apply metadata_name_segment].
      * intros Hin. destruct (Hkeys [] ".meta" Hin) as [Hf|[H|H]].
        -- destruct Hf.
        -- symmetry in H. now apply (not_metadata_name r plain_r).
        -- symmetry in H. apply (metadata_name_not_dot r) in H; [exact H|].
           intros ->. discriminate.
  - destruct (Hfile []) as [time Hlook].
    exists (Fs.fileStream (chunks (data representation))).
    split; [|exact (FileFacts.fileStream_bytes _)].
    apply (getData_file base root [a; b; c] r _ time fs' folders_abc segment_r).
    rewrite app_assoc, find_snoc, Hc. exact Hlook.
Qed.

End FileCascade.



(* ================================================================== *)
(** * The store: a taken name, over any accessor and over files        *)
(* ================================================================== *)

Section TakenName.
Context {S R : Type}.
Variable accessor : DataAccessor S R.
Variable base : string.
Variable parseQuads : Readable -> Error + list Quad.
Variable uuid : nat -> string.

Local Abbreviation getContainer := UrlContainerManager.getContainer.
Local Abbreviation addResource :=
  (DataAccessorBasedStore.addResource accessor base parseQuads getContainer uuid).

(** [addResource] up to the write, when the candidate is among the
    containment triples of the container: the generated name replaces
    the suggested one. *)
Lemma addResource_taken fuel container x md representation s :
  startsWith container base = true ->
  DataAccessor.canHandle representation s = Ok tt s ->
  Metadata.get HTTP.slug (metadata representation) = Some x ->
  nonEmpty x = true ->
  DataAccessor.getNormalizedMetadata container s = Ok md s ->
  DataAccessorBasedStore.isExistingContainer md = inr true ->
  let isContainer := DataAccessorBasedStore.isNewContainer (metadata representation) None in
  let candidate := DataAccessorBasedStore.createURI container isContainer (Some x) (uuid 0) in
  let newID := DataAccessorBasedStore.createURI container isContainer None (uuid 0) in
  existsb (fun term => (term =? ensureTrailingSlash candidate)
                       || (term =? trimTrailingSlashes candidate))
          (Metadata.getAll LDP.contains md) = true ->
  addResource fuel container representation s
  = andThen
      (DataAccessorBasedStore.writeData accessor parseQuads getContainer fuel newID
         {| binary := binary representation;
            data := data representation;
            metadata := Metadata.removeAll HTTP.slug (metadata representation) |}
         isContainer false)
      (fun _ => done (ret newID))
      s.
Proof.
  intros Hstarts Hhandle Hslug Hx Hparent Hkind isContainer candidate newID Htaken.
  unfold DataAccessorBasedStore.addResource, DataAccessorBasedStore.validateIdentifier.
  rewrite Hstarts. cbn [negb].
  unfold andThen at 1. unfold done at 1.
  unfold bind at 1. unfold ret at 1. rewrite Hhandle.
  rewrite Hslug, Hx.
  unfold andThen at 1. unfold done at 1. unfold tryCatch at 1. unfold bind at 1.
  rewrite Hparent. unfold ret at 1.
  fold isContainer. fold candidate. rewrite Htaken. cbn [fst snd].
  unfold andThen at 1. unfold done at 1. unfold liftE, bind.
  rewrite Hkind. cbn [negb]. unfold ret at 1.
  reflexivity.
Qed.

End TakenName.

Section BelowAssigned.
Context {L C : Type}.

(** A change inside a child that has just been put in place. *)
Lemma modify_below_assigned dir n (ch : Entries L C) (c : C)
    (g : Entries L C -> Entries L C) (es : Entries L C) :
  modify (dir ++ [n]) g (modify dir (Children.assign n (Branch ch c)) es)
  = modify dir (Children.assign n (Branch (g ch) c)) es.
Proof.
  revert es. induction dir as [|k dir IH]; intros es.
  - cbn [app modify]. now rewrite lookup_assign_eq, assign_twice.
  - cbn [app modify]. destruct (Children.lookup k es) as [[l|ch' c']|] eqn:E.
    + now rewrite E.
    + now rewrite lookup_assign_eq, assign_twice, IH.
    + now rewrite E.
Qed.

End BelowAssigned.

Section FileTakenName.
Variables base root : string.
Hypothesis base_normal : ensureTrailingSlash base = base.
Variable getContentTypeFromExtension : string -> string.
Variable parseQuads : Readable -> Error + list Quad.
Variable serializeQuads : list Quad -> Readable.
Variable toISOString : nat -> string.
Variable numberToString : nat -> string.
Hypothesis serializes : forall quads, failure (serializeQuads quads) = None.
Variable uuid : nat -> string.
Variable segs : list string.
Variable x : string.
Hypothesis segments : forallb isSegment segs = true.
Hypothesis segment_x : isSegment x = true.
Hypothesis segment_uuid : isSegment (uuid 0) = true.
Hypothesis plain_x : FileDataAccessor.isMetadataPath x = false.
Hypothesis plain_uuid : FileDataAccessor.isMetadataPath (uuid 0) = false.

Local Abbreviation rootFolder := (ensureTrailingSlash root).
Local Abbreviation mapper := (ExtensionBasedMapper.mapUrlToFilePath base root).
Local Abbreviation url := (ExtensionBasedMapper.mapFilePathToUrl base root).
Local Abbreviation files :=
  (FileDataAccessor.accessor mapper url getContentTypeFromExtension parseQuads serializeQuads
     toISOString numberToString).
Local Abbreviation getContainer := UrlContainerManager.getContainer.
Local Abbreviation container := (containerPath base segs).
Local Abbreviation addResource :=
  (DataAccessorBasedStore.addResource files base parseQuads getContainer uuid).
Local Abbreviation writeContainer := (FileDataAccessor.writeContainer mapper serializeQuads).

(** [writeContainer] where nothing is: the folder is made, with its
    metadata file in it when there is metadata beyond the types. *)
Lemma writeContainer_fresh dir n es md fs :
  forallb isSegment (dir ++ [n]) = true ->
  descend (parts root ++ dir) (Fs.root fs) = Reached es ->
  Children.lookup n es = None ->
  exists fs' inside time,
    writeContainer (containerPath base (dir ++ [n])) (Some md) fs = Ok tt fs'
    /\ Fs.root fs'
       = modify (parts root ++ dir) (Children.assign n (Branch inside time)) (Fs.root fs).
Proof.
  intros Hsegs Hd Hn.
  pose proof (parts_folder root (dir ++ [n]) Hsegs) as Hparts. rewrite app_assoc in Hparts.
  unfold FileDataAccessor.writeContainer, bind, liftE, tryCatch. rewrite mapped_container.
  rewrite (PathFacts.mkdir_new _ _ n es fs Hparts Hd Hn).
  unfold FileDataAccessor.writeSidecar, FileDataAccessor.writeDataFile.
  destruct (Metadata.quads (Metadata.removeAll RDF.type md)) as [|q kept].
  - cbn [List.length Nat.ltb Nat.leb ret]. eexists _, [], (Fs.clock fs).
    split; reflexivity.
  - cbn [List.length Nat.ltb Nat.leb]. rewrite metadataPath_folder.
    rewrite (PathFacts.pipeToFile_new _ ((parts root ++ dir) ++ [n]) ".meta" []
               (serializeQuads (q :: kept))
               (Fs.tick (Fs.change (parts root ++ dir)
                           (Children.assign n (Branch [] (Fs.clock fs))) fs))).
    + eexists _, _, (Fs.clock fs). split; [reflexivity|].
      cbn [Fs.tick Fs.change Fs.root]. apply modify_below_assigned.
    + rewrite (parts_file root (dir ++ [n]) ".meta" Hsegs eq_refl). now rewrite !app_assoc.
    + cbn [Fs.tick Fs.change Fs.root]. exact (descend_assigned _ n [] _ _ es Hd).
    + exact I.
    + apply serializes.
Qed.

Variables (children : Entries Fs.File nat) (raw : list Quad) (node : Fs.Node).
Variables (representation : Representation) (fs : Fs.FileSystem).
Hypothesis folder : descend (parts root ++ segs) (Fs.root fs) = Reached children.
Hypothesis names : forallb isSegment (map fst children) = true.
Hypothesis folder_metadata :
  FileDataAccessor.getRawMetadata parseQuads (containerPath rootFolder segs) fs = Ok raw fs.
Hypothesis has_child : Children.lookup x children = Some node.
Hypothesis listed :
  match node with Leaf file => Fs.content file <> None | Branch _ _ => True end.
Hypothesis suggested : Metadata.get HTTP.slug (metadata representation) = Some x.
Hypothesis is_binary : binary representation = true.

Local Abbreviation isContainer :=
  (DataAccessorBasedStore.isNewContainer (metadata representation) None).
Local Abbreviation newID := (container +:+ uuid 0 +:+ (if isContainer then "/" else "")).
Local Abbreviation stripped :=
  {| binary := binary representation;
     data := data representation;
     metadata := Metadata.removeAll HTTP.slug (metadata representation) |}.

(** The child is among the children the folder lists, with a slash
    when it is a folder. *)
Lemma child_listed :
  In (resourcePath base segs x +:+ (match node with Leaf _ => "" | Branch _ _ => "/" end))
     (listedChildren url (containerPath rootFolder segs) children).
Proof.
  unfold listedChildren. apply in_flat_map. exists x. split.
  - clear -has_child. induction children as [|[k v] es IH]; [discriminate|].
    cbn in *. destruct (String.eqb_spec k x) as [->|_]; [now left | right; now apply IH].
  - rewrite plain_x, has_child, (url_child base root segs x segments).
    destruct node as [file|ch t].
    + destruct (Fs.content file); [|now elim listed]. left. now rewrite append_nil_r.
    + left. rewrite <- containerPath_snoc. apply (ensure_resourcePath base segs x segment_x).
Qed.

Lemma candidate_of (n : string) (slash : bool) :
  isSegment n = true ->
  ensureTrailingSlash (container +:+ n +:+ (if slash then "/" else ""))
  = resourcePath base segs n +:+ "/"
  /\ trimTrailingSlashes (container +:+ n +:+ (if slash then "/" else ""))
     = resourcePath base segs n.
Proof.
  intros Hn. destruct (candidate_slashes base segs n slash Hn) as [-> ->].
  rewrite resourcePath_containerPath. split; [now rewrite append_assoc | reflexivity].
Qed.

(** [addResource] over files, up to the write. *)
Lemma addResource_files_regenerates fuel :
  exists md,
    DataAccessor.getNormalizedMetadata (DataAccessor := files) container fs = Ok md fs
    /\ existsb
         (fun term =>
            (term =? ensureTrailingSlash
                       (DataAccessorBasedStore.createURI container isContainer (Some x) (uuid 0)))
            || (term =? trimTrailingSlashes
                          (DataAccessorBasedStore.createURI container isContainer (Some x)
                             (uuid 0))))
         (Metadata.getAll LDP.contains md) = true
    /\ addResource fuel container representation fs
       = andThen
           (DataAccessorBasedStore.writeData files parseQuads getContainer fuel newID
              stripped isContainer false)
           (fun _ => done (ret newID))
           fs.
Proof.
  destruct (getMetadata_folder base root base_normal getContentTypeFromExtension parseQuads
              toISOString numberToString segs children raw fs segments folder names
              folder_metadata)
    as (md & Hget & _ & Hkind & Hedges).
  assert (Hparent : DataAccessor.getNormalizedMetadata (DataAccessor := files) container fs
                    = Ok md fs).
  { cbn [DataAccessor.getNormalizedMetadata FileDataAccessor.accessor].
    unfold FileDataAccessor.getNormalizedMetadata, NormalizedDataAccessor.getNormalizedMetadata,
      tryCatch.
    now rewrite Hget. }
  assert (Htaken :
    existsb
      (fun term =>
         (term =? ensureTrailingSlash
                    (DataAccessorBasedStore.createURI container isContainer (Some x) (uuid 0)))
         || (term =? trimTrailingSlashes
                       (DataAccessorBasedStore.createURI container isContainer (Some x)
                          (uuid 0))))
      (Metadata.getAll LDP.contains md) = true).
  { unfold DataAccessorBasedStore.createURI.
    rewrite (ensure_containerPath base base_normal segs segments).
    rewrite (isSegment_nonEmpty x segment_x).
    rewrite (trim_no_slash x (endsWith_slashFree x (isSegment_slashFree x segment_x))).
    destruct (candidate_of x isContainer segment_x) as [-> ->].
    rewrite Hedges, existsb_app. apply orb_true_iff. right.
    apply existsb_exists. eexists. split; [exact child_listed|].
    destruct node.
    - rewrite append_nil_r, String.eqb_refl. apply orb_true_r.
    - now rewrite String.eqb_refl. }
  exists md. split; [exact Hparent|]. split; [exact Htaken|].
  rewrite (addResource_taken files base parseQuads uuid fuel container x md representation fs
             (startsWith_containerPath base segs)).
  - unfold DataAccessorBasedStore.createURI.
    now rewrite (ensure_containerPath base base_normal segs segments).
  - cbn [DataAccessor.canHandle FileDataAccessor.accessor].
    unfold FileDataAccessor.canHandle. now rewrite is_binary.
  - exact suggested.
  - exact (isSegment_nonEmpty x segment_x).
  - exact Hparent.
  - exact Hkind.
  - exact Htaken.
Qed.

(** A data resource under the generated name. *)
Lemma addResource_files_data fuel :
  isContainer = false ->
  failure (data representation) = None ->
  match Children.lookup (uuid 0) children with Some (Branch _ _) => False | _ => True end ->
  match Children.lookup (uuid 0 +:+ ".meta") children with
  | Some (Branch _ _) => False
  | _ => True
  end ->
  exists fs' f,
    addResource fuel container representation fs
    = Some (Ok (resourcePath base segs (uuid 0)) fs')
    /\ Fs.root fs' = modify (parts root ++ segs) f (Fs.root fs)
    /\ FileDataAccessor.leaves (uuid 0) (data representation) f.
Proof.
  intros Hkind Hdata Hfile Hside.
  destruct (addResource_files_regenerates fuel) as (md & _ & _ & Hadd).
  assert (Hid : container +:+ uuid 0 +:+ "" = resourcePath base segs (uuid 0))
    by now rewrite append_nil_r, resourcePath_containerPath.
  rewrite Hkind, Hid in Hadd.
  destruct (writeDataResource_new base root serializeQuads serializes segs (uuid 0) children
              (data representation)
              (DataAccessorBasedStore.resourceMetadata (resourcePath base segs (uuid 0))
                 stripped)
              fs segments segment_uuid plain_uuid folder Hfile Hside Hdata)
    as (fs' & f & Hwrite & Hroot & Hleaves).
  exists fs', f. split; [|split; [exact Hroot | exact Hleaves]].
  rewrite Hadd.
  unfold DataAccessorBasedStore.writeData, DataAccessorBasedStore.writeDataUsing.
  unfold andThen at 1. unfold andThen at 1. unfold done at 1. unfold ret at 1.
  unfold andThen at 1. unfold done at 1. unfold ret at 1. unfold done at 1.
  cbn [DataAccessor.writeDataResource FileDataAccessor.accessor data metadata].
  unfold DataAccessorBasedStore.resourceMetadata in Hwrite.
  cbn [metadata Metadata.identifier Metadata.setIdentifier] in *.
  rewrite Hwrite. reflexivity.
Qed.

(** A container under the generated name. *)
Lemma addResource_files_container fuel quads :
  isContainer = true ->
  parseQuads (data representation) = inr quads ->
  existsb (fun quad => predicate quad =? LDP.contains) quads = false ->
  Children.lookup (uuid 0) children = None ->
  exists fs' inside time,
    addResource fuel container representation fs
    = Some (Ok (containerPath base (segs ++ [uuid 0])) fs')
    /\ Fs.root fs'
       = modify (parts root ++ segs) (Children.assign (uuid 0) (Branch inside time))
           (Fs.root fs).
Proof.
  intros Hkind Hparse Hquads Hfresh.
  destruct (addResource_files_regenerates fuel) as (md & _ & _ & Hadd).
  assert (Hid : container +:+ uuid 0 +:+ "/" = containerPath base (segs ++ [uuid 0]))
    by now rewrite containerPath_snoc, resourcePath_containerPath, append_assoc.
  rewrite Hkind, Hid in Hadd.
  assert (Hall : forallb isSegment (segs ++ [uuid 0]) = true).
  { rewrite forallb_app, segments. cbn. now rewrite segment_uuid. }
  rewrite Hadd.
  unfold DataAccessorBasedStore.writeData, DataAccessorBasedStore.writeDataUsing.
  unfold andThen at 1. unfold andThen at 1. unfold done at 1.
  unfold DataAccessorBasedStore.handleContainerData, tryCatch, bind, liftE.
  cbn [data metadata binary].
  rewrite Hparse, Hquads. unfold ret at 1.
  unfold andThen at 1. unfold done at 1. unfold ret at 1. unfold done at 1.
  cbn [DataAccessor.writeContainer FileDataAccessor.accessor metadata].
  match goal with
  | |- context [FileDataAccessor.writeContainer _ _ _ (Some ?m) fs] =>
      destruct (writeContainer_fresh segs (uuid 0) children m fs Hall folder Hfresh)
        as (fs' & inside & time & Hwrite & Hroot)
  end.
  exists fs', inside, time. split; [|exact Hroot].
  rewrite Hwrite. reflexivity.
Qed.

End FileTakenName.

(* ================================================================== *)
(** * The store over both accessors: a taken name                      *)
(* ================================================================== *)

Section TakenNameInMemory.
Import InMemoryDataAccessor DataAccessorBasedStore.
Variable base : string.
Hypothesis base_normal : ensureTrailingSlash base = base.
Variable parseQuads : Readable -> Error + list Quad.
Variable uuid : nat -> string.
Variable segs : list string.
Variable x : string.
Hypothesis segments : forallb isSegment segs = true.
Hypothesis segment_x : isSegment x = true.
Hypothesis segment_uuid : isSegment (uuid 0) = true.

Local Abbreviation getContainer := UrlContainerManager.getContainer.
Local Abbreviation container := (containerPath base segs).
Local Abbreviation addResource :=
  (DataAccessorBasedStore.addResource (accessor base) base parseQuads getContainer uuid).

Variables (children : list (string * CacheEntry)) (m : option RepresentationMetadata).
Variables (child : CacheEntry) (representation : Representation) (st : State).
Hypothesis container_entry : getEntry base container st = Ok (Branch children m) st.
Hypothesis container_kind :
  isExistingContainer (generateMetadata container (Branch children m)) = inr true.
Hypothesis has_child : Children.lookup x children = Some child.
Hypothesis suggested : Metadata.get HTTP.slug (metadata representation) = Some x.

(** A container under the generated name: empty, typed and under its
    own identifier. *)
Lemma addResource_container_typed fuel quads :
  isNewContainer (metadata representation) None = true ->
  parseQuads (data representation) = inr quads ->
  existsb (fun quad => predicate quad =? LDP.contains) quads = false ->
  exists md,
    addResource fuel container representation st
    = Some (Ok (containerPath base (segs ++ [uuid 0]))
               (withEntry segs (uuid 0) (Branch [] (Some md)) st))
    /\ Metadata.identifier md = containerPath base (segs ++ [uuid 0])
    /\ isExistingContainer md = inr true.
Proof.
  intros Hkind Hparse Hquads.
  assert (Hid : container +:+ uuid 0 +:+ "/" = containerPath base (segs ++ [uuid 0]))
    by now rewrite containerPath_snoc, resourcePath_containerPath, append_assoc.
  eexists. split; [|split].
  - rewrite (addResource_regenerates base base_normal parseQuads uuid segs x segments segment_x
               children m child representation st container_entry container_kind has_child
               suggested fuel), Hkind.
    unfold writeData, writeDataUsing.
    unfold andThen at 1. unfold andThen at 1. unfold done at 1.
    unfold handleContainerData, tryCatch, bind, liftE. cbn [data metadata binary].
    rewrite Hparse, Hquads. unfold ret at 1.
    unfold andThen at 1. unfold done at 1. unfold ret at 1. unfold done at 1.
    cbn [DataAccessor.writeContainer accessor].
    rewrite (writeContainer_below base _ segs (uuid 0) children _ st).
    + unfold done, ret. rewrite Hid. reflexivity.
    + rewrite Hid. apply parts_containerPath. rewrite forallb_app, segments. cbn.
      now rewrite segment_uuid.
    + exact (getEntry_container_descend base segs segments children m st container_entry).
  - reflexivity.
  - apply isExistingContainer_container.
    now apply (getAll_addQuads_types _ true).
Qed.

End TakenNameInMemory.

Lemma isMetadataPath_metadata_name (name : string) :
  FileDataAccessor.isMetadataPath (name +:+ ".meta") = true.
Proof.
  unfold FileDataAccessor.isMetadataPath. induction name as [|ch name IH]; [reflexivity|].
  change (endsWith (String ch name +:+ ".meta") ".meta")
    with ((String ch (name +:+ ".meta") =? ".meta") || endsWith (name +:+ ".meta") ".meta").
  rewrite IH. apply orb_true_r.
Qed.

(** C2, as the code has it.  When the container [c/] exists, is a
    container and has a child named [x], [addResource] on [c/] with the
    suggested name [x] succeeds for a representation the store can
    write; the identifier it returns is [c/] followed by the name the
    generator gives (and a slash for a container), and the new
    resource is stored under it; that identifier is neither [c/x] nor
    [c/x/], and what was stored at [c/x] keeps its content, unless the
    generator gives [x] itself; and the check on the containment
    triples of [c/] finds the candidate whichever of the two, candidate
    and child, carries a trailing slash.  Over the in-memory accessor
    the names are ordinary names and the body is readable
    (for a container: RDF without containment triples); over the file
    accessor the representation is binary, the names are names a folder
    can hold and not names of metadata files, the child is one the
    folder lists, and the generated name does not name a folder (for a
    container: names nothing) in [c/]. *)
Theorem addResource_slug_collision :
  (forall base parseQuads uuid segs x fuel children m child representation st,
      ensureTrailingSlash base = base ->
      forallb isSegment (segs ++ [x; uuid 0]) = true ->
      forallb ordinary (segs ++ [x; uuid 0]) = true ->
      InMemoryDataAccessor.getEntry base (containerPath base segs) st
      = Ok (Branch children m) st ->
      DataAccessorBasedStore.isExistingContainer
        (InMemoryDataAccessor.generateMetadata (containerPath base segs) (Branch children m))
      = inr true ->
      Children.lookup x children = Some child ->
      Metadata.get HTTP.slug (metadata representation) = Some x ->
      (if DataAccessorBasedStore.isNewContainer (metadata representation) None
       then exists quads, parseQuads (data representation) = inr quads
              /\ existsb (fun quad => predicate quad =? LDP.contains) quads = false
       else failure (data representation) = None) ->
      let isContainer := DataAccessorBasedStore.isNewContainer (metadata representation) None in
      let candidate :=
        DataAccessorBasedStore.createURI (containerPath base segs) isContainer (Some x) (uuid 0) in
      let newID := containerPath base segs +:+ uuid 0 +:+ (if isContainer then "/" else "") in
      exists st',
        DataAccessorBasedStore.addResource (InMemoryDataAccessor.accessor base) base parseQuads
          UrlContainerManager.getContainer uuid fuel (containerPath base segs) representation st
        = Some (Ok newID st')
        /\ (if isContainer
            then exists md,
                   InMemoryDataAccessor.getEntry base newID st' = Ok (Branch [] (Some md)) st'
                   /\ Metadata.identifier md = newID
                   /\ DataAccessorBasedStore.isExistingContainer md = inr true
            else exists metadata,
                   InMemoryDataAccessor.getEntry base newID st'
                   = Ok (Leaf {| InMemoryDataAccessor.entryData :=
                                   List.length (InMemoryDataAccessor.streams st);
                                 InMemoryDataAccessor.entryMetadata := Some metadata |}) st'
                   /\ Metadata.identifier metadata = newID
                   /\ InMemoryDataAccessor.buffered
                        (List.length (InMemoryDataAccessor.streams st)) st'
                      = chunks (data representation))
        /\ (forall r, r < List.length (InMemoryDataAccessor.streams st) ->
                      InMemoryDataAccessor.buffered r st' = InMemoryDataAccessor.buffered r st)
        /\ (uuid 0 <> x ->
            newID <> resourcePath base segs x
            /\ newID <> containerPath base (segs ++ [x])
            /\ exists child',
                 InMemoryDataAccessor.getEntry base (resourcePath base segs x) st'
                 = Ok child' st'
                 /\ InMemoryDataAccessor.body child' = InMemoryDataAccessor.body child)
        /\ existsb
             (fun term => (term =? ensureTrailingSlash candidate)
                          || (term =? trimTrailingSlashes candidate))
             (Metadata.getAll LDP.contains
                (InMemoryDataAccessor.generateMetadata (containerPath base segs)
                   (Branch children m)))
           = true)
  /\ (forall base root getContentTypeFromExtension parseQuads serializeQuads
             toISOString numberToString uuid segs x fuel children raw node representation fs,
        let mapper := ExtensionBasedMapper.mapUrlToFilePath base root in
        let url := ExtensionBasedMapper.mapFilePathToUrl base root in
        let files :=
          FileDataAccessor.accessor mapper url getContentTypeFromExtension parseQuads
            serializeQuads toISOString numberToString in
        ensureTrailingSlash base = base ->
        forallb Fs.isFileName (segs ++ [x; uuid 0]) = true ->
        FileDataAccessor.isMetadataPath x = false ->
        FileDataAccessor.isMetadataPath (uuid 0) = false ->
        (forall quads, failure (serializeQuads quads) = None) ->
        descend (parts root ++ segs) (Fs.root fs) = Reached children ->
        forallb isSegment (map fst children) = true ->
        FileDataAccessor.getRawMetadata parseQuads
          (containerPath (ensureTrailingSlash root) segs) fs = Ok raw fs ->
        Children.lookup x children = Some node ->
        match node with Leaf file => Fs.content file <> None | Branch _ _ => True end ->
        Metadata.get HTTP.slug (metadata representation) = Some x ->
        binary representation = true ->
        (if DataAccessorBasedStore.isNewContainer (metadata representation) None
         then (exists quads, parseQuads (data representation) = inr quads
                 /\ existsb (fun quad => predicate quad =? LDP.contains) quads = false)
              /\ Children.lookup (uuid 0) children = None
         else failure (data representation) = None
              /\ match Children.lookup (uuid 0) children with
                 | Some (Branch _ _) => False
                 | _ => True
                 end
              /\ match Children.lookup (uuid 0 +:+ ".meta") children with
                 | Some (Branch _ _) => False
                 | _ => True
                 end) ->
        let isContainer :=
          DataAccessorBasedStore.isNewContainer (metadata representation) None in
        let candidate :=
          DataAccessorBasedStore.createURI (containerPath base segs) isContainer (Some x)
            (uuid 0) in
        let newID := containerPath base segs +:+ uuid 0 +:+ (if isContainer then "/" else "") in
        exists fs',
          DataAccessorBasedStore.addResource files base parseQuads
            UrlContainerManager.getContainer uuid fuel (containerPath base segs)
            representation fs
          = Some (Ok newID fs')
          /\ (if isContainer
              then exists inside time,
                     find (parts root ++ segs ++ [uuid 0]) (Fs.root fs')
                     = Some (Branch inside time)
              else exists stream,
                     FileDataAccessor.getData mapper newID fs' = Ok stream fs'
                     /\ failure stream = None
                     /\ String.concat "" (chunks stream)
                        = String.concat "" (chunks (data representation)))
          /\ (uuid 0 <> x ->
              newID <> resourcePath base segs x
              /\ newID <> containerPath base (segs ++ [x])
              /\ find (parts root ++ segs ++ [x]) (Fs.root fs') = Some node)
          /\ exists md,
               DataAccessor.getNormalizedMetadata (DataAccessor := files)
                 (containerPath base segs) fs = Ok md fs
               /\ existsb
                    (fun term => (term =? ensureTrailingSlash candidate)
                                 || (term =? trimTrailingSlashes candidate))
                    (Metadata.getAll LDP.contains md)
                  = true).
Proof.
  split.
  - intros base parseQuads uuid segs x fuel children m child representation st
      Hbase Hall _ Hentry Hkind Hchild Hslug Hvalid isContainer candidate newID.
    rewrite forallb_app in Hall. apply andb_prop in Hall as [Hsegs Hnames].
    cbn [forallb] in Hnames. apply andb_prop in Hnames as [Hx Hnames].
    apply andb_prop in Hnames as [Hu _].
    pose proof (getEntry_container_descend base segs Hsegs children m st Hentry) as Hd.
    assert (Hcheck :
      existsb
        (fun term => (term =? ensureTrailingSlash candidate)
                     || (term =? trimTrailingSlashes candidate))
        (Metadata.getAll LDP.contains
           (InMemoryDataAccessor.generateMetadata (containerPath base segs)
              (Branch children m)))
      = true).
    { subst candidate. unfold DataAccessorBasedStore.createURI.
      rewrite (ensure_containerPath base Hbase segs Hsegs).
      rewrite (isSegment_nonEmpty x Hx).
      rewrite (trim_no_slash x (endsWith_slashFree x (isSegment_slashFree x Hx))).
      exact (slug_collides base segs x Hx isContainer children m child Hchild). }
    assert (Hkept : forall entry streams',
      uuid 0 <> x ->
      newID <> resourcePath base segs x
      /\ newID <> containerPath base (segs ++ [x])
      /\ exists child',
           InMemoryDataAccessor.getEntry base (resourcePath base segs x)
             (InMemoryDataAccessor.withEntry segs (uuid 0) entry
                {| InMemoryDataAccessor.store := InMemoryDataAccessor.store st;
                   InMemoryDataAccessor.streams := streams' |})
           = Ok child'
               (InMemoryDataAccessor.withEntry segs (uuid 0) entry
                  {| InMemoryDataAccessor.store := InMemoryDataAccessor.store st;
                     InMemoryDataAccessor.streams := streams' |})
           /\ InMemoryDataAccessor.body child' = InMemoryDataAccessor.body child).
    { intros entry streams' Hfresh.
      destruct (fresh_name base uuid segs x Hx Hu Hfresh isContainer) as [Hfile Hdir].
      split; [exact Hfile|]. split; [exact Hdir|].
      exists child. split; [|reflexivity].
      exact (child_kept base uuid segs x Hsegs Hx Hfresh children m child st Hentry Hchild
               entry streams'). }
    subst isContainer.
    destruct (DataAccessorBasedStore.isNewContainer (metadata representation) None) eqn:Hnew.
    + destruct Hvalid as (quads & Hparse & Hquads).
      destruct (addResource_container_typed base Hbase parseQuads uuid segs x Hsegs Hx Hu
                  children m child representation st Hentry Hkind Hchild Hslug fuel quads
                  Hnew Hparse Hquads) as (md & Hadd & Hid & Htyped).
      assert (Hnew_id : newID = containerPath base (segs ++ [uuid 0])).
      { subst newID. now rewrite containerPath_snoc, resourcePath_containerPath, append_assoc. }
      assert (Hboth : forallb isSegment (segs ++ [uuid 0]) = true).
      { rewrite forallb_app, Hsegs. cbn [forallb]. now rewrite Hu. }
      exists (InMemoryDataAccessor.withEntry segs (uuid 0) (Branch [] (Some md)) st).
      rewrite Hnew_id in *.
      split; [exact Hadd|]. split; [|split; [|split; [|exact Hcheck]]].
      * exists md. split; [|split; [exact Hid | exact Htyped]].
        rewrite (MemoryFacts.getEntry_below base _ segs (uuid 0) _
                   (parts_containerPath base _ Hboth)).
        unfold InMemoryDataAccessor.withEntry.
        cbn [InMemoryDataAccessor.store InMemoryDataAccessor.entries].
        now rewrite (find_assigned segs (uuid 0) _ _ children Hd).
      * intros r Hr. reflexivity.
      * intros Hfresh. destruct st as [root cells].
        exact (Hkept (Branch [] (Some md)) cells Hfresh).
    + pose proof (addResource_data base Hbase parseQuads uuid segs x Hsegs Hx Hu children m
                    child representation st Hentry Hkind Hchild Hslug fuel Hnew Hvalid)
        as Hadd.
      assert (Hnew_id : newID = resourcePath base segs (uuid 0)).
      { subst newID. now rewrite append_nil_r, resourcePath_containerPath. }
      eexists. rewrite Hnew_id in *.
      split; [exact Hadd|]. split; [|split; [|split; [|exact Hcheck]]].
      * eexists. split; [|split].
        -- rewrite (MemoryFacts.getEntry_below base _ segs (uuid 0) _
                      (parts_resourcePath base segs (uuid 0) Hsegs Hu)).
           unfold InMemoryDataAccessor.withEntry.
           cbn [InMemoryDataAccessor.store InMemoryDataAccessor.entries].
           now rewrite (find_assigned segs (uuid 0) _ _ children Hd).
        -- cbn [Metadata.identifier DataAccessorBasedStore.resourceMetadata Metadata.addQuads
                Metadata.setIdentifier].
           now rewrite append_nil_r, resourcePath_containerPath.
        -- unfold InMemoryDataAccessor.buffered, InMemoryDataAccessor.withEntry.
           cbn [InMemoryDataAccessor.streams].
           rewrite app_nth2 by lia. now rewrite Nat.sub_diag.
      * intros r Hr. unfold InMemoryDataAccessor.buffered, InMemoryDataAccessor.withEntry.
        cbn [InMemoryDataAccessor.streams]. now apply app_nth1.
      * intros Hfresh. exact (Hkept _ _ Hfresh).
  - intros base root ctype parseQuads serializeQuads toISO num uuid segs x fuel children raw
      node representation fs mapper url files Hbase Hall Hpx Hpu Hserial Hfolder Hkeys Hraw
      Hchild Hlisted Hslug Hbinary Hvalid isContainer candidate newID.
    pose proof (isFileName_segments _ Hall) as Hnames.
    rewrite forallb_app in Hnames. apply andb_prop in Hnames as [Hsegs Hnames].
    cbn [forallb] in Hnames. apply andb_prop in Hnames as [Hx Hnames].
    apply andb_prop in Hnames as [Hu _].
    destruct (addResource_files_regenerates base root Hbase ctype parseQuads serializeQuads
                toISO num uuid segs x Hsegs Hx Hpx children raw node representation fs
                Hfolder Hkeys Hraw Hchild Hlisted Hslug Hbinary fuel)
      as (md & Hparent & Htaken & _).
    assert (Hdiffer : uuid 0 <> x ->
                      newID <> resourcePath base segs x
                      /\ newID <> containerPath base (segs ++ [x])).
    { intros Hfresh. exact (fresh_name base uuid segs x Hx Hu Hfresh isContainer). }
    subst isContainer.
    destruct (DataAccessorBasedStore.isNewContainer (metadata representation) None) eqn:Hnew.
    + destruct Hvalid as ((quads & Hparse & Hquads) & Hfree).
      destruct (addResource_files_container base root Hbase ctype parseQuads serializeQuads
                  toISO num Hserial uuid segs x Hsegs Hx Hu Hpx children raw node
                  representation fs Hfolder Hkeys Hraw Hchild Hlisted Hslug Hbinary fuel quads
                  Hnew Hparse Hquads Hfree)
        as (fs' & inside & time & Hadd & Hroot).
      assert (Hnew_id : newID = containerPath base (segs ++ [uuid 0])).
      { subst newID. now rewrite containerPath_snoc, resourcePath_containerPath, append_assoc. }
      exists fs'. split; [now rewrite Hnew_id|]. split; [|split].
      * exists inside, time. rewrite app_assoc, Hroot.
        exact (find_assigned _ (uuid 0) _ _ children Hfolder).
      * intros Hfresh. destruct (Hdiffer Hfresh) as [Hfile Hdir].
        split; [exact Hfile|]. split; [exact Hdir|].
        rewrite app_assoc, Hroot.
        rewrite (find_other _ (uuid 0) x _ _ children Hfolder Hfresh). exact Hchild.
      * exists md. split; [exact Hparent | exact Htaken].
    + destruct Hvalid as (Hdata & Hfile & Hside).
      destruct (addResource_files_data base root Hbase ctype parseQuads serializeQuads
                  toISO num Hserial uuid segs x Hsegs Hx Hu Hpx Hpu children raw node
                  representation fs Hfolder Hkeys Hraw Hchild Hlisted Hslug Hbinary fuel
                  Hnew Hdata Hfile Hside)
        as (fs' & f & Hadd & Hroot & Hfound & Hrest & _).
      assert (Hnew_id : newID = resourcePath base segs (uuid 0)).
      { subst newID. now rewrite append_nil_r, resourcePath_containerPath. }
      assert (Hd' : descend (parts root ++ segs) (Fs.root fs') = Reached (f children)).
      { rewrite Hroot. now apply descend_modify. }
      exists fs'. split; [now rewrite Hnew_id|]. split; [|split].
      * destruct (Hfound children) as [time Hlook].
        exists (Fs.fileStream (chunks (data representation))).
        split; [|exact (FileFacts.fileStream_bytes _)].
        rewrite Hnew_id.
        apply (getData_file base root segs (uuid 0) _ time fs' Hsegs Hu).
        rewrite app_assoc, find_snoc, Hd'. exact Hlook.
      * intros Hfresh. destruct (Hdiffer Hfresh) as [Hfile' Hdir].
        split; [exact Hfile'|]. split; [exact Hdir|].
        rewrite app_assoc, find_snoc, Hd', Hrest; [exact Hchild|congruence|].
        intros ->. now rewrite isMetadataPath_metadata_name in Hpx.
      * exists md. split; [exact Hparent | exact Htaken].
Qed.

Lemma addResource_slug_collision_witness :
  (exists st' child',
      DataAccessorBasedStore.addResource (InMemoryDataAccessor.accessor testBase) testBase
        testParser UrlContainerManager.getContainer testUuid 0
        "http://test.com/c/" (withSlug "x" ["new"]) containerWithChild
      = Some (Ok "http://test.com/c/b3c8e2a0" st')
      /\ InMemoryDataAccessor.buffered 1 st' = ["new"]
      /\ InMemoryDataAccessor.buffered 0 st' = ["hello"]
      /\ InMemoryDataAccessor.getEntry testBase "http://test.com/c/x" st' = Ok child' st')
  /\ exists fs' stream,
       DataAccessorBasedStore.addResource
         (FileDataAccessor.accessor testMapper testUrl testContentType testParser testSerializer
            testDate testNumber)
         testBase testParser UrlContainerManager.getContainer testUuid 0
         "http://test.com/c/" (withSlug "x" ["new"])
         (uploads [("c", Branch [("x", regularFile ["data"])] 0)])
       = Some (Ok "http://test.com/c/b3c8e2a0" fs')
       /\ FileDataAccessor.getData testMapper "http://test.com/c/b3c8e2a0" fs' = Ok stream fs'
       /\ String.concat "" (chunks stream) = "new"
       /\ find ["uploads"; "c"; "x"] (Fs.root fs') = Some (regularFile ["data"]).
Proof.
  destruct addResource_slug_collision as [Hmemory Hfiles]. split.
  - epose proof (Hmemory testBase testParser testUuid ["c"] "x" 0 _ _ _ (withSlug "x" ["new"])
                   containerWithChild) as H.
    edestruct H as (st' & Hadd & Hstored & Hcells & Hkept & _); clear H.
    + reflexivity.
    + reflexivity.
    + reflexivity.
    + vm_compute. reflexivity.
    + reflexivity.
    + reflexivity.
    + reflexivity.
    + reflexivity.
    + destruct Hstored as (md & _ & _ & Hnew).
      destruct (Hkept ltac:(discriminate)) as (_ & _ & child' & Hchild & _).
      exists st', child'. split; [exact Hadd|]. split; [exact Hnew|].
      split; [|exact Hchild]. now rewrite (Hcells 0 Nat.lt_0_1).
  - epose proof (Hfiles "http://test.com/" "uploads" testContentType testParser testSerializer
                   testDate testNumber testUuid ["c"] "x" 0 _ _ _ (withSlug "x" ["new"])
                   (uploads [("c", Branch [("x", regularFile ["data"])] 0)])) as H.
    edestruct H as (fs' & Hadd & Hstored & Hkept & _); clear H.
    + reflexivity.
    + reflexivity.
    + reflexivity.
    + reflexivity.
    + intros quads. reflexivity.
    + reflexivity.
    + reflexivity.
    + reflexivity.
    + reflexivity.
    + discriminate.
    + reflexivity.
    + reflexivity.
    + repeat split.
    + destruct Hstored as (stream & Hget & _ & Hbytes).
      destruct (Hkept ltac:(discriminate)) as (_ & _ & Hchild).
      exists fs', stream. split; [exact Hadd|]. split; [exact Hget|].
      split; [exact Hbytes | exact Hchild].
Defined.
